(** * Coda: the LLM completion layer

    A shallow embedding of the Go packages [coda/internal/config],
    [coda/internal/llm], [coda/internal/llm/openai],
    [coda/internal/llm/ollama] and [coda/internal/llm/langfuse], and the
    properties of the retry / fallback / registry logic that are proved
    about it.

    Conventions of the embedding.
    - Go [int], [int64] and [time.Duration] are [Z] (durations in
      nanoseconds), without the wrap-around of 64 bits.
    - [RetryConfig.Factor] is a [float64] in the source.  It is a rational
      [Q] here and [float64(wait) * Factor] is the exact product, truncated
      toward zero by the conversion back to [time.Duration]; the two agree
      wherever the product is exact in a [float64], as it is for the
      default policy.
    - A Go function returning a pointer and an [error] returns a pair of
      options, so that "both nil" and "both set" stay expressible; a
      run-time panic is a separate outcome.
    - Everything outside the process (provider backends, the telemetry
      endpoint, [url.Parse], the clock, the runtime's choice between two
      ready [select] cases) is an oracle carried by the [World]. *)

From Stdlib Require Import ZArith String List Bool Lia.
From Stdlib Require QArith_base.
From stdpp Require Import gmap strings list fin_maps pretty.

Local Open Scope string_scope.
Local Open Scope list_scope.
Local Open Scope Z_scope.

Abbreviation Q := QArith_base.Q.
Abbreviation Qnum := QArith_base.Qnum.
Abbreviation Qden := QArith_base.Qden.
Abbreviation Qmake := QArith_base.Qmake.

(** ** Package config *)

Module config.

Record OpenAI := { APIKey : string }.

Record Langfuse := { PrivateKey : string; PublicKey : string }.

Record Ollama := { BaseURL : string }.

Record LLM := { openai : OpenAI; ollama : Ollama; langfuse : Langfuse }.

(** [Global.Env]; the logging and server sections are not read by the
    LLM layer. *)
Record Config := { Env : string; llm : LLM }.

Definition Langfuse_IsConfigured (l : Langfuse) : bool :=
  negb (String.eqb (PrivateKey l) EmptyString) && negb (String.eqb (PublicKey l) EmptyString).

Definition Ollama_IsConfigured (o : Ollama) : bool :=
  negb (String.eqb (BaseURL o) EmptyString).

End config.

(** ** Package llm: models and providers *)

(** [type Provider string]. *)
Definition Provider := string.
Definition OpenAI : Provider := "openai".
Definition Ollama : Provider := "ollama".

Record ModelCapabilities := {
  SupportsStreaming : bool;
  SupportsFunctions : bool;
  SupportsVision : bool;
  SupportsJSON : bool
}.

(** [Pricing *ModelPricing] is a pointer: as part of a map key it is
    compared by address, so the field holds the address ([None] is nil). *)
Record Model := {
  Provider_ : Provider;
  Name : string;
  DisplayName : string;
  MaxToken : Z;
  ContextWindow : Z;
  PDFSupported : bool;
  Version : string;
  Family : string;
  Pricing : option N;
  Capabilities : ModelCapabilities
}.

#[global] Instance ModelCapabilities_eq_dec : EqDecision ModelCapabilities.
Proof. solve_decision. Defined.

#[global] Instance Model_eq_dec : EqDecision Model.
Proof. solve_decision. Defined.

Definition Model_to_tuple (m : Model) :
  string * string * string * Z * Z * bool * string * string * option N *
  (bool * bool * bool * bool) :=
  (Provider_ m, Name m, DisplayName m, MaxToken m, ContextWindow m,
   PDFSupported m, Version m, Family m, Pricing m,
   (SupportsStreaming (Capabilities m), SupportsFunctions (Capabilities m),
    SupportsVision (Capabilities m), SupportsJSON (Capabilities m))).

Definition Model_of_tuple
  (t : string * string * string * Z * Z * bool * string * string * option N *
       (bool * bool * bool * bool)) : Model :=
  let '(p, n, d, mt, cw, pdf, v, f, pr, (c1, c2, c3, c4)) := t in
  {| Provider_ := p; Name := n; DisplayName := d; MaxToken := mt;
     ContextWindow := cw; PDFSupported := pdf; Version := v; Family := f;
     Pricing := pr;
     Capabilities := {| SupportsStreaming := c1; SupportsFunctions := c2;
                        SupportsVision := c3; SupportsJSON := c4 |} |}.

#[global] Instance Model_countable : Countable Model.
Proof.
  apply (inj_countable' Model_to_tuple Model_of_tuple).
  intros [? ? ? ? ? ? ? ? ? []]; reflexivity.
Defined.

(** ** Package llm: errors *)

(** The package-level error values ([errors.New] at initialisation) and the
    two context errors.  They are compared by identity. *)
Inductive Sentinel :=
| ErrTokenLimitReached | ErrContextLengthExceeded | ErrInvalidArguments
| ErrNoMessages
| ErrInvalidAPIKey | ErrAuthenticationFailed
| ErrServiceUnavailable | ErrTooManyRequests | ErrTimeout | ErrRateLimited
| ErrContentFiltered | ErrContentNotAllowed
| ErrModelNotFound | ErrModelOverloaded
| ErrInvalidFunctionCall | ErrFunctionNotFound
| ErrInternalError
| context_Canceled | context_DeadlineExceeded.

#[global] Instance Sentinel_eq_dec : EqDecision Sentinel.
Proof. solve_decision. Defined.

(** [*openai.Error]: the fields [handleError] reads. *)
Record openai_Error := { oa_StatusCode : Z; oa_Code : string }.

(** [api.StatusError] of the Ollama client library. *)
Record api_StatusError := {
  st_StatusCode : Z;
  st_Status : string;
  st_ErrorMessage : string
}.

(** [LLMError], over the type of the error it wraps.  The fields
    [Provider] and [Model] are [ErrProvider] and [ErrModel] here. *)
Record LLMErrorOf (E : Type) := mkLLMError {
  Err : option E;
  ErrProvider : string;
  ErrModel : string;
  StatusCode : Z;
  ErrorCode : string;
  ErrorMessage : string;
  RequestID : string;
  Retryable : bool
}.

Arguments mkLLMError {E}.
Arguments Err {E}.
Arguments ErrProvider {E}.
Arguments ErrModel {E}.
Arguments StatusCode {E}.
Arguments ErrorCode {E}.
Arguments ErrorMessage {E}.
Arguments RequestID {E}.
Arguments Retryable {E}.

(** Go [error] values, as far as this code builds or inspects them. *)
#[warnings="-register-all"]
Inductive error :=
| ErrValue (s : Sentinel)
    (* one of the package-level values above *)
| ErrNew (text : string)
    (* errors.New / fmt.Errorf without %w at run time: equal to no sentinel *)
| ErrWrap (text : string) (inner : error)
    (* fmt.Errorf(text + ": %w", inner) *)
| ErrOpenAI (e : openai_Error)
| ErrStatus (e : api_StatusError)
| ErrLLM (e : LLMErrorOf error).

Abbreviation LLMError := (LLMErrorOf error).

(** [errors.Is(err, target)] for a sentinel target: walk the [Unwrap]
    chain comparing by identity. *)
Fixpoint errors_Is (err : error) (target : Sentinel) : bool :=
  match err with
  | ErrValue s => bool_decide (s = target)
  | ErrWrap _ inner => errors_Is inner target
  | ErrLLM (mkLLMError (Some inner) _ _ _ _ _ _ _) => errors_Is inner target
  | _ => false
  end.

(** [errors.As(err, &llmErr)] with [llmErr *LLMError]. *)
Fixpoint errors_As_LLMError (err : error) : option LLMError :=
  match err with
  | ErrLLM e => Some e
  | ErrWrap _ inner => errors_As_LLMError inner
  | _ => None
  end.

(** [errors.As(err, &apiErr)] with [apiErr *openai.Error]. *)
Fixpoint errors_As_openai (err : error) : option openai_Error :=
  match err with
  | ErrOpenAI e => Some e
  | ErrWrap _ inner => errors_As_openai inner
  | ErrLLM (mkLLMError (Some inner) _ _ _ _ _ _ _) => errors_As_openai inner
  | _ => None
  end.

(** [errors.As(err, &statusError)] with [statusError api.StatusError]. *)
Fixpoint errors_As_StatusError (err : error) : option api_StatusError :=
  match err with
  | ErrStatus e => Some e
  | ErrWrap _ inner => errors_As_StatusError inner
  | ErrLLM (mkLLMError (Some inner) _ _ _ _ _ _ _) => errors_As_StatusError inner
  | _ => None
  end.

Definition NewLLMError (err : error) (provider model : string) : LLMError :=
  mkLLMError (Some err) provider model 0 EmptyString EmptyString EmptyString false.

Definition WithStatusCode (e : LLMError) (code : Z) : LLMError :=
  mkLLMError (Err e) (ErrProvider e) (ErrModel e) code (ErrorCode e)
             (ErrorMessage e) (RequestID e) (Retryable e).

Definition WithErrorCode (e : LLMError) (code : string) : LLMError :=
  mkLLMError (Err e) (ErrProvider e) (ErrModel e) (StatusCode e) code
             (ErrorMessage e) (RequestID e) (Retryable e).

Definition WithErrorMessage (e : LLMError) (msg : string) : LLMError :=
  mkLLMError (Err e) (ErrProvider e) (ErrModel e) (StatusCode e) (ErrorCode e)
             msg (RequestID e) (Retryable e).

Definition WithRetryable (e : LLMError) (retryable : bool) : LLMError :=
  mkLLMError (Err e) (ErrProvider e) (ErrModel e) (StatusCode e) (ErrorCode e)
             (ErrorMessage e) (RequestID e) retryable.

(** The assignment [llmErr.Err = err]. *)
Definition set_Err (e : LLMError) (err : error) : LLMError :=
  mkLLMError (Some err) (ErrProvider e) (ErrModel e) (StatusCode e)
             (ErrorCode e) (ErrorMessage e) (RequestID e) (Retryable e).

(** [IsRetryable] of errors.go. *)
Definition IsRetryable (err : error) : bool :=
  match errors_As_LLMError err with
  | Some llmErr => Retryable llmErr
  | None =>
      errors_Is err ErrServiceUnavailable
      || errors_Is err ErrTooManyRequests
      || errors_Is err ErrTimeout
      || errors_Is err ErrRateLimited
      || errors_Is err ErrModelOverloaded
  end.

(** [isRetryableError] of completer.go, the predicate the retry loop uses. *)
Definition isRetryableError (err : error) : bool :=
  errors_Is err ErrServiceUnavailable
  || errors_Is err ErrTooManyRequests
  || errors_Is err context_DeadlineExceeded.

(** ** Package llm: messages, parameters, responses *)

(** [type Role string]. *)
Definition Role := string.
Definition RoleSystem : Role := "system".
Definition RoleUser : Role := "user".
Definition RoleAssistant : Role := "assistant".
Definition RoleFunction : Role := "function".

Record FunctionCall := { fc_Name : string; fc_Arguments : string }.

(** [Message].  Fields whose names other records also use carry the prefix
    [Msg]; [Timestamp] is nanoseconds on the clock of the [World], 0 being
    the zero time; the untyped [Metadata] is left out. *)
Record Message := {
  MsgID : string;
  Hidden : bool;
  MsgRole : Role;
  Content : string;
  MsgName : string;
  MsgFunctionCall : option FunctionCall;
  MsgFinishReason : string;
  Completed : bool;
  MsgError : option string;
  Length : Z;
  Timestamp : Z
}.

(** The message literal [llm.Message{Role: .., Content: .., FinishReason:
    .., Completed: true}] both provider clients build. *)
Definition completedMessage (role : Role) (content finish : string) : Message :=
  {| MsgID := EmptyString; Hidden := false; MsgRole := role; Content := content;
     MsgName := EmptyString; MsgFunctionCall := None; MsgFinishReason := finish;
     Completed := true; MsgError := None; Length := 0; Timestamp := 0 |}.

Record FunctionDefinition := { fd_Name : string; fd_Description : string }.

(** [CompleteParams]; the [float32] sampling parameters are rationals. *)
Record CompleteParams := {
  Messages : list Message;
  MaxTokens : option Z;
  Temperature : option Q;
  TopP : option Q;
  N_ : option Z;
  Stream : bool;
  Functions : list FunctionDefinition;
  JSONMode : bool
}.

Record Usage := {
  Unit_ : string;
  PromptTokens : Z;
  CompletionTokens : Z;
  TotalTokens : Z
}.

Record CompletionMetadata := {
  ModelName : string;
  FinishReason : string;
  CompletionID : string;
  LatencyMs : Z;
  ProcessedAt : Z;
  RequestTokens : Z
}.

(** [CompleteResponse]; its [Messages] field is [ResMessages]. *)
Record CompleteResponse := {
  ResMessages : list Message;
  ResUsage : option Usage;
  Metadata : CompletionMetadata
}.

(** [llm.Config].  [APIKeyFunc] is a nil-able closure over the immutable
    configuration; it is represented by the key it returns. *)
Record Config := {
  APIKeyFunc : option string;
  CfgModel : Model;
  Timeout : Z;
  LLMConfig : config.LLM
}.

(** What a call returning a pointer and an error hands back. *)
Inductive Outcome :=
| Return (res : option CompleteResponse) (err : option error)
| Panic (v : string).

Definition nilDereference : string :=
  "runtime error: invalid memory address or nil pointer dereference".

(** ** [context.Context] *)

(** A context is done from the instant [doneAt] on ([None]: never), and
    then reports [cause]: [context_Canceled] or [context_DeadlineExceeded]. *)
Record Context := { doneAt : option Z; cause : Sentinel }.

(** [ctx.Err()] at time [t]. *)
Definition ctx_Err (ctx : Context) (t : Z) : option error :=
  match doneAt ctx with
  | Some d => if d <=? t then Some (ErrValue (cause ctx)) else None
  | None => None
  end.

(** ** Wire formats of the two backends *)

(** [openai.ChatCompletionMessageParamUnion], as built by
    [openai.UserMessage], [openai.AssistantMessage], [openai.SystemMessage]. *)
Inductive ChatCompletionMessageParam :=
| UserMessage (content : string)
| AssistantMessage (content : string)
| SystemMessage (content : string).

Definition wireRole (m : ChatCompletionMessageParam) : string :=
  match m with
  | UserMessage _ => "user"
  | AssistantMessage _ => "assistant"
  | SystemMessage _ => "system"
  end.

Definition wireContent (m : ChatCompletionMessageParam) : string :=
  match m with
  | UserMessage c | AssistantMessage c | SystemMessage c => c
  end.

Record ChatCompletionNewParams := {
  cp_Messages : list ChatCompletionMessageParam;
  cp_Model : string;
  cp_Seed : Z;
  cp_MaxTokens : option Z;
  cp_Temperature : option Q;
  cp_TopP : option Q;
  cp_N : option Z
}.

(** [api.Message] and [api.ChatRequest] of the Ollama client library. *)
Record api_Message := { am_Role : string; am_Content : string }.

Record api_ChatRequest := {
  cr_Model : string;
  cr_Messages : list api_Message;
  cr_Stream : bool
}.

(** One outbound provider call. *)
Inductive Request :=
| OpenAIRequest (apiKey : string) (p : ChatCompletionNewParams)
| OllamaRequest (baseURL : string) (r : api_ChatRequest).

(** What a backend sends back: either the items of a completion (the
    [Choices] of an OpenAI completion, the chat responses handed one by one
    to the Ollama callback) or the error the client library returns. *)
Record ReplyItem := { ri_Role : string; ri_Content : string; ri_Finish : string }.

Record ReplyUsage := { ru_Prompt : Z; ru_Completion : Z; ru_Total : Z }.

Inductive ReplyBody :=
| ReplyOK (id : string) (items : list ReplyItem) (usage : ReplyUsage)
| ReplyError (e : error).

(** [elapsed]: the time the call took, in nanoseconds. *)
Record Reply := { elapsed : Z; body : ReplyBody }.

(** ** Package langfuse: events *)

Module langfuse.

(** The generated identifiers and the formatted timestamps of the bodies
    are left out: they are fresh UUIDs and clock readings. *)
Record TraceBody := {
  tb_Name : string;
  tb_Input : string;
  tb_Output : string;
  tb_Environment : string;
  tb_Tags : list string
}.

Record GenerationBody := {
  gb_Name : string;
  gb_Model : string;
  gb_Temperature : Q;
  gb_MaxTokens : Z;
  gb_TopP : Q;
  gb_Input : list Message;
  gb_Output : list Message;
  gb_Level : string;
  gb_UsageDetails : option (Z * Z * Z)
}.

(** [Event], by its [type]: "trace-create" or "generation-create". *)
Inductive Event :=
| CreateTrace (body : TraceBody)
| CreateGeneration (body : GenerationBody).

Record IngestionResponse := {
  Successes : list (string * Z);
  Errors : list (string * Z * string)
}.

(** [Client]. *)
Record Client := { publicKey : string; secretKey : string; apiURL : string }.

Definition DefaultAPIURL : string := "https://cloud.langfuse.com".

Definition NewClient (cfg : config.Config) : Client :=
  {| publicKey := config.PublicKey (config.langfuse (config.llm cfg));
     secretKey := config.PrivateKey (config.langfuse (config.llm cfg));
     apiURL := DefaultAPIURL |}.

(** How one ingestion call goes, following the exits of [Ingest]: the batch
    does not marshal, the POST fails in transport, or a response with a
    status code arrives whose body decodes or does not; or the call panics and the panic unwinds the goroutine that
    [completer.Complete] started. *)
Inductive Behaviour :=
| MarshalFails (e : error)
| TransportFails (e : error)
| Responds (status : Z) (decoded : IngestionResponse + error)
| Panics (v : string).

End langfuse.

(** ** The registry and the completer's own data *)

(** The two constructors registered by the provider packages
    ([openai.New], [ollama.New]). *)
Inductive Constructor := openai_New | ollama_New.

Record SupportedModels := { Constructor_ : Constructor; Model_ : Model }.

Record Registry := { models : list Model }.

Record RetryConfig := {
  MaxAttempts : Z;
  InitialWait : Z;
  MaxWait : Z;
  Factor : Q
}.

Definition Millisecond : Z := 1000000.
Definition Second : Z := 1000 * Millisecond.

Definition DefaultRetryConfig : RetryConfig :=
  {| MaxAttempts := 3;
     InitialWait := 500 * Millisecond;
     MaxWait := 5 * Second;
     Factor := Qmake 3 2 |}.

Record completer := {
  cfg : config.Config;
  langfuse_ : option langfuse.Client;
  retryConfig : RetryConfig;
  registry : Registry
}.

(** The telemetry goroutine [Complete] starts: the closure's captures. *)
Record Task := {
  task_c : completer;
  task_ctx : Context;
  task_model : Model;
  task_params : CompleteParams;
  task_res : CompleteResponse
}.

(** ** The world *)

Inductive Level := LevelInfo | LevelWarn | LevelError.

Inductive Field :=
| FString (s : string)
| FInt (z : Z)
| FError (e : option error)
| FErrors (es : list (string * Z * string)).

(** What the process does that can be seen from outside, in order. *)
Inductive Event :=
| EvLog (lvl : Level) (msg : string) (fields : list (string * Field))
| EvRequest (req : Request)            (* a provider HTTP call *)
| EvSleep (d : Z)                      (* a backoff timer that fired *)
| EvIngest (batch : list langfuse.Event). (* a telemetry POST *)

(** State and oracles.
    - [now]: the clock, in nanoseconds.
    - [calls]: provider calls made so far; the next one is answered by
      [backend calls request].
    - [trace]: the events so far, oldest first.
    - [completions]: ghost record kept by [CompleteWithFallback] of the
      [Complete] calls it made and what they returned, oldest first.
    - [goroutines]: telemetry goroutines started and not yet run.
    - [supportedModels]: the package-level registration map.
    - [telemetry]: how the ingestion call for a batch goes.
    - [url_Parse]: the message of the [*url.Error] that [url.Parse] returns
      for a string ([None]: it parses).
    - [select_prefers_done]: which case the runtime picks when the context
      becomes done at the very instant the backoff timer fires. *)
Record World := mkWorld {
  now : Z;
  calls : nat;
  trace : list Event;
  completions : list (Model * Outcome);
  goroutines : list Task;
  supportedModels : gmap Model SupportedModels;
  backend : nat -> Request -> Reply;
  telemetry : list langfuse.Event -> langfuse.Behaviour;
  url_Parse : string -> option string;
  select_prefers_done : bool
}.

Definition set_now (t : Z) (w : World) : World :=
  mkWorld t (calls w) (trace w) (completions w) (goroutines w)
          (supportedModels w) (backend w) (telemetry w) (url_Parse w)
          (select_prefers_done w).

Definition set_calls (n : nat) (w : World) : World :=
  mkWorld (now w) n (trace w) (completions w) (goroutines w)
          (supportedModels w) (backend w) (telemetry w) (url_Parse w)
          (select_prefers_done w).

Definition set_trace (t : list Event) (w : World) : World :=
  mkWorld (now w) (calls w) t (completions w) (goroutines w)
          (supportedModels w) (backend w) (telemetry w) (url_Parse w)
          (select_prefers_done w).

Definition set_completions (l : list (Model * Outcome)) (w : World) : World :=
  mkWorld (now w) (calls w) (trace w) l (goroutines w)
          (supportedModels w) (backend w) (telemetry w) (url_Parse w)
          (select_prefers_done w).

Definition set_goroutines (g : list Task) (w : World) : World :=
  mkWorld (now w) (calls w) (trace w) (completions w) g
          (supportedModels w) (backend w) (telemetry w) (url_Parse w)
          (select_prefers_done w).

Definition set_supportedModels (m : gmap Model SupportedModels) (w : World) : World :=
  mkWorld (now w) (calls w) (trace w) (completions w) (goroutines w)
          m (backend w) (telemetry w) (url_Parse w)
          (select_prefers_done w).

Definition set_telemetry (f : list langfuse.Event -> langfuse.Behaviour)
  (w : World) : World :=
  mkWorld (now w) (calls w) (trace w) (completions w) (goroutines w)
          (supportedModels w) (backend w) f (url_Parse w)
          (select_prefers_done w).

(** ** The state monad of the embedding *)

Definition M (A : Type) : Type := World -> A * World.

Definition ret {A} (a : A) : M A := fun w => (a, w).

Definition bind {A B} (m : M A) (k : A -> M B) : M B :=
  fun w => let (a, w') := m w in k a w'.

Notation "x <- m ;; k" := (bind m (fun x => k))
  (at level 100, m at next level, right associativity).
Notation "m ;; k" := (bind m (fun _ => k))
  (at level 100, right associativity).

Definition emit (e : Event) : M unit :=
  fun w => (tt, set_trace (trace w ++ [e]) w).

Definition logger_Info (msg : string) (fields : list (string * Field)) : M unit :=
  emit (EvLog LevelInfo msg fields).

Definition logger_Warn (msg : string) (fields : list (string * Field)) : M unit :=
  emit (EvLog LevelWarn msg fields).

Definition logger_Error (msg : string) (fields : list (string * Field)) : M unit :=
  emit (EvLog LevelError msg fields).

(** A blocking provider call: the request goes out, the oracle answers,
    the clock advances by the time the call took.  The context travels with
    the call; what a done context does to a call in flight is the reply the
    oracle gives. *)
Definition roundTrip (ctx : Context) (req : Request) : M ReplyBody :=
  fun w =>
    let r := backend w (calls w) req in
    (body r,
     set_now (now w + elapsed r)
       (set_calls (S (calls w)) (set_trace (trace w ++ [EvRequest req]) w))).

(** The [select] of the retry loop: [ctx.Done()] against
    [time.After(wait)].  The timer fires at [now + wait], at once when
    [wait <= 0].  Returns [true] when the done case is taken. *)
Definition selectDoneOrAfter (ctx : Context) (wait : Z) : M bool :=
  fun w =>
    let fire := now w + Z.max 0 wait in
    let timer := (false, set_now fire (set_trace (trace w ++ [EvSleep wait]) w)) in
    match doneAt ctx with
    | None => timer
    | Some d =>
        if d <? fire then (true, set_now (Z.max (now w) d) w)
        else if (d =? fire) && select_prefers_done w then (true, set_now fire w)
        else timer
    end.

(** The value of the interface [LLM]: one of the two provider clients.
    The OpenAI client holds the key its constructor read. *)
Inductive LLM :=
| OpenAIClient (cfg : Config) (apiKey : string)
| OllamaClient (cfg : Config).

(** ** Package openai *)

Module openai.

Definition ErrCodeContextLengthExceeded : string := "context_length_exceeded".
Definition ErrCodeLength : string := "length".
Definition ErrCodeInvalidAPIKey : string := "invalid_api_key".
Definition ErrCodeRateLimitExceeded : string := "rate_limit_exceeded".
Definition ErrCodeInsufficientQuota : string := "insufficient_quota".
Definition ErrCodeInvalidRequestError : string := "invalid_request_error".

Definition New (cfg : Config) : option LLM * option error :=
  match APIKeyFunc cfg with
  | None => (None, Some (ErrNew "API key function is required"))
  | Some key => (Some (OpenAIClient cfg key), None)
  end.

(** The conversion loop of [Complete]; [messages] is the slice appended
    to; the right injection is the early [return nil, err]. *)
Fixpoint convertMessages (ms : list Message)
  (messages : list ChatCompletionMessageParam)
  : list ChatCompletionMessageParam + error :=
  match ms with
  | [] => inl messages
  | m :: rest =>
      if String.eqb (MsgRole m) RoleUser then
        convertMessages rest (messages ++ [UserMessage (Content m)])
      else if String.eqb (MsgRole m) RoleAssistant then
        convertMessages rest (messages ++ [AssistantMessage (Content m)])
      else if String.eqb (MsgRole m) RoleSystem then
        convertMessages rest (messages ++ [SystemMessage (Content m)])
      else if String.eqb (MsgRole m) RoleFunction then
        convertMessages rest
          (messages ++ [UserMessage ("Function " +:+ MsgName m +:+
                                     " returned: " +:+ Content m)])
      else inr (ErrNew ("unsupported role: " +:+ MsgRole m))
  end.

Definition handleError (cfg : Config) (err : error) : error :=
  match errors_As_openai err with
  | Some apiErr =>
      let llmErr :=
        WithErrorCode
          (WithStatusCode (NewLLMError err OpenAI (Name (CfgModel cfg)))
                          (oa_StatusCode apiErr))
          (oa_Code apiErr) in
      if String.eqb (oa_Code apiErr) ErrCodeContextLengthExceeded then
        ErrLLM (set_Err llmErr (ErrValue ErrContextLengthExceeded))
      else if String.eqb (oa_Code apiErr) ErrCodeLength then
        ErrLLM (set_Err llmErr (ErrValue ErrTokenLimitReached))
      else if String.eqb (oa_Code apiErr) ErrCodeInvalidAPIKey then
        ErrLLM (set_Err llmErr (ErrValue ErrInvalidAPIKey))
      else if String.eqb (oa_Code apiErr) ErrCodeRateLimitExceeded then
        ErrLLM (WithRetryable (set_Err llmErr (ErrValue ErrRateLimited)) true)
      else if String.eqb (oa_Code apiErr) ErrCodeInsufficientQuota then
        ErrLLM (set_Err llmErr (ErrNew "insufficient quota"))
      else if (500 <=? oa_StatusCode apiErr) && (oa_StatusCode apiErr <? 600) then
        ErrLLM (WithRetryable (set_Err llmErr (ErrValue ErrServiceUnavailable)) true)
      else if oa_StatusCode apiErr =? 429 then
        ErrLLM (WithRetryable (set_Err llmErr (ErrValue ErrTooManyRequests)) true)
      else ErrLLM llmErr
  | None => ErrLLM (NewLLMError err OpenAI (Name (CfgModel cfg)))
  end.

Definition choiceMessage (choice : ReplyItem) : Message :=
  completedMessage (ri_Role choice) (ri_Content choice) (ri_Finish choice).

Definition Complete (cfg : Config) (apiKey : string) (ctx : Context)
  (params : CompleteParams) : M (option CompleteResponse * option error) :=
  fun w0 =>
    let startTime := now w0 in
    (match convertMessages (Messages params) [] with
     | inr err => ret (None, Some err)
     | inl messages =>
         let completionParams :=
           {| cp_Messages := messages;
              cp_Model := Name (CfgModel cfg);
              cp_Seed := 1;
              cp_MaxTokens := MaxTokens params;
              cp_Temperature := Temperature params;
              cp_TopP := TopP params;
              cp_N := N_ params |} in
         completion <- roundTrip ctx (OpenAIRequest apiKey completionParams) ;;
         match completion with
         | ReplyError err => ret (None, Some (handleError cfg err))
         | ReplyOK _ [] _ => ret (None, Some (ErrValue ErrNoMessages))
         | ReplyOK id (first :: others) usage =>
             fun w =>
               (Some {| ResMessages := map choiceMessage (first :: others);
                        ResUsage :=
                          Some {| Unit_ := "tokens";
                                  PromptTokens := ru_Prompt usage;
                                  CompletionTokens := ru_Completion usage;
                                  TotalTokens := ru_Total usage |};
                        Metadata :=
                          {| ModelName := Name (CfgModel cfg);
                             FinishReason := ri_Finish first;
                             CompletionID := id;
                             LatencyMs := (now w - startTime) `quot` Millisecond;
                             ProcessedAt := now w;
                             RequestTokens := ru_Prompt usage |} |},
                None, w)
         end
     end) w0.

End openai.

(** ** Package ollama *)

Module ollama.

Definition New (cfg : Config) : option LLM * option error :=
  (Some (OllamaClient cfg), None).

(** The conversion loop of [Complete]: a function message falls through to
    the default case. *)
Fixpoint convertMessages (ms : list Message) (messages : list api_Message)
  : list api_Message + error :=
  match ms with
  | [] => inl messages
  | m :: rest =>
      if String.eqb (MsgRole m) RoleUser then
        convertMessages rest
          (messages ++ [{| am_Role := "user"; am_Content := Content m |}])
      else if String.eqb (MsgRole m) RoleAssistant then
        convertMessages rest
          (messages ++ [{| am_Role := "assistant"; am_Content := Content m |}])
      else if String.eqb (MsgRole m) RoleSystem then
        convertMessages rest
          (messages ++ [{| am_Role := "system"; am_Content := Content m |}])
      else inr (ErrNew ("unsupported role: " +:+ MsgRole m))
  end.

Definition handleError (cfg : Config) (err : error) : error :=
  match errors_As_StatusError err with
  | Some statusError =>
      let llmErr :=
        WithErrorMessage
          (WithErrorCode
             (WithStatusCode (NewLLMError err Ollama (Name (CfgModel cfg)))
                             (st_StatusCode statusError))
             (st_Status statusError))
          (st_ErrorMessage statusError) in
      if (500 <=? st_StatusCode statusError) && (st_StatusCode statusError <? 600) then
        ErrLLM (WithRetryable (set_Err llmErr (ErrValue ErrServiceUnavailable)) true)
      else if st_StatusCode statusError =? 429 then
        ErrLLM (WithRetryable (set_Err llmErr (ErrValue ErrTooManyRequests)) true)
      else ErrLLM llmErr
  | None => ErrLLM (NewLLMError err Ollama (Name (CfgModel cfg)))
  end.

Definition llmRole (ollamaRole : string) : Role :=
  if String.eqb ollamaRole "user" then RoleUser
  else if String.eqb ollamaRole "assistant" then RoleAssistant
  else if String.eqb ollamaRole "system" then RoleSystem
  else RoleFunction.

(** The callback [respFunc], once per chat response. *)
Definition respMessage (resp : ReplyItem) : Message :=
  completedMessage (llmRole (ri_Role resp)) (ri_Content resp) (ri_Finish resp).

Definition Complete (cfg : Config) (ctx : Context) (params : CompleteParams)
  : M (option CompleteResponse * option error) :=
  fun w0 =>
    let startTime := now w0 in
    let baseURL := config.BaseURL (config.ollama (LLMConfig cfg)) in
    (match url_Parse w0 baseURL with
     | Some text =>
         logger_Error "invalid base URL" [("err", FError (Some (ErrNew text)))] ;;
         ret (None, Some (ErrWrap "invalid base URL" (ErrNew text)))
     | None =>
         match convertMessages (Messages params) [] with
         | inr err => ret (None, Some err)
         | inl messages =>
             let req := {| cr_Model := Name (CfgModel cfg);
                           cr_Messages := messages;
                           cr_Stream := false |} in
             reply <- roundTrip ctx (OllamaRequest baseURL req) ;;
             match reply with
             | ReplyError err => ret (None, Some (handleError cfg err))
             | ReplyOK _ responses _ =>
                 fun w =>
                   (Some {| ResMessages := map respMessage responses;
                            ResUsage := None;
                            Metadata :=
                              {| ModelName := Name (CfgModel cfg);
                                 FinishReason := EmptyString;
                                 CompletionID := EmptyString;
                                 LatencyMs := (now w - startTime) `quot` Millisecond;
                                 ProcessedAt := now w;
                                 RequestTokens := 0 |} |},
                    None, w)
             end
         end
     end) w0.

End ollama.

(** The method call [llm.Complete(ctx, params)] on the interface value. *)
Definition LLM_Complete (llm : LLM) (ctx : Context) (params : CompleteParams)
  : M (option CompleteResponse * option error) :=
  match llm with
  | OpenAIClient cfg key => openai.Complete cfg key ctx params
  | OllamaClient cfg => ollama.Complete cfg ctx params
  end.

(** ** Package llm: the registry *)

(** [%q] of a string without characters that need escaping. *)
Definition quoted (s : string) : string :=
  String (Ascii.ascii_of_nat 34) s +:+ String (Ascii.ascii_of_nat 34) EmptyString.

Definition RegisterLLM (constructor : Constructor) (ms : list Model) : M unit :=
  fun w =>
    (tt,
     set_supportedModels
       (foldl (fun registered model =>
                 <[model := {| Constructor_ := constructor; Model_ := model |}]>
                   registered)
              (supportedModels w) ms)
       w).

(** The body of the [range] loop of [NewRegistry], for one key. *)
Definition appendUsable (cfg : config.Config) (ms : list Model) (model : Model)
  : list Model :=
  if String.eqb (Provider_ model) OpenAI then ms ++ [model]
  else if String.eqb (Provider_ model) Ollama then
    if negb (config.Ollama_IsConfigured (config.ollama (config.llm cfg)))
    then ms
    else ms ++ [model]
  else ms.

(** Go ranges over the map in an unspecified order; the order of
    [map_to_list] stands for it. *)
Definition NewRegistry (cfg : config.Config) : M Registry :=
  fun w =>
    ({| models := foldl (appendUsable cfg) [] (map_to_list (supportedModels w)).*1 |},
     w).

Definition construct (k : Constructor) (cfg : Config) : option LLM * option error :=
  match k with
  | openai_New => openai.New cfg
  | ollama_New => ollama.New cfg
  end.

(** [llm.New]. *)
Definition New (cfg : Config) : M (option LLM * option error) :=
  fun w =>
    match APIKeyFunc cfg with
    | None => (None, Some (ErrNew "API key function is required"), w)
    | Some _ =>
        match supportedModels w !! CfgModel cfg with
        | None =>
            (None,
             Some (ErrNew ("model " +:+ quoted (Name (CfgModel cfg)) +:+
                           " is not supported")),
             w)
        | Some supportedModel => (construct (Constructor_ supportedModel) cfg, w)
        end
    end.

(** ** Package langfuse: ingestion *)

Definition StatusOK : Z := 200.
Definition StatusMultiStatus : Z := 207.

Inductive IngestResult :=
| IngestReturn (resp : option langfuse.IngestionResponse) (err : option error)
| IngestPanic (v : string).

(** [Client.Ingest]. *)
Definition Ingest (c : langfuse.Client) (batch : list langfuse.Event)
  : M IngestResult :=
  fun w =>
    match telemetry w batch with
    | langfuse.MarshalFails e =>
        (IngestReturn None (Some (ErrWrap "error marshaling request" e)), w)
    | langfuse.TransportFails e =>
        (IngestReturn None (Some (ErrWrap "error sending request" e)),
         set_trace (trace w ++ [EvIngest batch]) w)
    | langfuse.Responds status decoded =>
        let w' := set_trace (trace w ++ [EvIngest batch]) w in
        if negb (status =? StatusMultiStatus) && negb (status =? StatusOK) then
          (IngestReturn None
             (Some (ErrNew ("unexpected status code: " +:+ pretty status))), w')
        else
          match decoded with
          | inr e => (IngestReturn None (Some (ErrWrap "error decoding response" e)), w')
          | inl ingestionResp => (IngestReturn (Some ingestionResp) None, w')
          end
    | langfuse.Panics v => (IngestPanic v, w)
    end.

(** ** Package llm: the completer *)

Definition WithCompleterRetryConfig (rc : RetryConfig) (c : completer) : completer :=
  {| cfg := cfg c; langfuse_ := langfuse_ c; retryConfig := rc;
     registry := registry c |}.

Definition NewCompleter (cfg : config.Config) (registry : Registry)
  (opts : list (completer -> completer)) : completer :=
  let c :=
    {| cfg := cfg;
       langfuse_ :=
         if config.Langfuse_IsConfigured (config.langfuse (config.llm cfg))
         then Some (langfuse.NewClient cfg) else None;
       retryConfig := DefaultRetryConfig;
       registry := registry |} in
  foldl (fun c opt => opt c) c opts.

Definition GetAvailableModels (c : completer) : list Model :=
  models (registry c).

Definition getAPIKeyFunc (c : completer) (provider : Provider)
  : option string * option error :=
  if String.eqb provider OpenAI then
    (Some (config.APIKey (config.openai (config.llm (cfg c)))), None)
  else if String.eqb provider Ollama then (Some EmptyString, None)
  else (None,
        Some (ErrNew ("provider " +:+ quoted provider +:+ " is not supported"))).

(** [fmt.Errorf(text + ": %w", err)] for an [err] that may be nil: a nil
    operand is formatted but not wrapped. *)
Definition Errorf_w (text : string) (err : option error) : error :=
  match err with
  | Some e => ErrWrap text e
  | None => ErrNew (text +:+ ": %!w(<nil>)")
  end.

(** [wait = time.Duration(float64(wait) * Factor)], then the cap. *)
Definition nextWait (rc : RetryConfig) (wait : Z) : Z :=
  let grown := (wait * Qnum (Factor rc)) `quot` Z.pos (Qden (Factor rc)) in
  if grown >? MaxWait rc then MaxWait rc else grown.

(** The variables the retry loop assigns. *)
Record LoopVars := {
  v_res : option CompleteResponse;
  v_err : option error;
  v_lastErr : option error;
  v_wait : Z
}.

(** How the loop is left: by a [return] inside it, or by falling out of it
    (the condition fails, or a [break]). *)
Inductive LoopExit :=
| LoopReturn (out : Outcome)
| LoopLeft (v : LoopVars).

(** The [for attempt := 0; attempt < MaxAttempts; attempt++] loop of
    [Complete], entered at iteration [attempt] with
    [remaining = MaxAttempts - attempt] iterations to go, so that the loop
    condition holds exactly when [remaining] is not zero. *)
Fixpoint attemptLoop (c : completer) (ctx : Context) (llm : option LLM)
  (params : CompleteParams) (model : Model)
  (remaining : nat) (attempt : Z) (v : LoopVars) : M LoopExit :=
  match remaining with
  | O => ret (LoopLeft v)
  | S remaining' =>
      fun w =>
        match ctx_Err ctx (now w) with
        | Some e => (LoopReturn (Return None (Some e)), w)
        | None =>
            (waited <-
               (if 0 <? attempt then
                  logger_Info "retrying LLM request"
                    [("attempt", FInt (attempt + 1));
                     ("model", FString (Name model));
                     ("previous_error", FError (v_lastErr v))] ;;
                  done <- selectDoneOrAfter ctx (v_wait v) ;;
                  if done : bool then
                    fun w' => (inl (Return None (ctx_Err ctx (now w'))), w')
                  else ret (inr (nextWait (retryConfig c) (v_wait v)))
                else ret (inr (v_wait v))) ;;
             match waited with
             | inl out => ret (LoopReturn out)
             | inr wait =>
                 match llm with
                 | None => ret (LoopReturn (Panic nilDereference))
                 | Some client =>
                     r <- LLM_Complete client ctx params ;;
                     match snd r with
                     | None =>
                         ret (LoopLeft {| v_res := fst r; v_err := None;
                                          v_lastErr := v_lastErr v;
                                          v_wait := wait |})
                     | Some e =>
                         let v' := {| v_res := fst r; v_err := Some e;
                                      v_lastErr := Some e; v_wait := wait |} in
                         if negb (isRetryableError e) then ret (LoopLeft v')
                         else attemptLoop c ctx llm params model remaining'
                                          (attempt + 1) v'
                     end
                 end
             end) w
        end
  end.

(** [go func() { ... }()]: the goroutine is started, not run. *)
Definition go (t : Task) : M unit :=
  fun w => (tt, set_goroutines (goroutines w ++ [t]) w).

(** [completer.Complete]. *)
Definition Complete (c : completer) (ctx : Context) (params : CompleteParams)
  (model : Model) : M Outcome :=
  match getAPIKeyFunc c (Provider_ model) with
  | (_, Some err) => ret (Return None (Some (ErrWrap "failed to get API key" err)))
  | (apiKeyFunc, None) =>
      made <- New {| APIKeyFunc := apiKeyFunc; CfgModel := model;
                     Timeout := 120 * Second;
                     LLMConfig := config.llm (cfg c) |} ;;
      match snd made with
      | Some err =>
          ret (Return None (Some (ErrWrap "failed to initialize LLM client" err)))
      | None =>
          left <- attemptLoop c ctx (fst made) params model
                    (Z.to_nat (MaxAttempts (retryConfig c))) 0
                    {| v_res := None; v_err := None; v_lastErr := None;
                       v_wait := InitialWait (retryConfig c) |} ;;
          match left with
          | LoopReturn out => ret out
          | LoopLeft v =>
              match v_err v with
              | Some _ =>
                  ret (Return None
                         (Some (Errorf_w "all completion attempts failed"
                                         (v_lastErr v))))
              | None =>
                  match v_res v with
                  | None => ret (Panic nilDereference)
                  | Some res =>
                      match ResMessages res with
                      | [] => ret (Return None (Some (ErrValue ErrNoMessages)))
                      | _ :: _ =>
                          go {| task_c := c; task_ctx := ctx; task_model := model;
                                task_params := params; task_res := res |} ;;
                          ret (Return (Some res) None)
                      end
                  end
              end
          end
      end
  end.

(** The call [c.Complete(..)] as [CompleteWithFallback] makes it, noted in
    the ghost record of the world. *)
Definition noted (model : Model) (call : M Outcome) : M Outcome :=
  out <- call ;;
  fun w => (out, set_completions (completions w ++ [(model, out)]) w).

(** The [range fallbackModels] loop of [CompleteWithFallback]: [i] is the
    index, [err] the error of the model tried before. *)
Fixpoint tryFallbacks (c : completer) (ctx : Context) (params : CompleteParams)
  (fallbackModels : list Model) (i : Z) (err : error) : M Outcome :=
  match fallbackModels with
  | [] => ret (Return None (Some (ErrWrap "all models failed" err)))
  | fallbackModel :: rest =>
      fun w =>
        match ctx_Err ctx (now w) with
        | Some e => (Return None (Some e), w)
        | None =>
            (logger_Info "attempting fallback model"
               [("fallback_model", FString (Name fallbackModel));
                ("fallback_index", FInt (i + 1))] ;;
             out <- noted fallbackModel (Complete c ctx params fallbackModel) ;;
             match out with
             | Panic v => ret (Panic v)
             | Return res None => ret (Return res None)
             | Return _ (Some err') =>
                 logger_Warn "fallback model failed"
                   [("fallback_model", FString (Name fallbackModel));
                    ("error", FError (Some err'))] ;;
                 tryFallbacks c ctx params rest (i + 1) err'
             end) w
        end
  end.

(** [completer.CompleteWithFallback]. *)
Definition CompleteWithFallback (c : completer) (ctx : Context)
  (params : CompleteParams) (primaryModel : Model) (fallbackModels : list Model)
  : M Outcome :=
  out <- noted primaryModel (Complete c ctx params primaryModel) ;;
  match out with
  | Panic v => ret (Panic v)
  | Return res None => ret (Return res None)
  | Return _ (Some err) =>
      logger_Warn "primary model failed, trying fallbacks"
        [("primary_model", FString (Name primaryModel));
         ("error", FError (Some err))] ;;
      tryFallbacks c ctx params fallbackModels 0 err
  end.

(** ** Telemetry *)

Definition getEnvironment (cfg : config.Config) : string :=
  if String.eqb (config.Env cfg) "production" then "production"
  else "development".

(** The backward scan for the last message of the user. *)
Definition getLastUserMessage (messages : list Message) : string :=
  match find (fun m => String.eqb (MsgRole m) RoleUser) (rev messages) with
  | Some m => Content m
  | None => EmptyString
  end.

(** [extractModelParameters]: the three parameters with their defaults. *)
Definition extractModelParameters (params : CompleteParams) : Q * Z * Q :=
  (match Temperature params with Some t => t | None => Qmake 7 10 end,
   match MaxTokens params with Some n => n | None => 2000 end,
   match TopP params with Some p => p | None => Qmake 1 1 end).

(** [sendTraceEvents]; the result is the value of a panic that left it. *)
Definition sendTraceEvents (c : completer) (ctx : Context) (model : Model)
  (params : CompleteParams) (res : CompleteResponse) : M (option string) :=
  match langfuse_ c with
  | None => ret None
  | Some client =>
      let '(temperature, maxTokens, topP) := extractModelParameters params in
      let generationBody :=
        {| langfuse.gb_Name := "Model Response";
           langfuse.gb_Model := Name model;
           langfuse.gb_Temperature := temperature;
           langfuse.gb_MaxTokens := maxTokens;
           langfuse.gb_TopP := topP;
           langfuse.gb_Input := Messages params;
           langfuse.gb_Output := ResMessages res;
           langfuse.gb_Level := "DEFAULT";
           langfuse.gb_UsageDetails :=
             match ResUsage res with
             | Some u => Some (PromptTokens u, CompletionTokens u, TotalTokens u)
             | None => None
             end |} in
      match ResMessages res with
      | [] => ret (Some "runtime error: index out of range [0] with length 0")
      | first :: _ =>
          let batch :=
            [langfuse.CreateTrace
               {| langfuse.tb_Name := "Model Interaction";
                  langfuse.tb_Input := getLastUserMessage (Messages params);
                  langfuse.tb_Output := Content first;
                  langfuse.tb_Environment := getEnvironment (cfg c);
                  langfuse.tb_Tags := [Name model; Provider_ model] |};
             langfuse.CreateGeneration generationBody] in
          r <- Ingest client batch ;;
          match r with
          | IngestPanic v => ret (Some v)
          | IngestReturn _ (Some err) =>
              logger_Error "failed to send trace events to Langfuse"
                [("err", FError (Some err))] ;;
              logger_Error "error sending telemetry" [("err", FError (Some err))] ;;
              ret None
          | IngestReturn None None => ret (Some nilDereference)
          | IngestReturn (Some resp) None =>
              match langfuse.Errors resp with
              | [] => ret None
              | errs =>
                  logger_Error "failed to ingest some events"
                    [("errors", FErrors errs)] ;;
                  ret None
              end
          end
      end
  end.

(** The body of the goroutine [Complete] starts: [sendTraceEvents] under
    the deferred [recover]. *)
Definition telemetryGoroutine (t : Task) : M unit :=
  r <- sendTraceEvents (task_c t) (task_ctx t) (task_model t) (task_params t)
         (task_res t) ;;
  match r with
  | Some v =>
      logger_Error "panic while sending trace events"
        [("error", FError (Some (ErrNew v)))]
  | None => ret tt
  end.

(** The scheduler: the started goroutines run to their end, in the order
    they were started. *)
Definition runGoroutines : M unit :=
  fun w =>
    (tt,
     fold_left (fun w' t => snd (telemetryGoroutine t w'))
               (goroutines w) (set_goroutines [] w)).

(** ** Vocabulary of the statements *)

(** The five error codes [openai.handleError] maps before it looks at the
    status code. *)
Definition dedicatedCode (code : string) : bool :=
  String.eqb code openai.ErrCodeContextLengthExceeded
  || String.eqb code openai.ErrCodeLength
  || String.eqb code openai.ErrCodeInvalidAPIKey
  || String.eqb code openai.ErrCodeRateLimitExceeded
  || String.eqb code openai.ErrCodeInsufficientQuota.

(** [httpError llm e status]: for the client [llm], the library error [e]
    is an HTTP error response with that status code (and, for the OpenAI
    client, an error code that is not a dedicated one). *)
Definition httpError (llm : LLM) (e : error) (status : Z) : Prop :=
  match llm with
  | OpenAIClient _ _ =>
      exists a, errors_As_openai e = Some a /\ oa_StatusCode a = status
                /\ dedicatedCode (oa_Code a) = false
  | OllamaClient _ =>
      exists s, errors_As_StatusError e = Some s /\ st_StatusCode s = status
  end.

(** The error a client returns for the library error [e]. *)
Definition clientError (llm : LLM) (e : error) : error :=
  match llm with
  | OpenAIClient cfg _ => openai.handleError cfg e
  | OllamaClient cfg => ollama.handleError cfg e
  end.

(** The roles each client's conversion loop accepts. *)
Definition supportedRole (llm : LLM) (role : Role) : bool :=
  match llm with
  | OpenAIClient _ _ =>
      String.eqb role RoleUser || String.eqb role RoleAssistant
      || String.eqb role RoleSystem || String.eqb role RoleFunction
  | OllamaClient _ =>
      String.eqb role RoleUser || String.eqb role RoleAssistant
      || String.eqb role RoleSystem
  end.

(** Whether the base URL the client would parse is accepted. *)
Definition baseURLParses (llm : LLM) (w : World) : Prop :=
  match llm with
  | OpenAIClient _ _ => True
  | OllamaClient cfg =>
      url_Parse w (config.BaseURL (config.ollama (LLMConfig cfg))) = None
  end.

(** The role and the content a message is expected to have on the wire. *)
Definition expectedRole (llm : LLM) (m : Message) : string :=
  match llm with
  | OpenAIClient _ _ =>
      if String.eqb (MsgRole m) RoleFunction then "user" else MsgRole m
  | OllamaClient _ => MsgRole m
  end.

Definition expectedContent (llm : LLM) (m : Message) : string :=
  match llm with
  | OpenAIClient _ _ =>
      if String.eqb (MsgRole m) RoleFunction
      then "Function " +:+ MsgName m +:+ " returned: " +:+ Content m
      else Content m
  | OllamaClient _ => Content m
  end.

Definition requestRoles (req : Request) : list string :=
  match req with
  | OpenAIRequest _ p => map wireRole (cp_Messages p)
  | OllamaRequest _ r => map am_Role (cr_Messages r)
  end.

Definition requestContents (req : Request) : list string :=
  match req with
  | OpenAIRequest _ p => map wireContent (cp_Messages p)
  | OllamaRequest _ r => map am_Content (cr_Messages r)
  end.

(** What a run shows of the retry policy: attempts and completed waits. *)
Inductive Step := Attempt | Wait (d : Z).

Definition observe (e : Event) : list Step :=
  match e with
  | EvRequest _ => [Attempt]
  | EvSleep d => [Wait d]
  | _ => []
  end.

Definition steps (t : list Event) : list Step := flat_map observe t.

(** The wait before retry [k+1]: [InitialWait], grown [k] times. *)
Definition backoff (rc : RetryConfig) (k : nat) : Z :=
  Nat.iter k (nextWait rc) (InitialWait rc).

(** [n] attempts with the backoff waits between them. *)
Definition retrySchedule (rc : RetryConfig) (n : nat) : list Step :=
  match n with
  | O => []
  | S n' => Attempt :: flat_map (fun k => [Wait (backoff rc k); Attempt]) (seq 0 n')
  end.

Definition succeeded (out : Outcome) : bool :=
  match out with
  | Return _ None => true
  | _ => false
  end.

(** An event that only the telemetry goroutine produces. *)
Definition telemetryEvent (e : Event) : Prop :=
  match e with
  | EvIngest _ => True
  | EvLog LevelError _ _ => True
  | _ => False
  end.

(** A call of [Complete] followed by the run of the goroutines it left. *)
Definition CompleteAndSettle (c : completer) (ctx : Context)
  (params : CompleteParams) (model : Model) : M Outcome :=
  out <- Complete c ctx params model ;;
  runGoroutines ;;
  ret out.

(** [Complete] gets past its two initialisation steps: the provider has a
    key accessor and [New] builds a client without error. *)
Definition initialises (c : completer) (model : Model) (w : World) : Prop :=
  snd (getAPIKeyFunc c (Provider_ model)) = None
  /\ snd (fst (New {| APIKeyFunc := fst (getAPIKeyFunc c (Provider_ model));
                      CfgModel := model;
                      Timeout := 120 * Second;
                      LLMConfig := config.llm (cfg c) |} w)) = None.

(** The client [Complete] works with: what [New] builds for the model. *)
Definition clientOf (c : completer) (model : Model) (w : World) : option LLM :=
  fst (fst (New {| APIKeyFunc := fst (getAPIKeyFunc c (Provider_ model));
                   CfgModel := model;
                   Timeout := 120 * Second;
                   LLMConfig := config.llm (cfg c) |} w)).

(** Every message has a role the client accepts. *)
Definition rolesAccepted (llm : LLM) (params : CompleteParams) : Prop :=
  find (fun m => negb (supportedRole llm (MsgRole m))) (Messages params) = None.


(** [m] leaves the component [f] of the world as it was. *)
Definition preserves {X A : Type} (f : World -> X) (m : M A) : Prop :=
  forall w, f (snd (m w)) = f w.



(** [m] neither reads nor writes the telemetry oracle. *)
Definition ignoresTelemetry {A : Type} (m : M A) : Prop :=
  forall s w, m (set_telemetry s w) = (fst (m w), set_telemetry s (snd (m w))).

(** [w'] is [w] with telemetry events added at the end of its trace. *)
Definition addsTelemetryEvents (w w' : World) : Prop :=
  exists evs, w' = set_trace (trace w ++ evs) w /\ Forall telemetryEvent evs.

(** The wire message the OpenAI loop appends for a message it accepts. *)
Definition openaiWire (m : Message) : ChatCompletionMessageParam :=
  if String.eqb (MsgRole m) RoleUser then UserMessage (Content m)
  else if String.eqb (MsgRole m) RoleAssistant then AssistantMessage (Content m)
  else if String.eqb (MsgRole m) RoleSystem then SystemMessage (Content m)
  else UserMessage ("Function " +:+ MsgName m +:+ " returned: " +:+ Content m).

Definition ollamaWire (m : Message) : api_Message :=
  {| am_Role := MsgRole m; am_Content := Content m |}.

(** Whether [NewRegistry] keeps a model under a configuration. *)
Definition usable (cfg : config.Config) (model : Model) : bool :=
  String.eqb (Provider_ model) OpenAI
  || (String.eqb (Provider_ model) Ollama
      && config.Ollama_IsConfigured (config.ollama (config.llm cfg))).

(** The client gets as far as its backend call: its base URL parses and
    it accepts the role of every message. *)
Definition sends (llm : LLM) (params : CompleteParams) (w : World) : Prop :=
  baseURLParses llm w /\ rolesAccepted llm params.


(** The events of a trace that are provider calls. *)
Definition requestsOf (t : list Event) : list Request :=
  flat_map (fun e => match e with EvRequest r => [r] | _ => [] end) t.


Definition configOf (llm : LLM) : Config :=
  match llm with
  | OpenAIClient cfg _ => cfg
  | OllamaClient cfg => cfg
  end.


(** The library error is handed on as the cause of the [LLMError], without
    being mapped to a kind by its code or its status. *)
Definition passedThrough (llm : LLM) (e : error) : bool :=
  match llm with
  | OpenAIClient _ _ =>
      match errors_As_openai e with
      | None => true
      | Some a =>
          negb (dedicatedCode (oa_Code a))
          && negb ((500 <=? oa_StatusCode a) && (oa_StatusCode a <? 600))
          && negb (oa_StatusCode a =? 429)
      end
  | OllamaClient _ =>
      match errors_As_StatusError e with
      | None => true
      | Some s =>
          negb ((500 <=? st_StatusCode s) && (st_StatusCode s <? 600))
          && negb (st_StatusCode s =? 429)
      end
  end.

(** The role a client gives a message of the response. *)
Definition responseRole (llm : LLM) (wireRole : string) : Role :=
  match llm with
  | OpenAIClient _ _ => wireRole
  | OllamaClient _ => ollama.llmRole wireRole
  end.

Definition knownRole (role : Role) : Prop :=
  role = RoleSystem \/ role = RoleUser \/ role = RoleAssistant
  \/ role = RoleFunction.

(** The task of the telemetry goroutine a call of [Complete] starts. *)
Definition taskOf (c : completer) (ctx : Context) (params : CompleteParams)
  (model : Model) (res : CompleteResponse) : Task :=
  {| task_c := c; task_ctx := ctx; task_model := model; task_params := params;
     task_res := res |}.

(** The log entry the deferred [recover] of the telemetry goroutine writes. *)
Definition recoveredPanic (e : Event) : Prop :=
  exists fields, e = EvLog LevelError "panic while sending trace events" fields.

(** The telemetry POST happens: the batch is marshalled and handed to the
    HTTP client without a panic. *)
Definition posted (b : langfuse.Behaviour) : bool :=
  match b with
  | langfuse.MarshalFails _ | langfuse.Panics _ => false
  | _ => true
  end.

(** The ingestion is answered with 200 or 207 and a body that decodes. *)
Definition ingested (b : langfuse.Behaviour) : option langfuse.IngestionResponse :=
  match b with
  | langfuse.Responds status (inl resp) =>
      if (status =? StatusOK) || (status =? StatusMultiStatus) then Some resp
      else None
  | _ => None
  end.

(** An error-level log entry. *)
Definition errorLog (e : Event) : Prop :=
  exists msg fields, e = EvLog LevelError msg fields.

(** The request a client sends for a conversation whose roles it accepts:
    the messages as [openaiWire] and [ollamaWire] give them, under the
    configured model. *)
Definition wireRequest (llm : LLM) (params : CompleteParams) : Request :=
  match llm with
  | OpenAIClient cfg key =>
      OpenAIRequest key
        {| cp_Messages := map openaiWire (Messages params);
           cp_Model := Name (CfgModel cfg);
           cp_Seed := 1;
           cp_MaxTokens := MaxTokens params;
           cp_Temperature := Temperature params;
           cp_TopP := TopP params;
           cp_N := N_ params |}
  | OllamaClient cfg =>
      OllamaRequest (config.BaseURL (config.ollama (LLMConfig cfg)))
        {| cr_Model := Name (CfgModel cfg);
           cr_Messages := map ollamaWire (Messages params);
           cr_Stream := false |}
  end.

(** Every provider call [m] makes sends the request [r]. *)
Definition sendsOnly {A : Type} (r : Request) (m : M A) : Prop :=
  forall w, exists k evs,
    calls (snd (m w)) = (calls w + k)%nat
    /\ trace (snd (m w)) = trace w ++ evs
    /\ requestsOf evs = repeat r k.

(** ** Sample data *)

Module sample.

Definition capabilities : ModelCapabilities :=
  {| SupportsStreaming := true; SupportsFunctions := true;
     SupportsVision := true; SupportsJSON := true |}.

(** [openai.ModelGPT4o]. *)
Definition ModelGPT4o : Model :=
  {| Provider_ := OpenAI; Name := "gpt-4o"; DisplayName := "OpenAI gpt-4o";
     MaxToken := 16384; ContextWindow := 128000; PDFSupported := true;
     Version := "2023-05-15"; Family := "GPT-4"; Pricing := Some 1%N;
     Capabilities := capabilities |}.

(** [ollama.ModelTinySwallow]. *)
Definition ModelTinySwallow : Model :=
  {| Provider_ := Ollama; Name := "yottahmd/tiny-swallow-1.5b-instruct";
     DisplayName := "Sakana AI Tiny Swallow 1.5B";
     MaxToken := 32768; ContextWindow := 32768; PDFSupported := true;
     Version := "2024-03-05"; Family := "SakanaAI"; Pricing := Some 2%N;
     Capabilities :=
       {| SupportsStreaming := true; SupportsFunctions := false;
          SupportsVision := false; SupportsJSON := false |} |}.

Definition llmConfig (baseURL : string) : config.LLM :=
  {| config.openai := {| config.APIKey := "sk-test" |};
     config.ollama := {| config.BaseURL := baseURL |};
     config.langfuse := {| config.PrivateKey := "sk-lf"; config.PublicKey := "pk-lf" |} |}.

Definition appConfig (baseURL : string) : config.Config :=
  {| config.Env := "test"; config.llm := llmConfig baseURL |}.

Definition localhost : string := "http://localhost:11434".

Definition message (role : Role) (content : string) : Message :=
  {| MsgID := EmptyString; Hidden := false; MsgRole := role; Content := content;
     MsgName := EmptyString; MsgFunctionCall := None;
     MsgFinishReason := EmptyString; Completed := false; MsgError := None;
     Length := 0; Timestamp := 0 |}.

Definition paramsOf (ms : list Message) : CompleteParams :=
  {| Messages := ms; MaxTokens := None; Temperature := None; TopP := None;
     N_ := None; Stream := false; Functions := []; JSONMode := false |}.

Definition review : CompleteParams :=
  paramsOf [message RoleSystem "You are a code reviewer.";
            message RoleUser "review this"].

Definition functionResult : CompleteParams :=
  paramsOf [message RoleUser "what is 2+2";
            message RoleFunction "4"].

Definition openaiCfg : Config :=
  {| APIKeyFunc := Some "sk-test"; CfgModel := ModelGPT4o;
     Timeout := 120 * Second; LLMConfig := llmConfig localhost |}.

Definition ollamaCfg : Config :=
  {| APIKeyFunc := Some EmptyString; CfgModel := ModelTinySwallow;
     Timeout := 120 * Second; LLMConfig := llmConfig localhost |}.

Definition openaiFails (status : Z) (code : string) : Reply :=
  {| elapsed := 20 * Millisecond;
     body := ReplyError (ErrOpenAI {| oa_StatusCode := status; oa_Code := code |}) |}.

Definition ollamaFails (status : Z) (text : string) : Reply :=
  {| elapsed := 20 * Millisecond;
     body := ReplyError (ErrStatus {| st_StatusCode := status; st_Status := text;
                                      st_ErrorMessage := "backend error" |}) |}.

Definition answers (items : list ReplyItem) : Reply :=
  {| elapsed := 20 * Millisecond;
     body := ReplyOK "cmpl-1" items
               {| ru_Prompt := 12; ru_Completion := 3; ru_Total := 15 |} |}.

Definition lgtm : ReplyItem :=
  {| ri_Role := "assistant"; ri_Content := "LGTM"; ri_Finish := "stop" |}.

Definition sinkDown : list langfuse.Event -> langfuse.Behaviour :=
  fun _ => langfuse.Responds 500 (inr (ErrNew "unexpected end of JSON input")).

Definition sinkUp : list langfuse.Event -> langfuse.Behaviour :=
  fun _ => langfuse.Responds 207
             (inl {| langfuse.Successes := [("1", 201)]; langfuse.Errors := [] |}).

(** A fresh process: nothing registered, the clock at 0. *)
Definition blank (b : nat -> Request -> Reply) : World :=
  mkWorld 0 0 [] [] [] ∅ b sinkDown (fun _ => None) false.

(** The process after the [init] functions of both provider packages. *)
Definition started (b : nat -> Request -> Reply) : World :=
  snd (RegisterLLM ollama_New [ModelTinySwallow]
         (snd (RegisterLLM openai_New [ModelGPT4o] (blank b)))).

Definition never : Context := {| doneAt := None; cause := context_Canceled |}.

Definition canceledAt (t : Z) : Context :=
  {| doneAt := Some t; cause := context_Canceled |}.

(** The completer of [llm.Module], with the default retry policy. *)
Definition defaultCompleter : completer :=
  NewCompleter (appConfig localhost)
    {| models := [ModelGPT4o; ModelTinySwallow] |}
    [WithCompleterRetryConfig DefaultRetryConfig].

Definition completerWith (rc : RetryConfig) : completer :=
  NewCompleter (appConfig localhost)
    {| models := [ModelGPT4o; ModelTinySwallow] |}
    [WithCompleterRetryConfig rc].

(** A backend that answers 503 to the first [n] calls and then succeeds. *)
Definition recovers (n : nat) : nat -> Request -> Reply :=
  fun k _ => if (k <? n)%nat then openaiFails 503 EmptyString else answers [lgtm].



End sample.

(** ** Package review *)

Module review.

(** [Review]. *)
Record Review := {
  ID : string;
  Code : string;
  Language : string;
  DetailLevel : string;
  Strictness : string;
  Result : string;
  CreatedAt : Z
}.

Section Clock.

(** [time.Time.Format], by layout and instant. *)
Variable time_Format : string -> Z -> string.

Definition generateID : M string :=
  fun w => (time_Format "20060102150405" (now w), w).

Definition NewReview (code language detailLevel strictness result : string)
  : M Review :=
  id <- generateID ;;
  fun w =>
    ({| ID := id; Code := code; Language := language;
        DetailLevel := detailLevel; Strictness := strictness;
        Result := result; CreatedAt := now w |}, w).

End Clock.

End review.

(** ** Package frontend: the review handler *)

Module frontend.

Definition defaultLanguage : string := "python".
Definition defaultCode : string := "print('Hello, World!')".
Definition defaultDetailLevel : string := "medium".
Definition defaultStrictness : string := "medium".

Definition StatusBadRequest : Z := 400.
Definition StatusInternalServerError : Z := 500.

(** [*http.Request], as the handler reads it: the error of [ParseForm],
    the form values, the context. *)
Record http_Request := {
  ParseForm : option error;
  FormValue : string -> string;
  Context_ : Context
}.

(** The data handed to a component template. *)
Inductive Data :=
| ErrorData (Message : string)
| ResultsData (Result ReviewID : string).

(** What [RenderComponent] writes to the response: the executed component,
    or the [http.Error] it falls back to. *)
Inductive Written :=
| Executed (name : string) (data : Data)
| http_Error (text : string) (code : Z).

(** [TemplateManager]: the parsed component templates, by the error their
    execution gives. *)
Record TemplateManager := {
  ExecuteTemplate : string -> Data -> option error
}.

(** [IndexHandler]. *)
Record IndexHandler := {
  templates : TemplateManager;
  h_completer : completer
}.

(** [TemplateManager.RenderComponent]. *)
Definition RenderComponent (tm : TemplateManager) (name : string) (data : Data)
  : M Written :=
  match ExecuteTemplate tm name data with
  | Some err =>
      logger_Error "Failed to execute template" [("err", FError (Some err))] ;;
      ret (http_Error "Failed to execute template" StatusInternalServerError)
  | None => ret (Executed name data)
  end.

Definition getFormValueWithDefault (r : http_Request) (key defaultValue : string)
  : string :=
  let value := FormValue r key in
  if String.eqb value EmptyString then defaultValue else value.

Definition systemPrompt : string :=
"あなたはプログラミングとソフトウェア開発に特化したAIアシスタントです。

提供された入力に対して、以下のように応答してください：

1. コードが提示された場合は、以下の観点からコードレビューを行います：
   - バグやエラーの可能性
   - セキュリティ上の問題点
   - パフォーマンスの最適化
   - コーディング規約への準拠
   - 可読性と保守性の向上
   - ベストプラクティスの適用

2. プログラミングに関する質問の場合は、以下の点を意識して回答します：
   - 正確で最新の情報
   - わかりやすい説明と具体例
   - 複雑な概念の段階的な解説
   - 適切なコードサンプル（必要に応じて）

常に簡潔かつ具体的に回答し、余計な会話履歴を表示せず、常に新しい質問に対して直接的に応答してください。
回答はMarkdown形式で提供し、必要に応じてコードブロックやリストを使用して情報を整理してください。

[Important Note]
1. コードレビュー結果は必ず日本語で返してください
2. コードが提供されなかった場合は、コードレビューを行わずにエラーメッセージを返してください
3. コードレビュアーとしての役割に徹し、無関係な情報を提供しないようにしてください

[Settings]
".

Definition newline : string := String (Ascii.ascii_of_nat 10) EmptyString.

Definition getDetailLevelInstructions (detailLevel : string) : string :=
  if String.eqb detailLevel "low" then
    "Detail level: Low - Provide a concise overview with only the most important points. Focus on major issues and skip minor details."
    +:+ newline
  else if String.eqb detailLevel "high" then
    "Detail level: High - Provide an in-depth analysis with detailed explanations and specific improvement suggestions for each issue found."
    +:+ newline
  else
    "Detail level: Medium - Provide a balanced review with reasonable detail on important issues."
    +:+ newline.

Definition getStrictnessInstructions (strictness : string) : string :=
  if String.eqb strictness "low" then
    "Strictness: Low - Focus only on critical issues like bugs, security problems, and major performance concerns. Ignore minor style issues."
    +:+ newline
  else if String.eqb strictness "high" then
    "Strictness: High - Apply strict best practices and standards. Point out all issues including minor style concerns, potential edge cases, and optimization opportunities."
    +:+ newline
  else
    "Strictness: Medium - Apply reasonable standards focusing on important issues while mentioning some style and optimization concerns."
    +:+ newline.

Definition buildCustomPrompt (language detailLevel strictness : string) : string :=
  let customPrompt :=
    systemPrompt +:+ newline +:+ "programming language: " +:+ language +:+ newline
    +:+ "Format your response in Markdown. Use headings, lists, code blocks, etc. to make your review clear and readable."
    +:+ newline +:+ newline in
  let customPrompt := customPrompt +:+ getDetailLevelInstructions detailLevel in
  customPrompt +:+ getStrictnessInstructions strictness.

(** [determineErrorMessage]; the argument of type [any] is a string or an
    error. *)
Definition determineErrorMessage (code : Z) (err : string + error) : string :=
  match err with
  | inl errStr => errStr
  | inr goErr =>
      if errors_Is goErr ErrContextLengthExceeded then
        "入力が長すぎます。短縮して再試行してください。"
      else if errors_Is goErr ErrServiceUnavailable then
        "AIサービスが利用できません。しばらくしてから再試行してください。"
      else if errors_Is goErr ErrTooManyRequests then
        "リクエストが多すぎます。しばらくしてから再試行してください。"
      else if code =? StatusInternalServerError then "エラーが発生しました。"
      else "無効なリクエストです。"
  end.

(** [IndexHandler.handleError]. *)
Definition handleError (h : IndexHandler) (r : http_Request) (code : Z)
  (err : string + error) : M Written :=
  let message := determineErrorMessage code err in
  (if code =? StatusInternalServerError then
     logger_Error "internal server error"
       [("err", match err with
                | inl s => FString s
                | inr e => FError (Some e)
                end)]
   else ret tt) ;;
  RenderComponent (templates h) "components/error" (ErrorData message).

(** The zero value of [llm.Model]. *)
Definition zeroModel : Model :=
  {| Provider_ := EmptyString; Name := EmptyString; DisplayName := EmptyString;
     MaxToken := 0; ContextWindow := 0; PDFSupported := false;
     Version := EmptyString; Family := EmptyString; Pricing := None;
     Capabilities :=
       {| SupportsStreaming := false; SupportsFunctions := false;
          SupportsVision := false; SupportsJSON := false |} |}.

(** The variable [selectedModel] of [postReview] after the lookup by
    display name: the first available model with that display name, the
    zero value if the name is empty or no model has it. *)
Definition lookupModel (h : IndexHandler) (modelName : string) : Model :=
  if negb (String.eqb modelName EmptyString) then
    match find (fun model => String.eqb (DisplayName model) modelName)
               (GetAvailableModels (h_completer h)) with
    | Some model => model
    | None => zeroModel
    end
  else zeroModel.

(** The message literals of [postReview]: role and content, the rest
    zero. *)
Definition message (role : Role) (content : string) : Message :=
  {| MsgID := EmptyString; Hidden := false; MsgRole := role; Content := content;
     MsgName := EmptyString; MsgFunctionCall := None;
     MsgFinishReason := EmptyString; Completed := false; MsgError := None;
     Length := 0; Timestamp := 0 |}.

(** The parameters [postReview] passes to [Complete]. *)
Definition reviewParams (customPrompt code : string) : CompleteParams :=
  {| Messages := [message RoleSystem customPrompt; message RoleUser code];
     MaxTokens := None; Temperature := None; TopP := None; N_ := None;
     Stream := false; Functions := []; JSONMode := false |}.

(** How a call of the handler ends: it wrote a response, or it panicked. *)
Inductive Handled :=
| Wrote (out : Written)
| Panicked (v : string).

Section Handler.

Variable time_Format : string -> Z -> string.

(** [IndexHandler.postReview]. *)
Definition postReview (h : IndexHandler) (r : http_Request) : M Handled :=
  match ParseForm r with
  | Some _ =>
      out <- handleError h r StatusBadRequest
               (inl "フォームデータの解析に失敗しました。") ;;
      ret (Wrote out)
  | None =>
      let code := getFormValueWithDefault r "code" EmptyString in
      let language := getFormValueWithDefault r "language" defaultLanguage in
      let detailLevel := getFormValueWithDefault r "detailLevel" defaultDetailLevel in
      let strictness := getFormValueWithDefault r "strictness" defaultStrictness in
      let modelName := getFormValueWithDefault r "model" EmptyString in
      if String.eqb code EmptyString then
        out <- handleError h r StatusBadRequest
                 (inl "コードが入力されていません。") ;;
        ret (Wrote out)
      else if 50000 <? Z.of_nat (String.length code) then
        out <- handleError h r StatusBadRequest
                 (inl "入力が長すぎます。短縮して再試行してください。") ;;
        ret (Wrote out)
      else
        selectedModel <-
          (if String.eqb (Name (lookupModel h modelName)) EmptyString then
             logger_Info "using default model"
               [("model", FString (Name sample.ModelGPT4o))] ;;
             ret sample.ModelGPT4o
           else ret (lookupModel h modelName)) ;;
        let customPrompt := buildCustomPrompt language detailLevel strictness in
        completion <- Complete (h_completer h) (Context_ r)
                        (reviewParams customPrompt code) selectedModel ;;
        match completion with
        | Panic v => ret (Panicked v)
        | Return _ (Some err) =>
            out <- handleError h r StatusInternalServerError (inr err) ;;
            ret (Wrote out)
        | Return None None => ret (Panicked nilDereference)
        | Return (Some res) None =>
            match ResMessages res with
            | [] => ret (Panicked "runtime error: index out of range [0] with length 0")
            | first :: _ =>
                reviewObj <- review.NewReview time_Format code language
                               detailLevel strictness (Content first) ;;
                out <- RenderComponent (templates h) "components/results"
                         (ResultsData (Content first) (review.ID reviewObj)) ;;
                ret (Wrote out)
            end
        end
  end.

End Handler.

End frontend.

(** ** Vocabulary of the handler's statements *)

(** The form gets past the checks of [postReview]. *)
Definition validForm (r : frontend.http_Request) : Prop :=
  frontend.ParseForm r = None
  /\ frontend.FormValue r "code" <> EmptyString
  /\ Z.of_nat (String.length (frontend.FormValue r "code")) <= 50000.

(** The prompt [postReview] builds from the form. *)
Definition formPrompt (r : frontend.http_Request) : string :=
  frontend.buildCustomPrompt
    (frontend.getFormValueWithDefault r "language" frontend.defaultLanguage)
    (frontend.getFormValueWithDefault r "detailLevel" frontend.defaultDetailLevel)
    (frontend.getFormValueWithDefault r "strictness" frontend.defaultStrictness).

(** The model [postReview] passes to [Complete]. *)
Definition selectedModel (h : frontend.IndexHandler) (r : frontend.http_Request)
  : Model :=
  if String.eqb (Name (frontend.lookupModel h (frontend.FormValue r "model")))
                EmptyString
  then sample.ModelGPT4o
  else frontend.lookupModel h (frontend.FormValue r "model").

(** The world in which [postReview] calls [Complete]: the one it is called
    in, after the log entry of the default model if it falls back to it. *)
Definition atCompletion (h : frontend.IndexHandler) (r : frontend.http_Request)
  (w : World) : World :=
  if String.eqb (Name (frontend.lookupModel h (frontend.FormValue r "model")))
                EmptyString
  then snd (logger_Info "using default model"
              [("model", FString (Name sample.ModelGPT4o))] w)
  else w.

(** The call of [Complete] that [postReview] makes for a valid form. *)
Definition reviewCall (h : frontend.IndexHandler) (r : frontend.http_Request)
  (w : World) : Outcome * World :=
  Complete (frontend.h_completer h) (frontend.Context_ r)
    (frontend.reviewParams (formPrompt r) (frontend.FormValue r "code"))
    (selectedModel h r) (atCompletion h r w).

(** What [RenderComponent] writes for a component and its data. *)
Definition written (tm : frontend.TemplateManager) (name : string)
  (data : frontend.Data) : frontend.Written :=
  match frontend.ExecuteTemplate tm name data with
  | Some _ =>
      frontend.http_Error "Failed to execute template"
        frontend.StatusInternalServerError
  | None => frontend.Executed name data
  end.

(** A handler over the completer of [llm.Module] whose templates execute,
    a form with a code and a model name, and a clock. *)
Module sampleForm.

Definition handler : frontend.IndexHandler :=
  {| frontend.templates := {| frontend.ExecuteTemplate := fun _ _ => None |};
     frontend.h_completer := sample.defaultCompleter |}.

Definition request (code model : string) : frontend.http_Request :=
  {| frontend.ParseForm := None;
     frontend.FormValue :=
       fun key => if String.eqb key "code" then code
                  else if String.eqb key "model" then model
                  else EmptyString;
     frontend.Context_ := sample.never |}.

Definition clock : string -> Z -> string := fun _ t => pretty t.

End sampleForm.

(** ** Package config: the environment overrides *)

Module envconfig.

(** [Server] and [Logging], the sections of [Config] beside [Global] and
    [LLM]. *)
Record Server := { Host : string; Port : Z; AllowedOrigins : list string }.

Record Logging := { Format : string }.

(** [Config] with all four sections: [core] holds [Global] and [LLM]. *)
Record Config := { core : config.Config; logging : Logging; server : Server }.




Section Env.

(** [strconv.Atoi] and [strings.Split]. *)
Variable strconv_Atoi : string -> Z + error.
Variable strings_Split : string -> string -> list string.


End Env.

End envconfig.


(** ** Error mapping of the provider clients *)

Lemma dedicatedCode_false code :
  dedicatedCode code = false ->
  String.eqb code openai.ErrCodeContextLengthExceeded = false
  /\ String.eqb code openai.ErrCodeLength = false
  /\ String.eqb code openai.ErrCodeInvalidAPIKey = false
  /\ String.eqb code openai.ErrCodeRateLimitExceeded = false
  /\ String.eqb code openai.ErrCodeInsufficientQuota = false.
Proof.
  unfold dedicatedCode. intros H.
  repeat (apply orb_false_elim in H; destruct H as [H ?]). auto.
Qed.

(** What [clientError] gives for an HTTP error with a 5xx or 429 status. *)
Lemma clientError_http llm e status :
  httpError llm e status ->
  500 <= status < 600 \/ status = 429 ->
  exists l,
    clientError llm e = ErrLLM l
    /\ Err l = Some (ErrValue (if status =? 429 then ErrTooManyRequests
                               else ErrServiceUnavailable))
    /\ Retryable l = true
    /\ StatusCode l = status.
Proof.
  intros Hhttp Hstatus. destruct llm as [cfg key|cfg]; simpl in *.
  - destruct Hhttp as (a & Has & Hst & Hcode).
    apply dedicatedCode_false in Hcode as (H1 & H2 & H3 & H4 & H5).
    unfold openai.handleError. rewrite Has, H1, H2, H3, H4, H5, Hst.
    destruct Hstatus as [[Hlo Hhi]| ->].
    + assert ((status =? 429) = false) as -> by lia.
      assert (((500 <=? status) && (status <? 600)) = true) as ->.
      { apply andb_true_iff. split; lia. }
      eexists. split; [reflexivity|]. simpl. auto.
    + simpl. eexists. split; [reflexivity|]. simpl. auto.
  - destruct Hhttp as (s & Has & Hst).
    unfold ollama.handleError. rewrite Has, Hst.
    destruct Hstatus as [[Hlo Hhi]| ->].
    + assert ((status =? 429) = false) as -> by lia.
      assert (((500 <=? status) && (status <? 600)) = true) as ->.
      { apply andb_true_iff. split; lia. }
      eexists. split; [reflexivity|]. simpl. auto.
    + simpl. eexists. split; [reflexivity|]. simpl. auto.
Qed.


(** The error of a failed conversion is a plain one, never retried. *)
Lemma openai_convertMessages_error ms acc e :
  openai.convertMessages ms acc = inr e -> isRetryableError e = false.
Proof.
  revert acc. induction ms as [|m ms IH]; intros acc; simpl; [discriminate|].
  repeat (destruct (String.eqb (MsgRole m) _); [apply IH|]).
  intros [= <-]. reflexivity.
Qed.

Lemma ollama_convertMessages_error ms acc e :
  ollama.convertMessages ms acc = inr e -> isRetryableError e = false.
Proof.
  revert acc. induction ms as [|m ms IH]; intros acc; simpl; [discriminate|].
  repeat (destruct (String.eqb (MsgRole m) _); [apply IH|]).
  intros [= <-]. reflexivity.
Qed.

(** A client call either stops before the backend, leaving the world as it
    was, or makes exactly one round trip. *)
Lemma LLM_Complete_cases llm ctx params w :
  (calls (snd (LLM_Complete llm ctx params w)) = calls w
   /\ exists e, fst (LLM_Complete llm ctx params w) = (None, Some e)
                /\ isRetryableError e = false)
  \/ exists req,
       let reply := backend w (calls w) req in
       let w' := set_now (now w + elapsed reply)
                   (set_calls (S (calls w))
                      (set_trace (trace w ++ [EvRequest req]) w)) in
       snd (LLM_Complete llm ctx params w) = w'
       /\ match body reply with
          | ReplyError e =>
              fst (LLM_Complete llm ctx params w) = (None, Some (clientError llm e))
          | ReplyOK _ items _ =>
              match llm, items with
              | OpenAIClient _ _, [] =>
                  fst (LLM_Complete llm ctx params w)
                  = (None, Some (ErrValue ErrNoMessages))
              | _, _ =>
                  exists res,
                    fst (LLM_Complete llm ctx params w) = (Some res, None)
                    /\ length (ResMessages res) = length items
              end
          end.
Proof.
  destruct llm as [cfg key|cfg]; simpl.
  - unfold openai.Complete.
    destruct (openai.convertMessages (Messages params) []) as [ms|err] eqn:Hconv.
    + right. unfold bind, roundTrip.
      match goal with
      | |- context [backend w (calls w) (OpenAIRequest ?k ?p)] =>
          exists (OpenAIRequest k p)
      end.
      cbn zeta.
      destruct (body (backend w (calls w) _)) as [id items u|e].
      * destruct items as [|first others]; simpl; [auto|].
        split; [reflexivity|]. eexists. split; [reflexivity|].
        simpl. now rewrite length_map.
      * simpl. auto.
    + left. simpl. split; [reflexivity|]. eexists. split; [reflexivity|].
      eapply openai_convertMessages_error, Hconv.
  - unfold ollama.Complete.
    match goal with
    | |- context [url_Parse w ?u] => destruct (url_Parse w u) as [perr|]
    end.
    + left. simpl. split; [reflexivity|]. eexists. split; reflexivity.
    + destruct (ollama.convertMessages (Messages params) []) as [ms|err] eqn:Hconv.
      * right. unfold bind, roundTrip.
        match goal with
        | |- context [backend w (calls w) (OllamaRequest ?k ?p)] =>
            exists (OllamaRequest k p)
        end.
        cbn zeta.
        destruct (body (backend w (calls w) _)) as [id items u|e].
        -- simpl. split; [reflexivity|]. eexists. split; [reflexivity|].
           simpl. now rewrite length_map.
        -- simpl. auto.
      * left. simpl. split; [reflexivity|]. eexists. split; [reflexivity|].
        eapply ollama_convertMessages_error, Hconv.
Qed.

(** C3, as stated, fails: an OpenAI response with status 429 and error code
    [insufficient_quota] is mapped by its code, before the status is looked
    at; the error is neither of kind TooManyRequests nor retryable. *)
Lemma openai_429_insufficient_quota_is_not_TooManyRequests :
  exists l,
    fst (LLM_Complete (OpenAIClient sample.openaiCfg "sk-test") sample.never
           sample.review
           (sample.started
              (fun _ _ => sample.openaiFails 429 openai.ErrCodeInsufficientQuota)))
    = (None, Some (ErrLLM l))
    /\ StatusCode l = 429
    /\ Err l = Some (ErrNew "insufficient quota")
    /\ errors_Is (ErrLLM l) ErrTooManyRequests = false
    /\ Retryable l = false.
Proof.
  eexists. split; [vm_compute; reflexivity|]. repeat split.
Qed.

(** C3 (amended): whenever a provider client makes its backend call and the
    backend answers with an HTTP error (for the OpenAI client: one whose
    error code is not among the five dedicated codes), a status in 500..599
    gives an [LLMError] of kind [ErrServiceUnavailable] and a status 429
    one of kind [ErrTooManyRequests], both with [Retryable = true] and the
    status code recorded. *)
Theorem provider_maps_5xx_and_429 (llm : LLM) (ctx : Context)
  (params : CompleteParams) (w : World) (e : error) (status : Z) :
  (forall req, body (backend w (calls w) req) = ReplyError e) ->
  calls (snd (LLM_Complete llm ctx params w)) <> calls w ->
  httpError llm e status ->
  500 <= status < 600 \/ status = 429 ->
  exists l,
    fst (LLM_Complete llm ctx params w) = (None, Some (ErrLLM l))
    /\ Err l = Some (ErrValue (if status =? 429 then ErrTooManyRequests
                               else ErrServiceUnavailable))
    /\ Retryable l = true
    /\ StatusCode l = status.
Proof.
  intros Hreply Hcalled Hhttp Hstatus.
  destruct (LLM_Complete_cases llm ctx params w) as [[Hsame _]|(req & Hw & Hres)].
  - contradiction.
  - cbn zeta in Hres. rewrite Hreply in Hres. rewrite Hres.
    destruct (clientError_http llm e status Hhttp Hstatus) as (l & -> & H).
    exists l. split; [reflexivity|exact H].
Qed.

Lemma provider_maps_5xx_and_429_witness :
  exists l,
    fst (LLM_Complete (OllamaClient sample.ollamaCfg) sample.never sample.review
           (sample.started (fun _ _ => sample.ollamaFails 503 "503 Service Unavailable")))
    = (None, Some (ErrLLM l))
    /\ Err l = Some (ErrValue ErrServiceUnavailable)
    /\ Retryable l = true
    /\ StatusCode l = 503.
Proof.
  apply (provider_maps_5xx_and_429 (OllamaClient sample.ollamaCfg) sample.never
           sample.review
           (sample.started (fun _ _ => sample.ollamaFails 503 "503 Service Unavailable"))
           (ErrStatus {| st_StatusCode := 503; st_Status := "503 Service Unavailable";
                         st_ErrorMessage := "backend error" |})
           503).
  - intros req. reflexivity.
  - vm_compute. discriminate.
  - simpl. eexists. split; reflexivity.
  - lia.
Defined.

(** ** Translation of the messages *)

Lemma openai_convertMessages_spec cfg key ms acc :
  match find (fun m => negb (supportedRole (OpenAIClient cfg key) (MsgRole m))) ms with
  | Some m =>
      openai.convertMessages ms acc = inr (ErrNew ("unsupported role: " +:+ MsgRole m))
  | None => openai.convertMessages ms acc = inl (acc ++ map openaiWire ms)
  end.
Proof.
  revert acc. induction ms as [|m ms IH]; intros acc; simpl.
  - now rewrite app_nil_r.
  - unfold openaiWire at 1.
    destruct (String.eqb (MsgRole m) RoleUser) eqn:Hu; simpl.
    { specialize (IH (acc ++ [UserMessage (Content m)])).
      destruct (find _ ms); [exact IH|]. rewrite IH. now rewrite <- app_assoc. }
    destruct (String.eqb (MsgRole m) RoleAssistant) eqn:Ha; simpl.
    { specialize (IH (acc ++ [AssistantMessage (Content m)])).
      destruct (find _ ms); [exact IH|]. rewrite IH. now rewrite <- app_assoc. }
    destruct (String.eqb (MsgRole m) RoleSystem) eqn:Hs; simpl.
    { specialize (IH (acc ++ [SystemMessage (Content m)])).
      destruct (find _ ms); [exact IH|]. rewrite IH. now rewrite <- app_assoc. }
    destruct (String.eqb (MsgRole m) RoleFunction) eqn:Hf; simpl.
    { match goal with
      | |- context [openai.convertMessages ms ?a] => specialize (IH a)
      end.
      destruct (find _ ms); [exact IH|]. rewrite IH. now rewrite <- app_assoc. }
    reflexivity.
Qed.

Lemma ollama_convertMessages_spec cfg ms acc :
  match find (fun m => negb (supportedRole (OllamaClient cfg) (MsgRole m))) ms with
  | Some m =>
      ollama.convertMessages ms acc = inr (ErrNew ("unsupported role: " +:+ MsgRole m))
  | None => ollama.convertMessages ms acc = inl (acc ++ map ollamaWire ms)
  end.
Proof.
  revert acc. induction ms as [|m ms IH]; intros acc; simpl.
  - now rewrite app_nil_r.
  - unfold ollamaWire at 1.
    destruct (String.eqb (MsgRole m) RoleUser) eqn:Hu; simpl.
    { apply String.eqb_eq in Hu.
      match goal with
      | |- context [ollama.convertMessages ms ?a] => specialize (IH a)
      end.
      destruct (find _ ms); [exact IH|].
      rewrite IH, <- app_assoc. simpl. now rewrite Hu. }
    destruct (String.eqb (MsgRole m) RoleAssistant) eqn:Ha; simpl.
    { apply String.eqb_eq in Ha.
      match goal with
      | |- context [ollama.convertMessages ms ?a] => specialize (IH a)
      end.
      destruct (find _ ms); [exact IH|].
      rewrite IH, <- app_assoc. simpl. now rewrite Ha. }
    destruct (String.eqb (MsgRole m) RoleSystem) eqn:Hs; simpl.
    { apply String.eqb_eq in Hs.
      match goal with
      | |- context [ollama.convertMessages ms ?a] => specialize (IH a)
      end.
      destruct (find _ ms); [exact IH|].
      rewrite IH, <- app_assoc. simpl. now rewrite Hs. }
    reflexivity.
Qed.

Lemma find_none_all {A} (f : A -> bool) (l : list A) :
  find f l = None -> forall x, In x l -> f x = false.
Proof.
  induction l as [|a l IH]; simpl; [tauto|].
  destruct (f a) eqn:Hfa; [discriminate|].
  intros Hnone x [<-|Hin]; auto.
Qed.

Lemma openaiWire_role cfg key m :
  supportedRole (OpenAIClient cfg key) (MsgRole m) = true ->
  wireRole (openaiWire m) = expectedRole (OpenAIClient cfg key) m
  /\ wireContent (openaiWire m) = expectedContent (OpenAIClient cfg key) m.
Proof.
  unfold openaiWire, supportedRole, expectedRole, expectedContent.
  destruct (String.eqb (MsgRole m) RoleUser) eqn:Hu.
  { apply String.eqb_eq in Hu. rewrite Hu. simpl. auto. }
  destruct (String.eqb (MsgRole m) RoleAssistant) eqn:Ha.
  { apply String.eqb_eq in Ha. rewrite Ha. simpl. auto. }
  destruct (String.eqb (MsgRole m) RoleSystem) eqn:Hs.
  { apply String.eqb_eq in Hs. rewrite Hs. simpl. auto. }
  simpl. intros ->. simpl. auto.
Qed.

(** C7, as stated, fails: a function message has one of the four known
    roles, yet the Ollama client rejects it as an unsupported role without
    a backend call, and the OpenAI client sends it under the role "user"
    with a rewritten content. *)
Lemma function_role_is_not_translated_as_such :
  fst (LLM_Complete (OllamaClient sample.ollamaCfg) sample.never
         sample.functionResult
         (sample.started (fun _ _ => sample.answers [sample.lgtm])))
  = (None, Some (ErrNew "unsupported role: function"))
  /\ calls (snd (LLM_Complete (OllamaClient sample.ollamaCfg) sample.never
                   sample.functionResult
                   (sample.started (fun _ _ => sample.answers [sample.lgtm]))))
     = 0%nat
  /\ exists key p,
       trace (snd (LLM_Complete (OpenAIClient sample.openaiCfg "sk-test")
                     sample.never sample.functionResult
                     (sample.started (fun _ _ => sample.answers [sample.lgtm]))))
       = [EvRequest (OpenAIRequest key p)]
       /\ map MsgRole (Messages sample.functionResult) = ["user"; "function"]
       /\ map wireRole (cp_Messages p) = ["user"; "user"]
       /\ map wireContent (cp_Messages p) = ["what is 2+2"; "Function  returned: 4"].
Proof.
  split; [vm_compute; reflexivity|].
  split; [vm_compute; reflexivity|].
  eexists. eexists. split; [vm_compute; reflexivity|]. repeat split.
Qed.

(** C7 (amended): each client accepts its own set of roles (OpenAI the four
    known ones, Ollama all but [function]).  If every message has an
    accepted role, the client sends one request whose messages correspond
    one to one, in order, to the given ones: same role and content, except
    that the OpenAI client sends a function message under the role "user"
    with the content "Function <name> returned: <content>".  Otherwise it
    returns the error "unsupported role: <role>" for the first message
    with a role it does not accept, and leaves the world as it was: no
    backend call.  (For the Ollama client this is under the condition that
    its base URL parses.) *)
Theorem messages_translated_in_order (llm : LLM) (ctx : Context)
  (params : CompleteParams) (w : World) :
  baseURLParses llm w ->
  match find (fun m => negb (supportedRole llm (MsgRole m))) (Messages params) with
  | Some m =>
      LLM_Complete llm ctx params w
      = (None, Some (ErrNew ("unsupported role: " +:+ MsgRole m)), w)
  | None =>
      exists req,
        trace (snd (LLM_Complete llm ctx params w)) = trace w ++ [EvRequest req]
        /\ requestRoles req = map (expectedRole llm) (Messages params)
        /\ requestContents req = map (expectedContent llm) (Messages params)
  end.
Proof.
  intros Hurl. destruct llm as [cfg key|cfg].
  - pose proof (openai_convertMessages_spec cfg key (Messages params) []) as Hconv.
    destruct (find _ (Messages params)) as [bad|] eqn:Hfind.
    + simpl. unfold openai.Complete. rewrite Hconv. reflexivity.
    + simpl in Hconv. simpl. unfold openai.Complete. rewrite Hconv.
      unfold bind, roundTrip.
      eexists. split.
      * destruct (body (backend w (calls w) _)) as [id [|first others] u|e];
          simpl; reflexivity.
      * pose proof (find_none_all _ _ Hfind) as Hall. simpl.
        rewrite !map_map. split; apply map_ext_in; intros m Hin;
          apply Hall in Hin; apply negb_false_iff in Hin;
          apply (openaiWire_role cfg key m Hin).
  - pose proof (ollama_convertMessages_spec cfg (Messages params) []) as Hconv.
    simpl in Hurl.
    destruct (find _ (Messages params)) as [bad|] eqn:Hfind.
    + simpl. unfold ollama.Complete. rewrite Hurl, Hconv. reflexivity.
    + simpl in Hconv. simpl. unfold ollama.Complete. rewrite Hurl, Hconv.
      unfold bind, roundTrip.
      eexists. split.
      * destruct (body (backend w (calls w) _)) as [id items u|e];
          simpl; reflexivity.
      * simpl. rewrite !map_map. split; reflexivity.
Qed.

Lemma messages_translated_in_order_witness :
  exists req,
    trace (snd (LLM_Complete (OllamaClient sample.ollamaCfg) sample.never
                  sample.review
                  (sample.started (fun _ _ => sample.answers [sample.lgtm]))))
    = trace (sample.started (fun _ _ => sample.answers [sample.lgtm]))
      ++ [EvRequest req]
    /\ requestRoles req = ["system"; "user"]
    /\ requestContents req = ["You are a code reviewer."; "review this"].
Proof.
  exact (messages_translated_in_order (OllamaClient sample.ollamaCfg) sample.never
           sample.review
           (sample.started (fun _ _ => sample.answers [sample.lgtm]))
           eq_refl).
Defined.

(** ** The registry *)

Lemma RegisterLLM_lookup constructor ms (reg : gmap Model SupportedModels) m :
  foldl (fun registered model =>
           <[model := {| Constructor_ := constructor; Model_ := model |}]> registered)
        reg ms !! m
  = if decide (m ∈ ms)
    then Some {| Constructor_ := constructor; Model_ := m |}
    else reg !! m.
Proof.
  revert reg. induction ms as [|x ms IH]; intros reg; simpl.
  - destruct (decide (m ∈ [])) as [Hin|_]; [|reflexivity].
    now apply elem_of_nil in Hin.
  - rewrite IH.
    destruct (decide (m ∈ ms)) as [Hin|Hnin].
    + rewrite decide_True; [reflexivity|]. apply elem_of_cons. now right.
    + destruct (decide (m = x)) as [->|Hne].
      * rewrite decide_True by (apply elem_of_cons; now left).
        apply lookup_insert_eq.
      * rewrite decide_False.
        -- now apply lookup_insert_ne.
        -- intros Hin. apply elem_of_cons in Hin as [?|?]; congruence.
Qed.

Lemma appendUsable_elem cfg keys acc x :
  x ∈ foldl (appendUsable cfg) acc keys
  <-> x ∈ acc \/ (x ∈ keys /\ usable cfg x = true).
Proof.
  revert acc. induction keys as [|k keys IH]; intros acc; simpl.
  - split; [auto|]. intros [H|[H _]]; [exact H|]. now apply elem_of_nil in H.
  - rewrite IH. unfold appendUsable at 1, usable.
    destruct (String.eqb (Provider_ k) OpenAI) eqn:Ho; simpl.
    + rewrite elem_of_app, list_elem_of_singleton, elem_of_cons. split.
      * intros [[H| ->]|[H1 H2]]; auto.
        right. split; [now left|]. now rewrite Ho.
      * intros [H|[[->|H1] H2]]; auto.
    + destruct (String.eqb (Provider_ k) Ollama) eqn:Hl; simpl.
      * destruct (config.Ollama_IsConfigured _) eqn:Hc; simpl.
        -- rewrite elem_of_app, list_elem_of_singleton, elem_of_cons. split.
           ++ intros [[H| ->]|[H1 H2]]; auto.
              right. split; [now left|]. now rewrite Ho, Hl.
           ++ intros [H|[[->|H1] H2]]; auto.
        -- rewrite elem_of_cons. split.
           ++ intros [H|[H1 H2]]; auto.
           ++ intros [H|[[->|H1] H2]]; auto.
              rewrite Ho, Hl in H2. discriminate.
      * rewrite elem_of_cons. split.
        -- intros [H|[H1 H2]]; auto.
        -- intros [H|[[->|H1] H2]]; auto.
           rewrite Ho, Hl in H2. discriminate.
Qed.

(** The registry holds exactly the registered models that are usable. *)
Lemma NewRegistry_elem cfg w x :
  x ∈ models (fst (NewRegistry cfg w))
  <-> is_Some (supportedModels w !! x) /\ usable cfg x = true.
Proof.
  unfold NewRegistry. simpl. rewrite appendUsable_elem. split.
  - intros [H|[H Hu]]; [now apply elem_of_nil in H|]. split; [|exact Hu].
    apply list_elem_of_fmap in H as ([k v] & -> & Hkv).
    apply elem_of_map_to_list in Hkv. simpl. eauto.
  - intros [[v Hv] Hu]. right. split; [|exact Hu].
    apply list_elem_of_fmap. exists (x, v). split; [reflexivity|].
    now apply elem_of_map_to_list.
Qed.

(** C8: a model of the provider that needs configuration (Ollama, by its
    base URL), once registered with [RegisterLLM], is absent from the
    registry built from a configuration without a base URL and present in
    the registry built from one with a base URL. *)
Theorem registered_ollama_model_needs_base_url (constructor : Constructor)
  (ms : list Model) (m : Model) (cfg : config.Config) (w : World) :
  In m ms ->
  Provider_ m = Ollama ->
  (config.Ollama_IsConfigured (config.ollama (config.llm cfg)) = false ->
   ~ In m (models (fst (NewRegistry cfg (snd (RegisterLLM constructor ms w))))))
  /\ (config.Ollama_IsConfigured (config.ollama (config.llm cfg)) = true ->
      In m (models (fst (NewRegistry cfg (snd (RegisterLLM constructor ms w)))))).
Proof.
  intros Hin Hprov. apply list_elem_of_In in Hin.
  assert (Hiff := NewRegistry_elem cfg (snd (RegisterLLM constructor ms w)) m).
  unfold usable in Hiff. rewrite Hprov in Hiff. simpl in Hiff.
  rewrite <- !list_elem_of_In. split; intros Hc; rewrite Hc in Hiff.
  - intros Hm. apply Hiff in Hm as [_ Hm]. discriminate.
  - apply Hiff. split; [|reflexivity].
    rewrite RegisterLLM_lookup, decide_True by exact Hin. eauto.
Qed.

Lemma registered_ollama_model_needs_base_url_witness :
  ~ In sample.ModelTinySwallow
      (models (fst (NewRegistry (sample.appConfig EmptyString)
                      (snd (RegisterLLM ollama_New [sample.ModelTinySwallow]
                              (sample.blank (fun _ _ => sample.answers [])))))))
  /\ In sample.ModelTinySwallow
       (models (fst (NewRegistry (sample.appConfig sample.localhost)
                       (snd (RegisterLLM ollama_New [sample.ModelTinySwallow]
                               (sample.blank (fun _ _ => sample.answers []))))))).
Proof.
  split.
  - destruct (registered_ollama_model_needs_base_url ollama_New
                [sample.ModelTinySwallow] sample.ModelTinySwallow
                (sample.appConfig EmptyString)
                (sample.blank (fun _ _ => sample.answers [])))
      as [Habsent _].
    + left. reflexivity.
    + reflexivity.
    + exact (Habsent eq_refl).
  - destruct (registered_ollama_model_needs_base_url ollama_New
                [sample.ModelTinySwallow] sample.ModelTinySwallow
                (sample.appConfig sample.localhost)
                (sample.blank (fun _ _ => sample.answers [])))
      as [_ Hpresent].
    + left. reflexivity.
    + reflexivity.
    + exact (Hpresent eq_refl).
Defined.

(** ** The retry loop *)

Lemma construct_cases k cfg :
  (exists llm, construct k cfg = (Some llm, None))
  \/ (exists e, construct k cfg = (None, Some e)).
Proof.
  destruct k; simpl.
  - unfold openai.New. destruct (APIKeyFunc cfg); eauto.
  - unfold ollama.New. eauto.
Qed.

Lemma New_cases cfg w :
  snd (New cfg w) = w
  /\ ((exists llm, fst (New cfg w) = (Some llm, None))
      \/ (exists e, fst (New cfg w) = (None, Some e))).
Proof.
  unfold New. destruct (APIKeyFunc cfg); [|simpl; eauto].
  destruct (supportedModels w !! CfgModel cfg) as [sm|]; [|simpl; eauto].
  simpl. split; [reflexivity|]. apply construct_cases.
Qed.

(** A client returns a response or an error, never both, never neither. *)
Lemma LLM_Complete_one llm ctx params w :
  (exists res, fst (LLM_Complete llm ctx params w) = (Some res, None))
  \/ (exists e, fst (LLM_Complete llm ctx params w) = (None, Some e)).
Proof.
  destruct (LLM_Complete_cases llm ctx params w)
    as [[_ (e & H & _)]|(req & _ & H)]; [right; eauto|].
  cbn zeta in H.
  destruct (body (backend w (calls w) req)) as [id items u|e]; [|eauto].
  destruct llm; [destruct items|]; eauto.
  - destruct H as (res & H & _). eauto.
  - destruct H as (res & H & _). eauto.
Qed.

(** When the [select] takes the done case, the context reports its error,
    and nothing but the clock has moved. *)
Lemma selectDoneOrAfter_done ctx wait w w' :
  selectDoneOrAfter ctx wait w = (true, w') ->
  ctx_Err ctx (now w') = Some (ErrValue (cause ctx))
  /\ calls w' = calls w /\ trace w' = trace w /\ goroutines w' = goroutines w.
Proof.
  unfold selectDoneOrAfter, ctx_Err.
  destruct (doneAt ctx) as [d|]; [|discriminate].
  destruct (d <? now w + Z.max 0 wait) eqn:Hlt.
  - intros [= <-]. simpl. assert ((d <=? Z.max (now w) d) = true) as -> by lia. auto.
  - destruct ((d =? now w + Z.max 0 wait) && select_prefers_done w) eqn:Htie;
      [|discriminate].
    intros [= <-]. simpl. apply andb_true_iff in Htie as [Heq _].
    assert ((d <=? now w + Z.max 0 wait) = true) as -> by lia. auto.
Qed.

(** How the loop can be left.  A [return] inside it hands back an error
    and no response (or is the panic of a call on a nil client); after at
    least one iteration, falling out of it leaves either an error, which is
    also the last error, or no error and a response. *)
Lemma attemptLoop_exit c ctx llm params model n attempt v w :
  match fst (attemptLoop c ctx llm params model n attempt v w) with
  | LoopReturn out =>
      (exists e, out = Return None (Some e))
      \/ (llm = None /\ out = Panic nilDereference)
  | LoopLeft v' =>
      (n = O /\ v' = v)
      \/ (n <> O
          /\ ((exists e, v_err v' = Some e /\ v_lastErr v' = Some e)
              \/ (v_err v' = None /\ exists res, v_res v' = Some res)))
  end.
Proof.
  revert attempt v w. induction n as [|n IH]; intros attempt v w; simpl.
  - left. auto.
  - destruct (ctx_Err ctx (now w)) as [e|]; simpl; [eauto|].
    unfold bind.
    destruct (0 <? attempt).
    + unfold logger_Info, emit.
      destruct (selectDoneOrAfter ctx (v_wait v) _) as [[|] w1] eqn:Hsel.
      * apply selectDoneOrAfter_done in Hsel as (Herr & _). simpl.
        rewrite Herr. eauto.
      * simpl. destruct llm as [client|]; simpl; [|auto].
        destruct (LLM_Complete client ctx params w1) as [[r e] w2] eqn:Hcall.
        pose proof (LLM_Complete_one client ctx params w1) as Hone.
        rewrite Hcall in Hone. simpl in *.
        destruct Hone as [[res [= -> ->]]|[e' [= -> ->]]]; simpl.
        -- right. split; [lia|]. right. eauto.
        -- destruct (isRetryableError e'); simpl.
           ++ specialize (IH (attempt + 1)
                            {| v_res := None; v_err := Some e';
                               v_lastErr := Some e';
                               v_wait := nextWait (retryConfig c) (v_wait v) |} w2).
              destruct (fst (attemptLoop _ _ _ _ _ n _ _ w2)) as [out|v'].
              ** exact IH.
              ** right. split; [lia|].
                 destruct IH as [[-> ->]|[_ H]]; [simpl; eauto|exact H].
           ++ right. split; [lia|]. left. eauto.
    + simpl. destruct llm as [client|]; simpl; [|auto].
      destruct (LLM_Complete client ctx params w) as [[r e] w2] eqn:Hcall.
      pose proof (LLM_Complete_one client ctx params w) as Hone.
      rewrite Hcall in Hone. simpl in *.
      destruct Hone as [[res [= -> ->]]|[e' [= -> ->]]]; simpl.
      * right. split; [lia|]. right. eauto.
      * destruct (isRetryableError e'); simpl.
        -- specialize (IH (attempt + 1)
                          {| v_res := None; v_err := Some e';
                             v_lastErr := Some e'; v_wait := v_wait v |} w2).
           destruct (fst (attemptLoop _ _ _ _ _ n _ _ w2)) as [out|v'].
           ++ exact IH.
           ++ right. split; [lia|].
              destruct IH as [[-> ->]|[_ H]]; [simpl; eauto|exact H].
        -- right. split; [lia|]. left. eauto.
Qed.

(** C10: with [MaxAttempts >= 1], [Complete] never panics and returns
    either a response or an error, exactly one of the two; with
    [MaxAttempts <= 0], once the client is initialised, the loop body never
    runs, the error is nil, and [Complete] panics on the nil response when
    it reads [res.Messages]. *)
Theorem Complete_needs_one_attempt (c : completer) (ctx : Context)
  (params : CompleteParams) (model : Model) (w : World) :
  (1 <= MaxAttempts (retryConfig c) ->
   (exists res, fst (Complete c ctx params model w) = Return (Some res) None)
   \/ (exists e, fst (Complete c ctx params model w) = Return None (Some e)))
  /\ (MaxAttempts (retryConfig c) <= 0 ->
      initialises c model w ->
      Complete c ctx params model w = (Panic nilDereference, w)).
Proof.
  split.
  - intros Hpos. unfold Complete.
    destruct (getAPIKeyFunc c (Provider_ model)) as [key [e|]]; [simpl; eauto|].
    unfold bind.
    match goal with
    | |- context [New ?k w] =>
        destruct (New_cases k w) as [Hw Hc]; destruct (New k w) as [[llm e] w1]
    end.
    simpl in Hw, Hc. subst w1.
    destruct Hc as [[l [= -> ->]]|[e' [= -> ->]]]; simpl; [|eauto].
    match goal with
    | |- context [attemptLoop c ctx (Some l) params model ?n ?a ?v w] =>
        pose proof (attemptLoop_exit c ctx (Some l) params model n a v w) as Hexit;
        destruct (attemptLoop c ctx (Some l) params model n a v w) as [x w2]
    end.
    simpl in Hexit. destruct x as [out|v'].
    + destruct Hexit as [[e ->]|[? _]]; [simpl; eauto|discriminate].
    + destruct Hexit as [[Hn _]|[_ H]]; [lia|].
      destruct H as [(e & He & Hl)|(He & res & Hr)].
      * rewrite He, Hl. simpl. eauto.
      * rewrite He, Hr. destruct (ResMessages res); simpl; eauto.
  - intros Hneg [Hkey Hnew]. unfold Complete.
    destruct (getAPIKeyFunc c (Provider_ model)) as [key [e|]]; [discriminate|].
    unfold bind. simpl in Hnew.
    match goal with
    | |- context [New ?k w] =>
        destruct (New_cases k w) as [Hw _]; destruct (New k w) as [[llm e] w1]
    end.
    simpl in Hw, Hnew. subst w1 e. simpl.
    assert (Z.to_nat (MaxAttempts (retryConfig c)) = O) as -> by lia.
    reflexivity.
Qed.

Lemma Complete_needs_one_attempt_witness :
  ((exists res,
      fst (Complete sample.defaultCompleter sample.never sample.review
             sample.ModelGPT4o
             (sample.started (fun _ _ => sample.answers [sample.lgtm])))
      = Return (Some res) None)
   \/ (exists e,
         fst (Complete sample.defaultCompleter sample.never sample.review
                sample.ModelGPT4o
                (sample.started (fun _ _ => sample.answers [sample.lgtm])))
         = Return None (Some e)))
  /\ fst (Complete
            (sample.completerWith
               {| MaxAttempts := 0; InitialWait := 500 * Millisecond;
                  MaxWait := 5 * Second; Factor := Qmake 3 2 |})
            sample.never sample.review sample.ModelGPT4o
            (sample.started (fun _ _ => sample.answers [sample.lgtm])))
     = Panic nilDereference.
Proof.
  split.
  - destruct (Complete_needs_one_attempt sample.defaultCompleter sample.never
                sample.review sample.ModelGPT4o
                (sample.started (fun _ _ => sample.answers [sample.lgtm])))
      as [Hreturns _].
    apply Hreturns. simpl. lia.
  - destruct (Complete_needs_one_attempt
                (sample.completerWith
                   {| MaxAttempts := 0; InitialWait := 500 * Millisecond;
                      MaxWait := 5 * Second; Factor := Qmake 3 2 |})
                sample.never sample.review sample.ModelGPT4o
                (sample.started (fun _ _ => sample.answers [sample.lgtm])))
      as [_ Hpanics].
    rewrite Hpanics; [reflexivity|simpl; lia|].
    split; vm_compute; reflexivity.
Defined.

(** C5: [Complete] never returns a nil error together with a response
    without messages; and when it makes a backend call that is answered by
    a success without any message, it returns an error that is
    [ErrNoMessages] (for [errors.Is]). *)
Theorem empty_success_is_ErrNoMessages (c : completer) (ctx : Context)
  (params : CompleteParams) (model : Model) (w : World) :
  (forall res,
     fst (Complete c ctx params model w) = Return (Some res) None ->
     ResMessages res <> [])
  /\ ((forall req, exists id usage,
         body (backend w (calls w) req) = ReplyOK id [] usage) ->
      calls (snd (Complete c ctx params model w)) <> calls w ->
      exists e,
        fst (Complete c ctx params model w) = Return None (Some e)
        /\ errors_Is e ErrNoMessages = true).
Proof.
  unfold Complete.
  destruct (getAPIKeyFunc c (Provider_ model)) as [key [e|]];
    [simpl; split; [discriminate|congruence]|].
  unfold bind.
  match goal with
  | |- context [New ?k w] =>
      destruct (New_cases k w) as [Hw Hc]; destruct (New k w) as [[llm e] w1]
  end.
  simpl in Hw, Hc. subst w1.
  destruct Hc as [[l [= -> ->]]|[e' [= -> ->]]]; simpl;
    [|split; [discriminate|congruence]].
  split.
  - match goal with
    | |- context [attemptLoop c ctx (Some l) params model ?n ?a ?v w] =>
        pose proof (attemptLoop_exit c ctx (Some l) params model n a v w) as Hexit;
        destruct (attemptLoop c ctx (Some l) params model n a v w) as [x w2]
    end.
    simpl in Hexit. intros res. destruct x as [out|v'].
    + destruct Hexit as [[e ->]|[? _]]; discriminate.
    + destruct (v_err v'); [discriminate|].
      destruct (v_res v') as [res0|]; [|discriminate].
      destruct (ResMessages res0) eqn:Hm; [discriminate|].
      simpl. intros [= <-]. rewrite Hm. discriminate.
  - intros Hreply Hcalled.
    destruct (Z.to_nat (MaxAttempts (retryConfig c))) as [|n]; [now simpl in *|].
    cbn [attemptLoop] in *.
    destruct (ctx_Err ctx (now w)); [now simpl in *|].
    cbn [Z.ltb Z.compare] in *. unfold bind, ret in *.
    destruct (LLM_Complete_cases l ctx params w)
      as [(Hsame & e & Hfst & Hnr)|(req & Hw & Hres)].
    + destruct (LLM_Complete l ctx params w) as [[r e0] w2].
      simpl in Hsame, Hfst. injection Hfst as -> ->.
      simpl in *. rewrite Hnr in *. simpl in *. congruence.
    + cbn zeta in Hw, Hres. destruct (Hreply req) as (id & usage & Hbody).
      rewrite Hbody in Hres.
      destruct (LLM_Complete l ctx params w) as [[r e0] w2].
      destruct l as [lcfg lkey|lcfg].
      * simpl in Hres. injection Hres as -> ->. simpl.
        eexists. split; reflexivity.
      * destruct Hres as (res & Hfst & Hlen). simpl in Hfst, Hlen.
        injection Hfst as -> ->. simpl.
        destruct (ResMessages res); [|discriminate]. simpl.
        eexists. split; reflexivity.
Qed.

Lemma empty_success_is_ErrNoMessages_witness :
  exists e,
    fst (Complete sample.defaultCompleter sample.never sample.review
           sample.ModelTinySwallow
           (sample.started (fun _ _ => sample.answers [])))
    = Return None (Some e)
    /\ errors_Is e ErrNoMessages = true.
Proof.
  destruct (empty_success_is_ErrNoMessages sample.defaultCompleter sample.never
              sample.review sample.ModelTinySwallow
              (sample.started (fun _ _ => sample.answers [])))
    as [_ Hempty].
  apply Hempty.
  - intros req. eexists. eexists. reflexivity.
  - vm_compute. discriminate.
Defined.

Lemma steps_app t1 t2 : steps (t1 ++ t2) = steps t1 ++ steps t2.
Proof. unfold steps. apply flat_map_app. Qed.

(** C4: at any iteration of the retry loop, (1) if the context is already
    done when the iteration starts, the loop returns the context's error
    at once and the world is untouched; (2) if the context becomes done
    while the iteration waits for its backoff timer, the loop returns the
    context's error at that instant, without a backend call and without
    the wait having completed; (3) [Complete] hands back what its loop
    returns, in particular the context's error when the context is done on
    entry. *)
Theorem cancellation_ends_the_retry_loop (c : completer) (ctx : Context)
  (llm : option LLM) (params : CompleteParams) (model : Model)
  (n : nat) (attempt : Z) (v : LoopVars) (w : World) :
  (forall e,
     ctx_Err ctx (now w) = Some e ->
     attemptLoop c ctx llm params model (S n) attempt v w
     = (LoopReturn (Return None (Some e)), w))
  /\ (forall d,
        ctx_Err ctx (now w) = None ->
        0 < attempt ->
        doneAt ctx = Some d ->
        d < now w + Z.max 0 (v_wait v) ->
        exists w',
          attemptLoop c ctx llm params model (S n) attempt v w
          = (LoopReturn (Return None (Some (ErrValue (cause ctx)))), w')
          /\ now w' = d
          /\ calls w' = calls w
          /\ steps (trace w') = steps (trace w))
  /\ (forall out w',
        initialises c model w ->
        attemptLoop c ctx
          (fst (fst (New {| APIKeyFunc := fst (getAPIKeyFunc c (Provider_ model));
                            CfgModel := model; Timeout := 120 * Second;
                            LLMConfig := config.llm (cfg c) |} w)))
          params model (Z.to_nat (MaxAttempts (retryConfig c))) 0
          {| v_res := None; v_err := None; v_lastErr := None;
             v_wait := InitialWait (retryConfig c) |} w
        = (LoopReturn out, w') ->
        Complete c ctx params model w = (out, w'))
  /\ (forall e,
        initialises c model w ->
        1 <= MaxAttempts (retryConfig c) ->
        ctx_Err ctx (now w) = Some e ->
        Complete c ctx params model w = (Return None (Some e), w)).
Proof.
  assert (Hglue : forall out w',
             initialises c model w ->
             attemptLoop c ctx
               (fst (fst (New {| APIKeyFunc := fst (getAPIKeyFunc c (Provider_ model));
                                 CfgModel := model; Timeout := 120 * Second;
                                 LLMConfig := config.llm (cfg c) |} w)))
               params model (Z.to_nat (MaxAttempts (retryConfig c))) 0
               {| v_res := None; v_err := None; v_lastErr := None;
                  v_wait := InitialWait (retryConfig c) |} w
             = (LoopReturn out, w') ->
             Complete c ctx params model w = (out, w')).
  { intros out w' [Hkey Hnew] Hloop. unfold Complete.
    destruct (getAPIKeyFunc c (Provider_ model)) as [key [e|]]; [discriminate|].
    unfold bind. simpl in Hnew, Hloop.
    match goal with
    | |- context [New ?k w] =>
        destruct (New_cases k w) as [Hw _]; destruct (New k w) as [[l e] w1]
    end.
    simpl in Hw, Hnew, Hloop. subst w1 e. simpl. rewrite Hloop. reflexivity. }
  split; [|split; [|split]].
  - intros e He. simpl. rewrite He. reflexivity.
  - intros d Hnone Hattempt Hdone Hduring.
    assert (Hlater : now w < d).
    { unfold ctx_Err in Hnone. rewrite Hdone in Hnone.
      destruct (d <=? now w) eqn:Hle; [discriminate|lia]. }
    cbn [attemptLoop]. rewrite Hnone.
    assert ((0 <? attempt) = true) as -> by lia.
    unfold bind, logger_Info, emit, selectDoneOrAfter. rewrite Hdone. simpl.
    assert ((d <? now w + Z.max 0 (v_wait v)) = true) as -> by lia.
    simpl. unfold ctx_Err. rewrite Hdone.
    assert ((d <=? Z.max (now w) d) = true) as -> by lia.
    eexists. split; [reflexivity|]. simpl.
    split; [lia|]. split; [reflexivity|].
    rewrite steps_app. simpl. apply app_nil_r.
  - exact Hglue.
  - intros e Hinit Hpos He. apply Hglue; [exact Hinit|].
    destruct (Z.to_nat (MaxAttempts (retryConfig c))) as [|m] eqn:Hm; [lia|].
    simpl. rewrite He. reflexivity.
Qed.

Lemma cancellation_ends_the_retry_loop_witness :
  Complete sample.defaultCompleter (sample.canceledAt 0) sample.review
    sample.ModelGPT4o (sample.started (fun _ _ => sample.openaiFails 503 EmptyString))
  = (Return None (Some (ErrValue context_Canceled)),
     sample.started (fun _ _ => sample.openaiFails 503 EmptyString))
  /\ exists w',
       attemptLoop sample.defaultCompleter (sample.canceledAt (200 * Millisecond))
         (Some (OpenAIClient sample.openaiCfg "sk-test")) sample.review
         sample.ModelGPT4o 2 1
         {| v_res := None; v_err := None; v_lastErr := None;
            v_wait := 500 * Millisecond |}
         (sample.started (fun _ _ => sample.openaiFails 503 EmptyString))
       = (LoopReturn (Return None (Some (ErrValue context_Canceled))), w')
       /\ now w' = 200 * Millisecond
       /\ calls w' = calls (sample.started (fun _ _ => sample.openaiFails 503 EmptyString))
       /\ steps (trace w')
          = steps (trace (sample.started (fun _ _ => sample.openaiFails 503 EmptyString))).
Proof.
  split.
  - destruct (cancellation_ends_the_retry_loop sample.defaultCompleter
                (sample.canceledAt 0) None sample.review sample.ModelGPT4o 0 0
                {| v_res := None; v_err := None; v_lastErr := None; v_wait := 0 |}
                (sample.started (fun _ _ => sample.openaiFails 503 EmptyString)))
      as (_ & _ & _ & Hentry).
    apply Hentry.
    + split; vm_compute; reflexivity.
    + simpl. lia.
    + reflexivity.
  - destruct (cancellation_ends_the_retry_loop sample.defaultCompleter
                (sample.canceledAt (200 * Millisecond))
                (Some (OpenAIClient sample.openaiCfg "sk-test")) sample.review
                sample.ModelGPT4o 1 1
                {| v_res := None; v_err := None; v_lastErr := None;
                   v_wait := 500 * Millisecond |}
                (sample.started (fun _ _ => sample.openaiFails 503 EmptyString)))
      as (_ & Hwait & _).
    apply (Hwait (200 * Millisecond)).
    + reflexivity.
    + lia.
    + reflexivity.
    + vm_compute. reflexivity.
Defined.

(** A run of C4 from end to end: the first attempt meets a 503 and takes
    20ms, the context is cancelled 200ms in, during the first backoff wait
    of 500ms: one backend call, then the cancellation error. *)
Example cancelled_during_first_backoff :
  fst (Complete sample.defaultCompleter (sample.canceledAt (200 * Millisecond))
         sample.review sample.ModelGPT4o
         (sample.started (fun _ _ => sample.openaiFails 503 EmptyString)))
  = Return None (Some (ErrValue context_Canceled))
  /\ calls (snd (Complete sample.defaultCompleter
                   (sample.canceledAt (200 * Millisecond))
                   sample.review sample.ModelGPT4o
                   (sample.started (fun _ _ => sample.openaiFails 503 EmptyString))))
     = 1%nat
  /\ now (snd (Complete sample.defaultCompleter
                 (sample.canceledAt (200 * Millisecond))
                 sample.review sample.ModelGPT4o
                 (sample.started (fun _ _ => sample.openaiFails 503 EmptyString))))
     = 200 * Millisecond.
Proof. repeat split; vm_compute; reflexivity. Qed.

(** ** Retryability *)

(** C2 fails on the code at this input: the OpenAI backend answers 429 with
    the code [rate_limit_exceeded]; the client returns an error of kind
    [ErrRateLimited] that it marks [Retryable], and that [IsRetryable]
    accepts; yet the completer's own predicate rejects it, and [Complete],
    allowed 3 attempts, returns after a single backend call. *)
Lemma rate_limited_error_is_not_retried :
  exists l,
    fst (Complete sample.defaultCompleter sample.never sample.review
           sample.ModelGPT4o
           (sample.started
              (fun _ _ => sample.openaiFails 429 openai.ErrCodeRateLimitExceeded)))
    = Return None (Some (ErrWrap "all completion attempts failed" (ErrLLM l)))
    /\ Err l = Some (ErrValue ErrRateLimited)
    /\ Retryable l = true
    /\ IsRetryable (ErrLLM l) = true
    /\ isRetryableError (ErrLLM l) = false
    /\ MaxAttempts (retryConfig sample.defaultCompleter) = 3
    /\ calls (snd (Complete sample.defaultCompleter sample.never sample.review
                     sample.ModelGPT4o
                     (sample.started
                        (fun _ _ =>
                           sample.openaiFails 429 openai.ErrCodeRateLimitExceeded))))
       = 1%nat.
Proof.
  eexists. split; [vm_compute; reflexivity|].
  repeat split; vm_compute; reflexivity.
Qed.

(** ** The backoff schedule *)



Lemma flat_map_seq_shift {A} (f : nat -> list A) start len :
  flat_map f (seq (S start) len) = flat_map (fun k => f (S k)) (seq start len).
Proof.
  revert start. induction len as [|len IH]; intros start; simpl; [reflexivity|].
  now rewrite IH.
Qed.

Lemma schedule_unfold (f : Z -> Z) (x : Z) (n : nat) :
  flat_map (fun k => [Wait (Nat.iter k f x); Attempt]) (seq 0 (S n))
  = Wait x :: Attempt
    :: flat_map (fun k => [Wait (Nat.iter k f (f x)); Attempt]) (seq 0 n).
Proof.
  cbn [seq flat_map]. rewrite flat_map_seq_shift. simpl. do 2 f_equal.
  apply flat_map_ext. intros k. rewrite <- Nat.iter_succ_r. reflexivity.
Qed.







(** ** What a call of [Complete] leaves alone *)

Section Frame.

Context {X : Type} (f : World -> X).

(** [f] reads none of the four components a completion call writes. *)
Hypothesis f_now : forall t w, f (set_now t w) = f w.
Hypothesis f_calls : forall n w, f (set_calls n w) = f w.
Hypothesis f_trace : forall t w, f (set_trace t w) = f w.
Hypothesis f_goroutines : forall g w, f (set_goroutines g w) = f w.

Lemma preserves_ret {A} (a : A) : preserves f (ret a).
Proof. intros w. reflexivity. Qed.

Lemma preserves_bind {A B} (m : M A) (k : A -> M B) :
  preserves f m -> (forall a, preserves f (k a)) -> preserves f (bind m k).
Proof.
  intros Hm Hk w. unfold bind. specialize (Hm w).
  destruct (m w) as [a w1]. simpl in Hm. rewrite <- Hm. apply Hk.
Qed.

Lemma preserves_emit e : preserves f (emit e).
Proof. intros w. unfold emit. simpl. apply f_trace. Qed.

Lemma preserves_roundTrip ctx req : preserves f (roundTrip ctx req).
Proof. intros w. unfold roundTrip. simpl. now rewrite f_now, f_calls, f_trace. Qed.

Lemma preserves_selectDoneOrAfter ctx wait : preserves f (selectDoneOrAfter ctx wait).
Proof.
  intros w. unfold selectDoneOrAfter.
  destruct (doneAt ctx) as [d|]; [|simpl; now rewrite f_now, f_trace].
  destruct (d <? _); [simpl; apply f_now|].
  destruct (_ && _); simpl; [apply f_now|now rewrite f_now, f_trace].
Qed.

Lemma preserves_LLM_Complete llm ctx params : preserves f (LLM_Complete llm ctx params).
Proof.
  intros w. destruct llm as [lcfg key|lcfg]; simpl.
  - unfold openai.Complete.
    destruct (openai.convertMessages (Messages params) []); [|reflexivity].
    unfold bind.
    match goal with
    | |- context [roundTrip ctx ?r w] =>
        pose proof (preserves_roundTrip ctx r w) as Hrt;
        destruct (roundTrip ctx r w) as [[id [|first others] u|e] w1]
    end; simpl in *; exact Hrt.
  - unfold ollama.Complete.
    destruct (url_Parse w _); [simpl; apply f_trace|].
    destruct (ollama.convertMessages (Messages params) []); [|reflexivity].
    unfold bind.
    match goal with
    | |- context [roundTrip ctx ?r w] =>
        pose proof (preserves_roundTrip ctx r w) as Hrt;
        destruct (roundTrip ctx r w) as [[id items u|e] w1]
    end; simpl in *; exact Hrt.
Qed.

Lemma preserves_attemptLoop c ctx llm params model n attempt v :
  preserves f (attemptLoop c ctx llm params model n attempt v).
Proof.
  revert attempt v. induction n as [|n IH]; intros attempt v w; simpl;
    [reflexivity|].
  destruct (ctx_Err ctx (now w)); [reflexivity|].
  revert w. apply preserves_bind.
  - destruct (0 <? attempt); [|apply preserves_ret].
    apply preserves_bind; [apply preserves_emit|]. intros _.
    apply preserves_bind; [apply preserves_selectDoneOrAfter|].
    intros [|]; [intros w; reflexivity|apply preserves_ret].
  - intros [out|wait]; [apply preserves_ret|].
    destruct llm as [client|]; [|apply preserves_ret].
    apply preserves_bind; [apply preserves_LLM_Complete|].
    intros [r [e|]]; simpl; [|apply preserves_ret].
    destruct (negb (isRetryableError e)); [apply preserves_ret|apply IH].
Qed.

Lemma preserves_New k : preserves f (New k).
Proof.
  intros w. destruct (New_cases k w) as [-> _]. reflexivity.
Qed.

Lemma preserves_go t : preserves f (go t).
Proof. intros w. unfold go. simpl. apply f_goroutines. Qed.

Lemma preserves_Complete c ctx params model : preserves f (Complete c ctx params model).
Proof.
  unfold Complete.
  destruct (getAPIKeyFunc c (Provider_ model)) as [key [e|]]; [apply preserves_ret|].
  apply preserves_bind; [apply preserves_New|].
  intros [llm [e|]]; simpl; [apply preserves_ret|].
  apply preserves_bind; [apply preserves_attemptLoop|].
  intros [out|v]; [apply preserves_ret|].
  destruct (v_err v); [apply preserves_ret|].
  destruct (v_res v) as [res|]; [|apply preserves_ret].
  destruct (ResMessages res); [apply preserves_ret|].
  apply preserves_bind; [apply preserves_go|]. intros _. apply preserves_ret.
Qed.

End Frame.

(** ** Fallback *)





(** The scenarios of the specification for the fallback: the primary model
    meets a 401 and is not retried, the fallback answers; and two models
    that both meet a 401. *)
Example fallback_scenarios :
  fst (CompleteWithFallback sample.defaultCompleter sample.never sample.review
         sample.ModelGPT4o [sample.ModelTinySwallow]
         (sample.started
            (fun _ req =>
               match req with
               | OpenAIRequest _ _ => sample.openaiFails 401 openai.ErrCodeInvalidAPIKey
               | OllamaRequest _ _ => sample.answers [sample.lgtm]
               end)))
  = fst (Complete sample.defaultCompleter sample.never sample.review
           sample.ModelTinySwallow
           (set_now (20 * Millisecond)
              (set_calls 1 (sample.started (fun _ _ => sample.answers [sample.lgtm])))))
  /\ map requestRoles
       (flat_map (fun e => match e with EvRequest r => [r] | _ => [] end)
          (trace (snd (CompleteWithFallback sample.defaultCompleter sample.never
                         sample.review sample.ModelGPT4o [sample.ModelTinySwallow]
                         (sample.started
                            (fun _ req =>
                               match req with
                               | OpenAIRequest _ _ =>
                                   sample.openaiFails 401 openai.ErrCodeInvalidAPIKey
                               | OllamaRequest _ _ => sample.answers [sample.lgtm]
                               end))))))
     = [["system"; "user"]; ["system"; "user"]]
  /\ exists l,
       fst (CompleteWithFallback sample.defaultCompleter sample.never sample.review
              sample.ModelGPT4o [sample.ModelTinySwallow]
              (sample.started
                 (fun _ req =>
                    match req with
                    | OpenAIRequest _ _ =>
                        sample.openaiFails 401 openai.ErrCodeInvalidAPIKey
                    | OllamaRequest _ _ => sample.ollamaFails 401 "401 Unauthorized"
                    end)))
       = Return None
           (Some (ErrWrap "all models failed"
                    (ErrWrap "all completion attempts failed" (ErrLLM l))))
       /\ ErrProvider l = Ollama.
Proof.
  split; [vm_compute; reflexivity|].
  split; [vm_compute; reflexivity|].
  eexists. split; [vm_compute; reflexivity|reflexivity].
Qed.

(** ** Telemetry cannot reach the caller *)

Lemma ignoresTelemetry_ret {A} (a : A) : ignoresTelemetry (ret a).
Proof. intros s w. reflexivity. Qed.

Lemma ignoresTelemetry_bind {A B} (m : M A) (k : A -> M B) :
  ignoresTelemetry m -> (forall a, ignoresTelemetry (k a)) ->
  ignoresTelemetry (bind m k).
Proof.
  intros Hm Hk s w. unfold bind. rewrite Hm.
  destruct (m w) as [a w1]. simpl. apply Hk.
Qed.

Lemma ignoresTelemetry_emit e : ignoresTelemetry (emit e).
Proof. intros s w. reflexivity. Qed.

Lemma ignoresTelemetry_roundTrip ctx req : ignoresTelemetry (roundTrip ctx req).
Proof. intros s w. reflexivity. Qed.

Lemma ignoresTelemetry_selectDoneOrAfter ctx wait :
  ignoresTelemetry (selectDoneOrAfter ctx wait).
Proof.
  intros s w. unfold selectDoneOrAfter. cbn [now select_prefers_done set_telemetry].
  destruct (doneAt ctx) as [d|]; [|reflexivity].
  destruct (d <? _); [reflexivity|].
  destruct (_ && _); reflexivity.
Qed.

Lemma ignoresTelemetry_LLM_Complete llm ctx params :
  ignoresTelemetry (LLM_Complete llm ctx params).
Proof.
  intros s w. destruct llm as [lcfg key|lcfg]; simpl.
  - unfold openai.Complete. cbn [now set_telemetry].
    destruct (openai.convertMessages (Messages params) []); [|reflexivity].
    unfold bind, roundTrip. cbn [backend calls set_telemetry].
    destruct (body (backend w (calls w) _)) as [id [|first others] u|e];
      reflexivity.
  - unfold ollama.Complete. cbn [now url_Parse set_telemetry].
    destruct (url_Parse w _); [reflexivity|].
    destruct (ollama.convertMessages (Messages params) []); [|reflexivity].
    unfold bind, roundTrip. cbn [backend calls set_telemetry].
    destruct (body (backend w (calls w) _)) as [id items u|e]; reflexivity.
Qed.

Lemma ignoresTelemetry_attemptLoop c ctx llm params model n attempt v :
  ignoresTelemetry (attemptLoop c ctx llm params model n attempt v).
Proof.
  revert attempt v. induction n as [|n IH]; intros attempt v s w;
    [reflexivity|].
  cbn [attemptLoop now set_telemetry].
  destruct (ctx_Err ctx (now w)); [reflexivity|].
  revert s w. apply ignoresTelemetry_bind.
  - destruct (0 <? attempt); [|apply ignoresTelemetry_ret].
    apply ignoresTelemetry_bind; [apply ignoresTelemetry_emit|]. intros _.
    apply ignoresTelemetry_bind; [apply ignoresTelemetry_selectDoneOrAfter|].
    intros [|]; [intros s w; reflexivity|apply ignoresTelemetry_ret].
  - intros [out|wait]; [apply ignoresTelemetry_ret|].
    destruct llm as [client|]; [|apply ignoresTelemetry_ret].
    apply ignoresTelemetry_bind; [apply ignoresTelemetry_LLM_Complete|].
    intros [r [e|]]; simpl; [|apply ignoresTelemetry_ret].
    destruct (negb (isRetryableError e)); [apply ignoresTelemetry_ret|apply IH].
Qed.

Lemma ignoresTelemetry_New k : ignoresTelemetry (New k).
Proof.
  intros s w. unfold New. cbn [supportedModels set_telemetry].
  destruct (APIKeyFunc k); [|reflexivity].
  destruct (supportedModels w !! CfgModel k); reflexivity.
Qed.

Lemma ignoresTelemetry_go t : ignoresTelemetry (go t).
Proof. intros s w. reflexivity. Qed.

Lemma ignoresTelemetry_Complete c ctx params model :
  ignoresTelemetry (Complete c ctx params model).
Proof.
  unfold Complete.
  destruct (getAPIKeyFunc c (Provider_ model)) as [key [e|]];
    [apply ignoresTelemetry_ret|].
  apply ignoresTelemetry_bind; [apply ignoresTelemetry_New|].
  intros [llm [e|]]; simpl; [apply ignoresTelemetry_ret|].
  apply ignoresTelemetry_bind; [apply ignoresTelemetry_attemptLoop|].
  intros [out|v]; [apply ignoresTelemetry_ret|].
  destruct (v_err v); [apply ignoresTelemetry_ret|].
  destruct (v_res v) as [res|]; [|apply ignoresTelemetry_ret].
  destruct (ResMessages res); [apply ignoresTelemetry_ret|].
  apply ignoresTelemetry_bind; [apply ignoresTelemetry_go|]. intros _.
  apply ignoresTelemetry_ret.
Qed.

Lemma addsTelemetryEvents_refl w : addsTelemetryEvents w w.
Proof.
  exists []. split; [|constructor]. destruct w. simpl. now rewrite app_nil_r.
Qed.

Lemma addsTelemetryEvents_trans w1 w2 w3 :
  addsTelemetryEvents w1 w2 -> addsTelemetryEvents w2 w3 ->
  addsTelemetryEvents w1 w3.
Proof.
  intros (e1 & -> & H1) (e2 & -> & H2). exists (e1 ++ e2).
  split; [|now apply Forall_app]. simpl. now rewrite <- app_assoc.
Qed.

Lemma addsTelemetryEvents_one e w :
  telemetryEvent e -> addsTelemetryEvents w (snd (emit e w)).
Proof. intros He. exists [e]. split; [reflexivity|]. now constructor. Qed.

Lemma Ingest_adds client batch w :
  addsTelemetryEvents w (snd (Ingest client batch w)).
Proof.
  unfold Ingest. destruct (telemetry w batch) as [e|e|status decoded|v]; simpl.
  - apply addsTelemetryEvents_refl.
  - apply (addsTelemetryEvents_one (EvIngest batch)). exact I.
  - destruct (_ && _); [|destruct decoded]; simpl;
      apply (addsTelemetryEvents_one (EvIngest batch)); exact I.
  - apply addsTelemetryEvents_refl.
Qed.

(** The telemetry goroutine, whatever the ingestion does (an error, any
    status, a body that does not decode, a panic), only adds telemetry
    events to the trace: the POST itself and error-level log entries. *)
Lemma telemetryGoroutine_adds t w :
  addsTelemetryEvents w (snd (telemetryGoroutine t w)).
Proof.
  unfold telemetryGoroutine, sendTraceEvents.
  destruct (langfuse_ (task_c t)) as [client|]; [|apply addsTelemetryEvents_refl].
  destruct (extractModelParameters (task_params t)) as [[temperature maxTokens] topP].
  destruct (ResMessages (task_res t)) as [|first others].
  { apply (addsTelemetryEvents_one (EvLog LevelError _ _)). exact I. }
  unfold bind, logger_Error.
  match goal with
  | |- context [Ingest client ?b w] =>
      pose proof (Ingest_adds client b w) as Hingest;
      destruct (Ingest client b w) as [r w1]
  end.
  simpl in Hingest.
  eapply addsTelemetryEvents_trans; [exact Hingest|].
  destruct r as [[resp|] [err|]|v]; simpl.
  - eexists [_; _]. split; [simpl; rewrite <- app_assoc; reflexivity|].
    repeat constructor.
  - destruct (langfuse.Errors resp); simpl.
    + apply addsTelemetryEvents_refl.
    + apply (addsTelemetryEvents_one (EvLog LevelError _ _)). exact I.
  - eexists [_; _]. split; [simpl; rewrite <- app_assoc; reflexivity|].
    repeat constructor.
  - apply (addsTelemetryEvents_one (EvLog LevelError _ _)). exact I.
  - apply (addsTelemetryEvents_one (EvLog LevelError _ _)). exact I.
Qed.

Lemma runGoroutines_adds w :
  addsTelemetryEvents (set_goroutines [] w) (snd (runGoroutines w)).
Proof.
  unfold runGoroutines. simpl.
  generalize (set_goroutines [] w) as w0.
  induction (goroutines w) as [|t ts IH]; intros w0; simpl.
  - apply addsTelemetryEvents_refl.
  - eapply addsTelemetryEvents_trans; [apply (telemetryGoroutine_adds t)|apply IH].
Qed.

(** C9: take a call of [Complete] and let the telemetry goroutine it
    started run to its end.  Whatever the telemetry endpoint does in one
    run and in another (an error status such as 500, a transport error, a
    body that does not decode, rejected events, a panic that unwinds the
    goroutine), the caller gets the same response and error in both runs;
    and the two final worlds are one and the same world, up to the
    telemetry events at the end of the trace: the POST and error-level log
    entries. *)
Theorem telemetry_never_reaches_the_caller (c : completer) (ctx : Context)
  (params : CompleteParams) (model : Model) (w : World)
  (s1 s2 : list langfuse.Event -> langfuse.Behaviour) :
  fst (CompleteAndSettle c ctx params model (set_telemetry s1 w))
  = fst (CompleteAndSettle c ctx params model (set_telemetry s2 w))
  /\ fst (CompleteAndSettle c ctx params model (set_telemetry s1 w))
     = fst (Complete c ctx params model w)
  /\ exists w',
       addsTelemetryEvents (set_telemetry s1 w')
         (snd (CompleteAndSettle c ctx params model (set_telemetry s1 w)))
       /\ addsTelemetryEvents (set_telemetry s2 w')
            (snd (CompleteAndSettle c ctx params model (set_telemetry s2 w))).
Proof.
  unfold CompleteAndSettle, bind.
  rewrite !(ignoresTelemetry_Complete c ctx params model).
  destruct (Complete c ctx params model w) as [out w1]. cbn [fst snd].
  pose proof (runGoroutines_adds (set_telemetry s1 w1)) as H1.
  pose proof (runGoroutines_adds (set_telemetry s2 w1)) as H2.
  destruct (runGoroutines (set_telemetry s1 w1)) as [[] w2].
  destruct (runGoroutines (set_telemetry s2 w1)) as [[] w3].
  simpl in *. split; [reflexivity|]. split; [reflexivity|].
  exists (set_goroutines [] w1). split; assumption.
Qed.

(** The scenario of the specification: with the telemetry endpoint
    answering 500, the caller gets what it gets with the endpoint up; the
    failure shows as two error-level log entries after the POST. *)
Example telemetry_sink_returns_500 :
  fst (CompleteAndSettle sample.defaultCompleter sample.never sample.review
         sample.ModelGPT4o
         (set_telemetry sample.sinkDown
            (sample.started (fun _ _ => sample.answers [sample.lgtm]))))
  = fst (CompleteAndSettle sample.defaultCompleter sample.never sample.review
           sample.ModelGPT4o
           (set_telemetry sample.sinkUp
              (sample.started (fun _ _ => sample.answers [sample.lgtm]))))
  /\ succeeded
       (fst (CompleteAndSettle sample.defaultCompleter sample.never sample.review
               sample.ModelGPT4o
               (set_telemetry sample.sinkDown
                  (sample.started (fun _ _ => sample.answers [sample.lgtm])))))
     = true
  /\ map (fun e => match e with
                   | EvLog LevelError msg _ => msg
                   | EvIngest _ => "POST /api/public/ingestion"
                   | _ => EmptyString
                   end)
       (skipn 1
          (trace (snd (CompleteAndSettle sample.defaultCompleter sample.never
                         sample.review sample.ModelGPT4o
                         (set_telemetry sample.sinkDown
                            (sample.started
                               (fun _ _ => sample.answers [sample.lgtm])))))))
     = ["POST /api/public/ingestion";
        "failed to send trace events to Langfuse";
        "error sending telemetry"].
Proof.
  split; [vm_compute; reflexivity|].
  split; vm_compute; reflexivity.
Qed.

(** * Further properties of the code *)

(** Split a conjunction into its parts, and only that. *)
Ltac conjs := repeat match goal with |- _ /\ _ => split end.

(** ** The retry loop, whatever the backend does *)

(** A client call that stops before the backend adds no step, returns an
    error that is not retried and makes no call; otherwise the client
    sends. *)
Lemma LLM_Complete_stops_or_sends llm ctx params w :
  (exists evs e,
     trace (snd (LLM_Complete llm ctx params w)) = trace w ++ evs
     /\ steps evs = []
     /\ calls (snd (LLM_Complete llm ctx params w)) = calls w
     /\ now (snd (LLM_Complete llm ctx params w)) = now w
     /\ goroutines (snd (LLM_Complete llm ctx params w)) = goroutines w
     /\ fst (LLM_Complete llm ctx params w) = (None, Some e)
     /\ isRetryableError e = false)
  \/ sends llm params w.
Proof.
  destruct llm as [lcfg key|lcfg]; simpl.
  - pose proof (openai_convertMessages_spec lcfg key (Messages params) []) as Hspec.
    unfold openai.Complete.
    destruct (openai.convertMessages (Messages params) []) as [ms|err] eqn:Hconv.
    + right. split; [exact I|]. unfold rolesAccepted.
      destruct (find _ (Messages params)); [discriminate|reflexivity].
    + left. exists [], err. simpl. rewrite app_nil_r. repeat split.
      eapply openai_convertMessages_error, Hconv.
  - pose proof (ollama_convertMessages_spec lcfg (Messages params) []) as Hspec.
    unfold ollama.Complete.
    destruct (url_Parse w (config.BaseURL (config.ollama (LLMConfig lcfg))))
      as [text|] eqn:Hurl.
    + left. eexists [_], _. simpl. repeat split.
    + destruct (ollama.convertMessages (Messages params) []) as [ms|err] eqn:Hconv.
      * right. split; [exact Hurl|]. unfold rolesAccepted.
        destruct (find _ (Messages params)); [discriminate|reflexivity].
      * left. exists [], err. simpl. rewrite app_nil_r. repeat split.
        eapply ollama_convertMessages_error, Hconv.
Qed.

(** The world after a client call that sends. *)
Lemma LLM_Complete_sent_world llm ctx params w :
  sends llm params w ->
  exists req,
    snd (LLM_Complete llm ctx params w)
    = set_now (now w + elapsed (backend w (calls w) req))
        (set_calls (S (calls w)) (set_trace (trace w ++ [EvRequest req]) w))
    /\ (forall e, body (backend w (calls w) req) = ReplyError e ->
                  fst (LLM_Complete llm ctx params w) = (None, Some (clientError llm e)))
    /\ (forall id items usage,
          body (backend w (calls w) req) = ReplyOK id items usage ->
          items <> [] ->
          exists res,
            fst (LLM_Complete llm ctx params w) = (Some res, None)
            /\ length (ResMessages res) = length items).
Proof.
  intros [Hurl Hroles]. unfold rolesAccepted in Hroles.
  destruct llm as [lcfg key|lcfg]; simpl in *.
  - pose proof (openai_convertMessages_spec lcfg key (Messages params) []) as Hconv.
    simpl in Hconv. rewrite Hroles in Hconv.
    unfold openai.Complete. rewrite Hconv. unfold bind, roundTrip.
    eexists. cbn zeta. split; [|split].
    + destruct (body (backend w (calls w) _)) as [id [|first others] u|e];
        reflexivity.
    + intros e ->. reflexivity.
    + intros id items usage -> Hne. destruct items as [|first others];
        [congruence|].
      eexists. split; [reflexivity|]. simpl. now rewrite length_map.
  - pose proof (ollama_convertMessages_spec lcfg (Messages params) []) as Hconv.
    simpl in Hconv. rewrite Hroles in Hconv.
    unfold ollama.Complete. rewrite Hurl, Hconv. unfold bind, roundTrip.
    eexists. cbn zeta. split; [|split].
    + destruct (body (backend w (calls w) _)) as [id items u|e]; reflexivity.
    + intros e ->. reflexivity.
    + intros id items usage -> Hne.
      eexists. split; [reflexivity|]. simpl. now rewrite length_map.
Qed.

Lemma sends_after llm params w w' :
  url_Parse w' = url_Parse w -> sends llm params w -> sends llm params w'.
Proof.
  intros Hurl [Hp Hr]. split; [|exact Hr].
  destruct llm; simpl in *; [exact I|]. now rewrite Hurl.
Qed.

(** The retry iterations of the loop, for any backend and any context:
    some number [k] of them get to their backend call, each after its
    backoff wait, and nothing else is a step. *)
Lemma attemptLoop_retry_steps c ctx llm params model n :
  forall attempt v w,
    0 < attempt ->
    sends llm params w ->
    exists k evs,
      (k <= n)%nat
      /\ calls (snd (attemptLoop c ctx (Some llm) params model n attempt v w))
         = (calls w + k)%nat
      /\ trace (snd (attemptLoop c ctx (Some llm) params model n attempt v w))
         = trace w ++ evs
      /\ steps evs
         = flat_map (fun i => [Wait (Nat.iter i (nextWait (retryConfig c)) (v_wait v));
                               Attempt])
                    (seq 0 k).
Proof.
  induction n as [|n IH]; intros attempt v w Hattempt Hsends.
  - exists O, []. simpl. rewrite app_nil_r, Nat.add_0_r. auto.
  - cbn [attemptLoop].
    destruct (ctx_Err ctx (now w)) as [e|].
    { exists O, []. simpl. rewrite app_nil_r, Nat.add_0_r.
      conjs; [lia|reflexivity|reflexivity|reflexivity]. }
    assert ((0 <? attempt) = true) as -> by lia.
    unfold bind, logger_Info, emit, ret.
    match goal with
    | |- context [selectDoneOrAfter ctx (v_wait v) ?w0] =>
        set (wLogged := w0);
        destruct (selectDoneOrAfter ctx (v_wait v) wLogged) as [done wWaited] eqn:Hsel
    end.
    destruct done.
    { apply selectDoneOrAfter_done in Hsel as (_ & Hc & Ht & _).
      exists O, [EvLog LevelInfo "retrying LLM request"
                   [("attempt", FInt (attempt + 1)); ("model", FString (Name model));
                    ("previous_error", FError (v_lastErr v))]].
      cbn [fst snd]. rewrite Hc, Ht. simpl. rewrite Nat.add_0_r.
      conjs; [lia|reflexivity|reflexivity|reflexivity]. }
    assert (HwWaited :
              wWaited = set_now (now wLogged + Z.max 0 (v_wait v))
                          (set_trace (trace wLogged ++ [EvSleep (v_wait v)]) wLogged)).
    { unfold selectDoneOrAfter in Hsel.
      destruct (doneAt ctx) as [d|]; [|now injection Hsel as <-].
      destruct (d <? _); [discriminate|].
      destruct (_ && _); [discriminate|now injection Hsel as <-]. }
    assert (Hsends' : sends llm params wWaited).
    { apply (sends_after llm params w); [now subst wWaited|exact Hsends]. }
    destruct (LLM_Complete_sent_world llm ctx params wWaited Hsends')
      as (req & Hw2 & _ & _).
    destruct (LLM_Complete llm ctx params wWaited) as [[r oe] w2].
    cbn [fst snd] in *.
    assert (Hcalls2 : calls w2 = S (calls w)) by (subst w2 wWaited; reflexivity).
    assert (Htrace2 :
              trace w2
              = trace w
                ++ [EvLog LevelInfo "retrying LLM request"
                      [("attempt", FInt (attempt + 1)); ("model", FString (Name model));
                       ("previous_error", FError (v_lastErr v))];
                    EvSleep (v_wait v); EvRequest req]).
    { subst w2 wWaited. simpl. now rewrite <- !app_assoc. }
    assert (Hone :
              exists evs,
                trace w2 = trace w ++ evs
                /\ steps evs
                   = flat_map (fun i => [Wait (Nat.iter i (nextWait (retryConfig c))
                                                  (v_wait v)); Attempt])
                              (seq 0 1)).
    { eexists. split; [exact Htrace2|reflexivity]. }
    destruct oe as [e|].
    + destruct (isRetryableError e); cbn [negb].
      * match goal with
        | |- context [attemptLoop c ctx (Some llm) params model n ?a ?v' w2] =>
            destruct (IH a v' w2) as (k & evs & Hk & Hcalls & Htrace & Hsteps)
        end.
        { lia. }
        { apply (sends_after llm params w); [now subst w2 wWaited|exact Hsends]. }
        exists (S k). eexists. split; [lia|].
        split; [rewrite Hcalls, Hcalls2; lia|].
        split; [rewrite Htrace, Htrace2, <- app_assoc; reflexivity|].
        rewrite schedule_unfold, steps_app. simpl in Hsteps. rewrite Hsteps.
        reflexivity.
      * destruct Hone as (evs & Ht & Hs). exists 1%nat, evs. cbn [fst snd].
        conjs; [lia|lia|exact Ht|exact Hs].
    + destruct Hone as (evs & Ht & Hs). exists 1%nat, evs. cbn [fst snd].
      conjs; [lia|lia|exact Ht|exact Hs].
Qed.

Lemma Complete_retry_steps (c : completer) (ctx : Context)
  (params : CompleteParams) (model : Model) (w : World) :
  exists k evs,
    (k <= Z.to_nat (MaxAttempts (retryConfig c)))%nat
    /\ calls (snd (Complete c ctx params model w)) = (calls w + k)%nat
    /\ trace (snd (Complete c ctx params model w)) = trace w ++ evs
    /\ steps evs = retrySchedule (retryConfig c) k.
Proof.
  assert (Hnone : forall w0 : World,
             exists k evs,
               (k <= Z.to_nat (MaxAttempts (retryConfig c)))%nat
               /\ calls w0 = (calls w0 + k)%nat
               /\ trace w0 = trace w0 ++ evs
               /\ steps evs = retrySchedule (retryConfig c) k).
  { intros w0. exists O, []. rewrite app_nil_r, Nat.add_0_r.
    conjs; [lia|reflexivity|reflexivity|reflexivity]. }
  unfold Complete.
  destruct (getAPIKeyFunc c (Provider_ model)) as [key [e|]]; [apply Hnone|].
  unfold bind.
  match goal with
  | |- context [New ?k w] =>
      destruct (New_cases k w) as [Hw _]; destruct (New k w) as [[llm e] w1]
  end.
  simpl in Hw. subst w1. cbn [fst snd].
  destruct e as [e|]; [apply Hnone|].
  assert (Hloop :
            exists k evs,
              (k <= Z.to_nat (MaxAttempts (retryConfig c)))%nat
              /\ calls (snd (attemptLoop c ctx llm params model
                               (Z.to_nat (MaxAttempts (retryConfig c))) 0
                               {| v_res := None; v_err := None; v_lastErr := None;
                                  v_wait := InitialWait (retryConfig c) |} w))
                 = (calls w + k)%nat
              /\ trace (snd (attemptLoop c ctx llm params model
                               (Z.to_nat (MaxAttempts (retryConfig c))) 0
                               {| v_res := None; v_err := None; v_lastErr := None;
                                  v_wait := InitialWait (retryConfig c) |} w))
                 = trace w ++ evs
              /\ steps evs = retrySchedule (retryConfig c) k).
  { destruct (Z.to_nat (MaxAttempts (retryConfig c))) as [|n]; [apply (Hnone w)|].
    cbn [attemptLoop].
    destruct (ctx_Err ctx (now w)); [destruct (Hnone w) as (k & evs & Hk & H);
                                     exists k, evs; split; [lia|exact H]|].
    cbn [Z.ltb Z.compare]. unfold bind, ret.
    destruct llm as [client|];
      [|destruct (Hnone w) as (k & evs & Hk & H); exists k, evs; split; [lia|exact H]].
    destruct (LLM_Complete_stops_or_sends client ctx params w)
      as [(evs & e & Ht & Hs & Hc & _ & _ & Hfst & Hnr)|Hsends].
    - destruct (LLM_Complete client ctx params w) as [[r oe] w2].
      cbn [fst snd] in *. injection Hfst as -> ->. rewrite Hnr. cbn [negb snd].
      exists O, evs. rewrite Nat.add_0_r. conjs; [lia|exact Hc|exact Ht|exact Hs].
    - destruct (LLM_Complete_sent_world client ctx params w Hsends)
        as (req & Hw2 & _ & _).
      destruct (LLM_Complete client ctx params w) as [[r oe] w2].
      cbn [fst snd] in *.
      assert (Hone : exists k evs,
                 (k <= S n)%nat /\ calls w2 = (calls w + k)%nat
                 /\ trace w2 = trace w ++ evs
                 /\ steps evs = retrySchedule (retryConfig c) k).
      { exists 1%nat, [EvRequest req]. subst w2.
        conjs; [lia|simpl; lia|reflexivity|reflexivity]. }
      destruct oe as [e|]; [|exact Hone].
      destruct (isRetryableError e); cbn [negb]; [|exact Hone].
      match goal with
      | |- context [attemptLoop c ctx (Some client) params model n ?a ?v' w2] =>
          destruct (attemptLoop_retry_steps c ctx client params model n a v' w2)
            as (k & evs & Hk & Hcalls & Htrace & Hsteps)
      end.
      { lia. }
      { apply (sends_after client params w); [now subst w2|exact Hsends]. }
      exists (S k), (EvRequest req :: evs).
      split; [lia|]. split; [rewrite Hcalls; subst w2; simpl; lia|].
      split; [rewrite Htrace; subst w2; simpl; now rewrite <- app_assoc|].
      unfold retrySchedule, backoff. unfold steps in *. cbn [flat_map observe app].
      simpl in Hsteps. now rewrite Hsteps. }
  destruct (attemptLoop c ctx llm params model _ 0 _ w) as [[out|v] w2];
    cbn [fst snd] in *; [exact Hloop|].
  destruct (v_err v); [exact Hloop|].
  destruct (v_res v) as [res|]; [|exact Hloop].
  destruct (ResMessages res); exact Hloop.
Qed.







(** X3: an error that [isRetryableError] rejects ends the call at once.
    If the client is initialised, at least one attempt is allowed, the
    context is not done on entry and the first client call returns an
    error the predicate rejects, then [Complete] is that one client call:
    it returns the error wrapped as "all completion attempts failed", and
    the world is the one the client call left (no wait, no second call, no
    goroutine). *)
Theorem Complete_stops_at_a_non_retryable_error (c : completer) (ctx : Context)
  (params : CompleteParams) (model : Model) (w : World) (llm : LLM) (e : error) :
  initialises c model w ->
  clientOf c model w = Some llm ->
  1 <= MaxAttempts (retryConfig c) ->
  ctx_Err ctx (now w) = None ->
  fst (LLM_Complete llm ctx params w) = (None, Some e) ->
  isRetryableError e = false ->
  Complete c ctx params model w
  = (Return None (Some (ErrWrap "all completion attempts failed" e)),
     snd (LLM_Complete llm ctx params w)).
Proof.
  intros [Hkey Hnew] Hclient Hpos Hctx Hfst Hnr.
  unfold Complete. unfold clientOf in Hclient.
  destruct (getAPIKeyFunc c (Provider_ model)) as [key [ek|]]; [discriminate|].
  unfold bind. simpl in Hnew, Hclient.
  match goal with
  | |- context [New ?k w] =>
      destruct (New_cases k w) as [Hw _]; destruct (New k w) as [[l en] wn]
  end.
  simpl in Hw, Hnew, Hclient. subst wn en l. cbn [fst snd].
  destruct (Z.to_nat (MaxAttempts (retryConfig c))) as [|n] eqn:HN; [lia|].
  cbn [attemptLoop]. rewrite Hctx. cbn [Z.ltb Z.compare]. unfold bind, ret.
  destruct (LLM_Complete llm ctx params w) as [[r oe] w2].
  cbn [fst snd] in *. injection Hfst as -> ->. rewrite Hnr. reflexivity.
Qed.

Lemma Complete_stops_at_a_non_retryable_error_witness :
  exists l,
    fst (Complete sample.defaultCompleter sample.never sample.review
           sample.ModelGPT4o
           (sample.started (fun _ _ => sample.openaiFails 401 openai.ErrCodeInvalidAPIKey)))
    = Return None (Some (ErrWrap "all completion attempts failed" (ErrLLM l)))
    /\ Err l = Some (ErrValue ErrInvalidAPIKey)
    /\ calls (snd (Complete sample.defaultCompleter sample.never sample.review
                     sample.ModelGPT4o
                     (sample.started
                        (fun _ _ => sample.openaiFails 401 openai.ErrCodeInvalidAPIKey))))
       = 1%nat.
Proof.
  eexists.
  rewrite (Complete_stops_at_a_non_retryable_error sample.defaultCompleter
             sample.never sample.review sample.ModelGPT4o
             (sample.started (fun _ _ => sample.openaiFails 401 openai.ErrCodeInvalidAPIKey))
             (OpenAIClient sample.openaiCfg "sk-test")
             (openai.handleError sample.openaiCfg
                (ErrOpenAI {| oa_StatusCode := 401;
                              oa_Code := openai.ErrCodeInvalidAPIKey |}))).
  - split; [reflexivity|]. split; reflexivity.
  - split; vm_compute; reflexivity.
  - vm_compute. reflexivity.
  - vm_compute. discriminate.
  - reflexivity.
  - reflexivity.
  - reflexivity.
Defined.



(** X4: whatever the retry policy (its factor, its signs, its order), every
    backoff wait but the first is at most [MaxWait]: the cap is applied
    each time the wait is grown, and only then. *)
Theorem waits_after_the_first_are_capped (rc : RetryConfig) (k : nat) :
  backoff rc (S k) <= MaxWait rc.
Proof.
  unfold backoff. cbn [Nat.iter nat_rect]. unfold nextWait at 1.
  match goal with
  | |- context [?g >? MaxWait rc] => destruct (g >? MaxWait rc) eqn:Hcap
  end; lia.
Qed.

(** ** The registry, further *)

Lemma appendUsable_filter cfg keys acc :
  foldl (appendUsable cfg) acc keys = acc ++ List.filter (usable cfg) keys.
Proof.
  revert acc. induction keys as [|k keys IH]; intros acc; simpl.
  - now rewrite app_nil_r.
  - rewrite IH. unfold appendUsable, usable.
    destruct (String.eqb (Provider_ k) OpenAI); simpl.
    + now rewrite <- app_assoc.
    + destruct (String.eqb (Provider_ k) Ollama); simpl; [|reflexivity].
      destruct (config.Ollama_IsConfigured _); simpl; [|reflexivity].
      now rewrite <- app_assoc.
Qed.

Lemma filter_no_longer {A} (f : A -> bool) (l : list A) :
  (length (List.filter f l) <= length l)%nat.
Proof.
  induction l as [|a l IH]; simpl; [lia|]. destruct (f a); simpl; lia.
Qed.

(** X6: every model of a registry built by [NewRegistry] gets through the
    initialisation of [Complete] (in a process with the same
    registrations): its provider is "openai" or "ollama" and has a key
    accessor, and [New] builds a client for it without error.  So for the
    models [GetAvailableModels] lists, [Complete] never answers "failed to
    get API key" or "failed to initialize LLM client". *)
Theorem available_models_initialise (c : completer) (cfg : config.Config)
  (w : World) (m : Model) :
  In m (models (fst (NewRegistry cfg w))) ->
  (Provider_ m = OpenAI \/ Provider_ m = Ollama)
  /\ initialises c m w
  /\ exists llm, clientOf c m w = Some llm.
Proof.
  intros Hin. apply list_elem_of_In, NewRegistry_elem in Hin as [[sm Hsm] Husable].
  unfold usable in Husable.
  assert (Hprov : Provider_ m = OpenAI \/ Provider_ m = Ollama).
  { apply orb_true_iff in Husable as [H|H].
    - left. now apply String.eqb_eq.
    - right. apply andb_true_iff in H as [H _]. now apply String.eqb_eq. }
  split; [exact Hprov|].
  assert (Hkey : exists key, getAPIKeyFunc c (Provider_ m) = (Some key, None)).
  { unfold getAPIKeyFunc. destruct Hprov as [->| ->]; simpl; eauto. }
  destruct Hkey as (key & Hkey).
  unfold initialises, clientOf. rewrite Hkey. cbn [fst snd].
  unfold New. cbn [APIKeyFunc CfgModel]. rewrite Hsm.
  destruct (Constructor_ sm); simpl; eauto.
Qed.

Lemma available_models_initialise_witness :
  (Provider_ sample.ModelTinySwallow = OpenAI
   \/ Provider_ sample.ModelTinySwallow = Ollama)
  /\ initialises sample.defaultCompleter sample.ModelTinySwallow
       (sample.started (sample.recovers 0))
  /\ exists llm,
       clientOf sample.defaultCompleter sample.ModelTinySwallow
         (sample.started (sample.recovers 0)) = Some llm.
Proof.
  apply (available_models_initialise sample.defaultCompleter
           (sample.appConfig sample.localhost)
           (sample.started (sample.recovers 0)) sample.ModelTinySwallow).
  vm_compute. right. left. reflexivity.
Defined.

(** X7: the registry lists no model twice; it lists every registered
    model of the provider "openai", whatever the configuration; and every
    model it lists is registered and is of the provider "openai", or of
    the provider "ollama" with a base URL configured, so that registered
    models of any other provider are never listed. *)
Theorem registry_has_no_duplicates_and_only_usable_models (cfg : config.Config)
  (w : World) :
  List.NoDup (models (fst (NewRegistry cfg w)))
  /\ (forall m,
        is_Some (supportedModels w !! m) ->
        Provider_ m = OpenAI ->
        In m (models (fst (NewRegistry cfg w))))
  /\ (forall m,
        In m (models (fst (NewRegistry cfg w))) ->
        is_Some (supportedModels w !! m)
        /\ (Provider_ m = OpenAI
            \/ (Provider_ m = Ollama
                /\ config.BaseURL (config.ollama (config.llm cfg)) <> EmptyString)))
  /\ (length (models (fst (NewRegistry cfg w))) <= size (supportedModels w))%nat.
Proof.
  split; [|split; [|split]].
  - unfold NewRegistry. simpl. rewrite appendUsable_filter. simpl.
    apply List.NoDup_filter. apply NoDup_ListNoDup, NoDup_fst_map_to_list.
  - intros m Hreg Hprov. apply list_elem_of_In, NewRegistry_elem.
    split; [exact Hreg|]. unfold usable. rewrite Hprov. reflexivity.
  - intros m Hin. apply list_elem_of_In, NewRegistry_elem in Hin as [Hreg Hu].
    split; [exact Hreg|]. unfold usable in Hu.
    apply orb_true_iff in Hu as [H|H].
    + left. now apply String.eqb_eq.
    + right. apply andb_true_iff in H as [Hp Hc]. split; [now apply String.eqb_eq|].
      unfold config.Ollama_IsConfigured in Hc. apply negb_true_iff in Hc.
      now apply String.eqb_neq.
  - unfold NewRegistry. simpl. rewrite appendUsable_filter. simpl.
    etransitivity; [apply filter_no_longer|].
    rewrite length_fmap, length_map_to_list. reflexivity.
Qed.

Lemma registry_has_no_duplicates_and_only_usable_models_witness :
  In sample.ModelGPT4o
    (models (fst (NewRegistry (sample.appConfig EmptyString)
                    (sample.started (fun _ _ => sample.answers [sample.lgtm]))))).
Proof.
  destruct (registry_has_no_duplicates_and_only_usable_models
              (sample.appConfig EmptyString)
              (sample.started (fun _ _ => sample.answers [sample.lgtm])))
    as (_ & H & _).
  apply H; [|reflexivity].
  exists {| Constructor_ := openai_New; Model_ := sample.ModelGPT4o |}.
  vm_compute. reflexivity.
Defined.

(** X8: registration and construction compose as insertion and lookup.
    After [RegisterLLM k2 ms2], [New] builds the client of a model of [ms2]
    with the constructor [k2], also when an earlier call had registered
    the model with another constructor; and for a model that is not in
    [ms2], [New] answers as it did before the call. *)
Theorem New_uses_the_latest_registration (k1 k2 : Constructor)
  (ms1 ms2 : list Model) (cfg : Config) (w : World) :
  (In (CfgModel cfg) ms2 ->
   APIKeyFunc cfg <> None ->
   fst (New cfg (snd (RegisterLLM k2 ms2 (snd (RegisterLLM k1 ms1 w)))))
   = construct k2 cfg)
  /\ (~ In (CfgModel cfg) ms2 ->
      fst (New cfg (snd (RegisterLLM k2 ms2 w))) = fst (New cfg w)).
Proof.
  split.
  - intros Hin Hkey. unfold New.
    destruct (APIKeyFunc cfg) as [key|]; [|congruence].
    unfold RegisterLLM. cbn [snd supportedModels set_supportedModels].
    rewrite RegisterLLM_lookup, decide_True by now apply list_elem_of_In.
    reflexivity.
  - intros Hnin. unfold New.
    destruct (APIKeyFunc cfg) as [key|]; [|reflexivity].
    unfold RegisterLLM. cbn [snd supportedModels set_supportedModels].
    rewrite RegisterLLM_lookup, decide_False
      by (intros H; now apply list_elem_of_In in H).
    destruct (supportedModels w !! CfgModel cfg); reflexivity.
Qed.

Lemma New_uses_the_latest_registration_witness :
  fst (New sample.openaiCfg
         (snd (RegisterLLM ollama_New [sample.ModelGPT4o]
                 (snd (RegisterLLM openai_New [sample.ModelGPT4o]
                         (sample.blank (sample.recovers 0)))))))
  = (Some (OllamaClient sample.openaiCfg), None)
  /\ fst (New sample.openaiCfg
            (snd (RegisterLLM ollama_New [sample.ModelTinySwallow]
                    (sample.blank (sample.recovers 0)))))
     = fst (New sample.openaiCfg (sample.blank (sample.recovers 0))).
Proof.
  split.
  - apply (New_uses_the_latest_registration openai_New ollama_New
             [sample.ModelGPT4o] [sample.ModelGPT4o] sample.openaiCfg
             (sample.blank (sample.recovers 0))).
    + left. reflexivity.
    + discriminate.
  - apply (New_uses_the_latest_registration openai_New ollama_New
             [] [sample.ModelTinySwallow] sample.openaiCfg
             (sample.blank (sample.recovers 0))).
    intros [H|[]]. discriminate.
Defined.

(** ** The provider clients, further *)

(** X9: where the two retry predicates part on the errors the clients
    return.  [IsRetryable] accepts and [isRetryableError] rejects the
    client's error exactly when it is the OpenAI client's error for the
    code [rate_limit_exceeded]; [isRetryableError] accepts and
    [IsRetryable] rejects it exactly when the library error is passed
    through unmapped and its own chain holds one of the three errors the
    loop retries (a network error wrapping [context.DeadlineExceeded], for
    one). *)
Theorem where_the_retry_predicates_disagree (llm : LLM) (e : error) :
  (IsRetryable (clientError llm e) = true
   /\ isRetryableError (clientError llm e) = false
   <-> exists cfg key a,
         llm = OpenAIClient cfg key
         /\ errors_As_openai e = Some a
         /\ oa_Code a = openai.ErrCodeRateLimitExceeded)
  /\ (IsRetryable (clientError llm e) = false
      /\ isRetryableError (clientError llm e) = true
      <-> passedThrough llm e = true /\ isRetryableError e = true).
Proof.
  destruct llm as [cfg key|cfg]; simpl.
  - unfold openai.handleError, dedicatedCode.
    destruct (errors_As_openai e) as [a|] eqn:Has.
    + destruct (String.eqb (oa_Code a) openai.ErrCodeContextLengthExceeded) eqn:H1.
      { apply String.eqb_eq in H1. split; split.
        - intros [H _]. discriminate.
        - intros (? & ? & a' & _ & [= <-] & Hc). rewrite H1 in Hc. discriminate.
        - intros [_ H]. discriminate.
        - intros [H _]. discriminate. }
      destruct (String.eqb (oa_Code a) openai.ErrCodeLength) eqn:H2.
      { apply String.eqb_eq in H2. split; split.
        - intros [H _]. discriminate.
        - intros (? & ? & a' & _ & [= <-] & Hc). rewrite H2 in Hc. discriminate.
        - intros [_ H]. discriminate.
        - intros [H _]. discriminate. }
      destruct (String.eqb (oa_Code a) openai.ErrCodeInvalidAPIKey) eqn:H3.
      { apply String.eqb_eq in H3. split; split.
        - intros [H _]. discriminate.
        - intros (? & ? & a' & _ & [= <-] & Hc). rewrite H3 in Hc. discriminate.
        - intros [_ H]. discriminate.
        - intros [H _]. discriminate. }
      destruct (String.eqb (oa_Code a) openai.ErrCodeRateLimitExceeded) eqn:H4.
      { apply String.eqb_eq in H4. split; split.
        - intros _. eauto 6.
        - intros _. split; reflexivity.
        - intros [H _]. discriminate.
        - intros [H _]. discriminate. }
      apply String.eqb_neq in H4.
      destruct (String.eqb (oa_Code a) openai.ErrCodeInsufficientQuota) eqn:H5.
      { split; split.
        - intros [H _]. discriminate.
        - intros (? & ? & a' & _ & [= <-] & Hc). congruence.
        - intros [_ H]. discriminate.
        - intros [H _]. discriminate. }
      cbn [orb negb andb].
      destruct ((500 <=? oa_StatusCode a) && (oa_StatusCode a <? 600)) eqn:H5xx.
      { split; split.
        - intros [_ H]. discriminate.
        - intros (? & ? & a' & _ & [= <-] & Hc). congruence.
        - intros [H _]. discriminate.
        - intros [H _]. discriminate. }
      destruct (oa_StatusCode a =? 429) eqn:H429.
      { split; split.
        - intros [_ H]. discriminate.
        - intros (? & ? & a' & _ & [= <-] & Hc). congruence.
        - intros [H _]. discriminate.
        - intros [H _]. discriminate. }
      split; split.
      * intros [H _]. discriminate.
      * intros (? & ? & a' & _ & [= <-] & Hc). congruence.
      * intros [_ H]. split; [reflexivity|exact H].
      * intros [_ H]. split; [reflexivity|exact H].
    + split; split.
      * intros [H _]. discriminate.
      * intros (? & ? & a' & _ & [=] & _).
      * intros [_ H]. split; [reflexivity|exact H].
      * intros [_ H]. split; [reflexivity|exact H].
  - unfold ollama.handleError.
    destruct (errors_As_StatusError e) as [s|] eqn:Has.
    + destruct ((500 <=? st_StatusCode s) && (st_StatusCode s <? 600)) eqn:H5xx.
      { split; split.
        - intros [_ H]. discriminate.
        - intros (? & ? & ? & [=] & _).
        - intros [H _]. discriminate.
        - intros [H _]. discriminate. }
      destruct (st_StatusCode s =? 429) eqn:H429.
      { split; split.
        - intros [_ H]. discriminate.
        - intros (? & ? & ? & [=] & _).
        - intros [H _]. discriminate.
        - intros [H _]. discriminate. }
      split; split.
      * intros [H _]. discriminate.
      * intros (? & ? & ? & [=] & _).
      * intros [_ H]. split; [reflexivity|exact H].
      * intros [_ H]. split; [reflexivity|exact H].
    + split; split.
      * intros [H _]. discriminate.
      * intros (? & ? & ? & [=] & _).
      * intros [_ H]. split; [reflexivity|exact H].
      * intros [_ H]. split; [reflexivity|exact H].
Qed.






(** X11: a response keeps the order and the text of the backend's reply.
    When a client returns a response, the backend answered its call with a
    success, and the response has one message per item of that success, in
    order, with the item's content and finish reason, marked completed; the
    role is the item's own for the OpenAI client and its [llmRole] for the
    Ollama client; the metadata name the model and give the time the call
    took in whole milliseconds. *)
Theorem responses_keep_the_order_of_the_reply (llm : LLM) (ctx : Context)
  (params : CompleteParams) (w : World) (res : CompleteResponse) :
  fst (LLM_Complete llm ctx params w) = (Some res, None) ->
  exists req id items usage,
    body (backend w (calls w) req) = ReplyOK id items usage
    /\ map Content (ResMessages res) = map ri_Content items
    /\ map MsgFinishReason (ResMessages res) = map ri_Finish items
    /\ map MsgRole (ResMessages res)
       = map (fun item => responseRole llm (ri_Role item)) items
    /\ Forall (fun m => Completed m = true /\ MsgError m = None) (ResMessages res)
    /\ ModelName (Metadata res) = Name (CfgModel (configOf llm))
    /\ LatencyMs (Metadata res)
       = elapsed (backend w (calls w) req) `quot` Millisecond.
Proof.
  destruct llm as [cfg key|cfg]; simpl.
  - unfold openai.Complete.
    destruct (openai.convertMessages (Messages params) []) as [ms|err];
      [|discriminate].
    unfold bind, roundTrip. cbn zeta.
    match goal with
    | |- context [backend w (calls w) ?r] => set (req := r)
    end.
    destruct (body (backend w (calls w) req)) as [id [|first others] u|cause]
      eqn:Hbody; simpl; try discriminate.
    intros [= <-]. exists req, id, (first :: others), u. simpl.
    rewrite !map_map. conjs; try reflexivity; try exact Hbody.
    + constructor; [split; reflexivity|].
      apply List.Forall_forall. intros m Hin.
      apply List.in_map_iff in Hin as (i & <- & _).
      split; reflexivity.
    + f_equal. lia.
  - unfold ollama.Complete.
    destruct (url_Parse w _) as [text|]; [discriminate|].
    destruct (ollama.convertMessages (Messages params) []) as [ms|err];
      [|discriminate].
    unfold bind, roundTrip. cbn zeta.
    match goal with
    | |- context [backend w (calls w) ?r] => set (req := r)
    end.
    destruct (body (backend w (calls w) req)) as [id items u|cause]
      eqn:Hbody; simpl; try discriminate.
    intros [= <-]. exists req, id, items, u. simpl.
    rewrite !map_map. conjs; try reflexivity; try exact Hbody.
    + apply List.Forall_forall. intros m Hin.
      apply List.in_map_iff in Hin as (i & <- & _).
      split; reflexivity.
    + f_equal. lia.
Qed.

Lemma responses_keep_the_order_of_the_reply_witness :
  exists res,
    fst (LLM_Complete (OllamaClient sample.ollamaCfg) sample.never sample.review
           (sample.started (fun _ _ => sample.answers [sample.lgtm])))
    = (Some res, None)
    /\ exists (req : Request) id items usage,
         body (sample.answers [sample.lgtm]) = ReplyOK id items usage
         /\ map Content (ResMessages res) = map ri_Content items
         /\ map MsgFinishReason (ResMessages res) = map ri_Finish items
         /\ map MsgRole (ResMessages res)
            = map (fun item => ollama.llmRole (ri_Role item)) items
         /\ Forall (fun m => Completed m = true /\ MsgError m = None)
              (ResMessages res)
         /\ ModelName (Metadata res) = "yottahmd/tiny-swallow-1.5b-instruct"
         /\ LatencyMs (Metadata res) = (20 * Millisecond) `quot` Millisecond.
Proof.
  eexists.
  assert (Hrun :
            fst (LLM_Complete (OllamaClient sample.ollamaCfg) sample.never
                   sample.review
                   (sample.started (fun _ _ => sample.answers [sample.lgtm])))
            = (Some _, None)) by (vm_compute; reflexivity).
  split; [exact Hrun|].
  exact (responses_keep_the_order_of_the_reply _ _ _ _ _ Hrun).
Defined.

(** X12: the roles the Ollama client sends come back as they were.  For a
    conversation the client accepts, applying [llmRole] to the role of
    each message it puts on the wire gives the role of the message it was
    built from; and whatever role string a backend sends, [llmRole] gives
    one of the four known roles. *)
Theorem ollama_roles_survive_the_round_trip (ms : list Message)
  (wire : list api_Message) (role : string) :
  (ollama.convertMessages ms [] = inl wire ->
   map (fun m => ollama.llmRole (am_Role m)) wire = map MsgRole ms
   /\ map am_Content wire = map Content ms)
  /\ knownRole (ollama.llmRole role).
Proof.
  split.
  - intros Hconv.
    pose proof (ollama_convertMessages_spec sample.ollamaCfg ms []) as Hspec.
    destruct (find _ ms) as [bad|] eqn:Hfind; [congruence|].
    rewrite Hconv in Hspec. injection Hspec as ->. simpl.
    rewrite !map_map. split; [|reflexivity].
    apply map_ext_in. intros m Hin.
    apply (find_none_all _ _ Hfind) in Hin. apply negb_false_iff in Hin.
    simpl in Hin. unfold ollama.llmRole, ollamaWire. simpl.
    destruct (String.eqb (MsgRole m) RoleUser) eqn:Hu;
      [apply String.eqb_eq in Hu; now rewrite Hu|].
    destruct (String.eqb (MsgRole m) RoleAssistant) eqn:Ha;
      [apply String.eqb_eq in Ha; now rewrite Ha|].
    destruct (String.eqb (MsgRole m) RoleSystem) eqn:Hs;
      [apply String.eqb_eq in Hs; now rewrite Hs|].
    discriminate.
  - unfold ollama.llmRole, knownRole.
    repeat (destruct (String.eqb role _); [auto|]). auto.
Qed.

Lemma ollama_roles_survive_the_round_trip_witness :
  map (fun m => ollama.llmRole (am_Role m))
    [{| am_Role := "system"; am_Content := "You are a code reviewer." |};
     {| am_Role := "user"; am_Content := "review this" |}]
  = map MsgRole (Messages sample.review)
  /\ map am_Content
       [{| am_Role := "system"; am_Content := "You are a code reviewer." |};
        {| am_Role := "user"; am_Content := "review this" |}]
     = map Content (Messages sample.review).
Proof.
  destruct (ollama_roles_survive_the_round_trip (Messages sample.review)
              [{| am_Role := "system"; am_Content := "You are a code reviewer." |};
               {| am_Role := "user"; am_Content := "review this" |}]
              EmptyString) as [Hroles _].
  apply Hroles. reflexivity.
Defined.

(** ** The completer and its telemetry, further *)

Lemma Complete_goroutines c ctx params model w :
  match fst (Complete c ctx params model w) with
  | Return (Some res) err =>
      err = None /\ ResMessages res <> []
      /\ goroutines (snd (Complete c ctx params model w))
         = goroutines w ++ [taskOf c ctx params model res]
  | _ => goroutines (snd (Complete c ctx params model w)) = goroutines w
  end.
Proof.
  unfold Complete.
  destruct (getAPIKeyFunc c (Provider_ model)) as [key [e|]]; [reflexivity|].
  unfold bind.
  match goal with
  | |- context [New ?k w] =>
      destruct (New_cases k w) as [Hw _]; destruct (New k w) as [[llm e] w0]
  end.
  simpl in Hw. subst w0. destruct e as [e|]; simpl; [reflexivity|].
  match goal with
  | |- context [attemptLoop c ctx llm params model ?n ?a ?v w] =>
      pose proof (attemptLoop_exit c ctx llm params model n a v w) as Hexit;
      pose proof (preserves_attemptLoop goroutines
                    (fun _ _ => eq_refl) (fun _ _ => eq_refl)
                    (fun _ _ => eq_refl) c ctx llm params model n a v w) as Hg;
      destruct (attemptLoop c ctx llm params model n a v w) as [[out|v'] w1]
  end; simpl in *.
  - destruct Hexit as [[e ->]|[_ ->]]; exact Hg.
  - destruct (v_err v'); simpl; [exact Hg|].
    destruct (v_res v') as [res|]; simpl; [|exact Hg].
    destruct (ResMessages res) eqn:Hm; simpl; [exact Hg|].
    split; [reflexivity|]. split; [rewrite Hm; discriminate|].
    rewrite Hg. reflexivity.
Qed.

(** X13: [Complete] starts its telemetry goroutine exactly when it returns
    a response.  Then it starts one goroutine, which holds the response
    that is returned, and that response has at least one message (so the
    goroutine's [res.Messages[0]] is in range); when [Complete] returns an
    error or panics, it starts none. *)
Theorem telemetry_is_started_only_for_a_response (c : completer) (ctx : Context)
  (params : CompleteParams) (model : Model) (w : World) :
  (forall res err,
     fst (Complete c ctx params model w) = Return (Some res) err ->
     err = None
     /\ (exists first others, ResMessages res = first :: others)
     /\ goroutines (snd (Complete c ctx params model w))
        = goroutines w ++ [taskOf c ctx params model res])
  /\ (succeeded (fst (Complete c ctx params model w)) = false ->
      goroutines (snd (Complete c ctx params model w)) = goroutines w).
Proof.
  pose proof (Complete_goroutines c ctx params model w) as H.
  destruct (fst (Complete c ctx params model w)) as [[res|] err|v]; split.
  - intros res' err' [= <- <-]. destruct H as (-> & Hne & Hg).
    split; [reflexivity|]. split; [|exact Hg].
    destruct (ResMessages res) as [|first others]; [congruence|eauto].
  - destruct H as (-> & _). discriminate.
  - discriminate.
  - intros _. exact H.
  - discriminate.
  - intros _. exact H.
Qed.

Lemma telemetry_is_started_only_for_a_response_witness :
  length (goroutines
            (snd (Complete sample.defaultCompleter sample.never sample.review
                    sample.ModelGPT4o
                    (sample.started (fun _ _ => sample.openaiFails 401 EmptyString)))))
  = O.
Proof.
  destruct (telemetry_is_started_only_for_a_response sample.defaultCompleter
              sample.never sample.review sample.ModelGPT4o
              (sample.started (fun _ _ => sample.openaiFails 401 EmptyString)))
    as [_ H].
  rewrite H; [reflexivity|vm_compute; reflexivity].
Defined.

Lemma last_cons_default {A} (l : list A) (a d d' : A) :
  List.last (a :: l) d = List.last (a :: l) d'.
Proof.
  revert a. induction l as [|b l IH]; intros a; [reflexivity|].
  change (List.last (b :: l) d = List.last (b :: l) d'). apply IH.
Qed.

Lemma foldl_WithCompleterRetryConfig rcs c :
  let c' := foldl (fun c opt => opt c) c (map WithCompleterRetryConfig rcs) in
  cfg c' = cfg c /\ langfuse_ c' = langfuse_ c /\ registry c' = registry c
  /\ retryConfig c' = List.last rcs (retryConfig c).
Proof.
  revert c. induction rcs as [|rc rcs IH]; intros c; [simpl; auto|].
  cbn [map foldl]. cbn zeta in IH.
  destruct (IH (WithCompleterRetryConfig rc c)) as (H1 & H2 & H3 & H4).
  cbn zeta. rewrite H1, H2, H3, H4. conjs; try reflexivity.
  destruct rcs as [|rc' rcs]; [reflexivity|].
  change (List.last (rc :: rc' :: rcs) (retryConfig c))
    with (List.last (rc' :: rcs) (retryConfig c)).
  apply last_cons_default.
Qed.

(** X14: what [NewCompleter] builds from retry options.  The last
    [WithCompleterRetryConfig] option wins, and without one the policy is
    [DefaultRetryConfig]; the options leave the configuration and the
    registry alone, so the available models are the registry's; and the
    completer has a Langfuse client exactly when both Langfuse keys are
    non-empty. *)
Theorem NewCompleter_applies_its_options_in_order (appCfg : config.Config)
  (reg : Registry) (rcs : list RetryConfig) :
  let c := NewCompleter appCfg reg (map WithCompleterRetryConfig rcs) in
  retryConfig c = List.last rcs DefaultRetryConfig
  /\ GetAvailableModels c = models reg
  /\ cfg c = appCfg
  /\ (langfuse_ c = None
      <-> config.PrivateKey (config.langfuse (config.llm appCfg)) = EmptyString
          \/ config.PublicKey (config.langfuse (config.llm appCfg)) = EmptyString)
  /\ (forall client, langfuse_ c = Some client -> client = langfuse.NewClient appCfg).
Proof.
  unfold NewCompleter, GetAvailableModels. cbn zeta.
  match goal with
  | |- context [foldl _ ?c0 _] =>
      destruct (foldl_WithCompleterRetryConfig rcs c0) as (H1 & H2 & H3 & H4)
  end.
  cbn zeta in *. rewrite H1, H2, H3, H4. simpl.
  conjs; try reflexivity.
  - unfold config.Langfuse_IsConfigured.
    destruct (config.PrivateKey _) as [|a s]; simpl; [split; auto|].
    destruct (config.PublicKey _) as [|a' s']; simpl; [split; auto|].
    split; [intros [=]|intros [H|H]; discriminate].
  - intros client. destruct (config.Langfuse_IsConfigured _); congruence.
Qed.

Lemma set_trace_set_trace t1 t2 w : set_trace t2 (set_trace t1 w) = set_trace t2 w.
Proof. reflexivity. Qed.

Lemma not_recoveredPanic msg fields :
  msg <> "panic while sending trace events" ->
  ~ recoveredPanic (EvLog LevelError msg fields).
Proof. intros Hne [fields' [= H _]]. contradiction. Qed.

Ltac world_eq :=
  match goal with w : World |- _ => destruct w end;
  cbn; rewrite <- ?app_assoc; cbn; rewrite ?app_nil_r; reflexivity.

Ltac no_panic :=
  let HE := fresh "HE" in
  intros HE;
  repeat (apply Exists_cons in HE as [HE|HE]);
  try (apply Exists_nil in HE; contradiction);
  exfalso; destruct HE as [? HE]; discriminate HE.

Ltac telemetry_goal :=
  match goal with
  | |- Forall _ _ => repeat constructor; unfold errorLog; eauto
  | |- (_ = []) <-> _ =>
      split;
      [try discriminate; eauto
      |let r := fresh "r" in
       let Hr := fresh "Hr" in
       let He := fresh "He" in
       intros (r & Hr & He);
       first [discriminate Hr|injection Hr as <-; congruence]]
  | |- Exists _ _ <-> _ =>
      split; [no_panic|let Hv := fresh "Hv" in intros [? Hv]; discriminate Hv]
  | |- _ = _ => first [reflexivity|world_eq]
  end.

(** One run of the telemetry goroutine for a response with a first
    message, on a completer with a Langfuse client. *)
Lemma telemetryGoroutine_cases c ctx model params res first others client w :
  langfuse_ c = Some client ->
  ResMessages res = first :: others ->
  exists tb gb logs,
    langfuse.tb_Input tb = getLastUserMessage (Messages params)
    /\ langfuse.tb_Output tb = Content first
    /\ langfuse.tb_Tags tb = [Name model; Provider_ model]
    /\ langfuse.gb_Model gb = Name model
    /\ langfuse.gb_Input gb = Messages params
    /\ langfuse.gb_Output gb = ResMessages res
    /\ snd (telemetryGoroutine (taskOf c ctx params model res) w)
       = set_trace
           (trace w
            ++ (if posted (telemetry w [langfuse.CreateTrace tb;
                                        langfuse.CreateGeneration gb])
                then [EvIngest [langfuse.CreateTrace tb;
                                langfuse.CreateGeneration gb]]
                else [])
            ++ logs) w
    /\ Forall errorLog logs
    /\ (logs = []
        <-> exists resp,
              ingested (telemetry w [langfuse.CreateTrace tb;
                                     langfuse.CreateGeneration gb]) = Some resp
              /\ langfuse.Errors resp = [])
    /\ (Exists recoveredPanic logs
        <-> exists v, telemetry w [langfuse.CreateTrace tb;
                                   langfuse.CreateGeneration gb]
                      = langfuse.Panics v).
Proof.
  intros Hc Hres.
  unfold telemetryGoroutine, taskOf, sendTraceEvents. cbn [task_c task_ctx task_model task_params task_res].
  rewrite Hc, Hres.
  destruct (extractModelParameters params) as [[temperature maxTokens] topP].
  match goal with
  | |- context [Ingest client [langfuse.CreateTrace ?tb; langfuse.CreateGeneration ?gb]] =>
      exists tb, gb; set (batch := [langfuse.CreateTrace tb; langfuse.CreateGeneration gb])
  end.
  cbn [langfuse.tb_Input langfuse.tb_Output langfuse.tb_Tags langfuse.gb_Model
       langfuse.gb_Input langfuse.gb_Output].
  unfold bind, Ingest, logger_Error, emit, ret.
  destruct (telemetry w batch) as [e|e|status [resp|e]|v] eqn:Htel;
    cbn [posted ingested].
  - eexists [_; _]. conjs; telemetry_goal.
  - eexists [_; _]. conjs; telemetry_goal.
  - destruct (status =? StatusMultiStatus) eqn:H207;
      destruct (status =? StatusOK) eqn:H200; cbn [negb andb orb];
      try (destruct (langfuse.Errors resp) as [|err errs] eqn:Herrs;
           [exists []|eexists [_]]; conjs; telemetry_goal; fail).
    eexists [_; _]. conjs; telemetry_goal.
  - exists [EvLog LevelError "failed to send trace events to Langfuse"
              [("err", FError (Some (if negb (status =? StatusMultiStatus)
                                         && negb (status =? StatusOK)
                                      then ErrNew ("unexpected status code: "
                                                   +:+ pretty status)
                                      else ErrWrap "error decoding response" e)))];
            EvLog LevelError "error sending telemetry"
              [("err", FError (Some (if negb (status =? StatusMultiStatus)
                                         && negb (status =? StatusOK)
                                      then ErrNew ("unexpected status code: "
                                                   +:+ pretty status)
                                      else ErrWrap "error decoding response" e)))]].
    destruct (status =? StatusMultiStatus); destruct (status =? StatusOK);
      cbn [negb andb orb]; conjs; telemetry_goal.
  - eexists [_]. conjs; try reflexivity.
    + repeat constructor; unfold errorLog; eauto.
    + split; [discriminate|intros (r & [=] & _)].
    + split; [eauto|]. intros _. constructor. eexists. reflexivity.
Qed.

(** X15: without a Langfuse client, or when [Complete] does not return a
    response, nothing is sent and nothing is logged by the telemetry: once
    the goroutines have run, the world is the one [Complete] left, with no
    goroutine pending. *)
Theorem no_telemetry_without_a_client_or_a_response (c : completer)
  (ctx : Context) (params : CompleteParams) (model : Model) (w : World) :
  goroutines w = [] ->
  langfuse_ c = None \/ succeeded (fst (Complete c ctx params model w)) = false ->
  snd (CompleteAndSettle c ctx params model w)
  = set_goroutines [] (snd (Complete c ctx params model w)).
Proof.
  intros Hg Hor. unfold CompleteAndSettle, bind, runGoroutines, ret.
  pose proof (Complete_goroutines c ctx params model w) as H.
  destruct (Complete c ctx params model w) as [out w1]. cbn [fst snd] in *.
  destruct out as [[res|] err|v]; try (rewrite H, Hg; reflexivity).
  destruct H as (-> & _ & ->). rewrite Hg.
  destruct Hor as [Hnone|Hfalse]; [|discriminate].
  cbn [app fold_left]. unfold telemetryGoroutine, sendTraceEvents, taskOf.
  cbn [task_c]. rewrite Hnone. reflexivity.
Qed.

Lemma no_telemetry_without_a_client_or_a_response_witness :
  snd (CompleteAndSettle sample.defaultCompleter sample.never
         sample.review sample.ModelGPT4o
         (sample.started (fun _ _ => sample.openaiFails 401 EmptyString)))
  = set_goroutines []
      (snd (Complete sample.defaultCompleter sample.never
              sample.review sample.ModelGPT4o
              (sample.started (fun _ _ => sample.openaiFails 401 EmptyString)))).
Proof.
  refine (no_telemetry_without_a_client_or_a_response sample.defaultCompleter
            sample.never sample.review sample.ModelGPT4o
            (sample.started (fun _ _ => sample.openaiFails 401 EmptyString))
            _ _).
  - vm_compute. reflexivity.
  - right. vm_compute. reflexivity.
Defined.

(** X16: with a Langfuse client, a call of [Complete] that returns a
    response leads to exactly one telemetry batch, of a trace and a
    generation.  The trace carries the last user message of the request as
    its input, the content of the first message of the response as its
    output, and the model's name and provider as its tags; the generation
    carries the model's name, the whole request and the whole response.
    The batch is posted unless it cannot be marshalled or the call panics.
    Everything else the goroutine leaves is error-level log entries: none
    exactly when the ingestion is answered with 200 or 207, a body that
    decodes and no per-event error; and the entry of the recovered panic
    only when the ingestion call itself panicked, never because of what
    [Complete] handed over. *)
Theorem telemetry_posts_one_batch_per_response (c : completer) (ctx : Context)
  (params : CompleteParams) (model : Model) (w : World)
  (res : CompleteResponse) (client : langfuse.Client) :
  goroutines w = [] ->
  langfuse_ c = Some client ->
  fst (Complete c ctx params model w) = Return (Some res) None ->
  exists first tb gb logs,
    hd_error (ResMessages res) = Some first
    /\ langfuse.tb_Input tb = getLastUserMessage (Messages params)
    /\ langfuse.tb_Output tb = Content first
    /\ langfuse.tb_Tags tb = [Name model; Provider_ model]
    /\ langfuse.gb_Model gb = Name model
    /\ langfuse.gb_Input gb = Messages params
    /\ langfuse.gb_Output gb = ResMessages res
    /\ trace (snd (CompleteAndSettle c ctx params model w))
       = trace (snd (Complete c ctx params model w))
         ++ (if posted (telemetry w [langfuse.CreateTrace tb;
                                     langfuse.CreateGeneration gb])
             then [EvIngest [langfuse.CreateTrace tb;
                             langfuse.CreateGeneration gb]]
             else [])
         ++ logs
    /\ Forall errorLog logs
    /\ (logs = []
        <-> exists resp,
              ingested (telemetry w [langfuse.CreateTrace tb;
                                     langfuse.CreateGeneration gb]) = Some resp
              /\ langfuse.Errors resp = [])
    /\ (Exists recoveredPanic logs
        -> exists v, telemetry w [langfuse.CreateTrace tb;
                                   langfuse.CreateGeneration gb]
                      = langfuse.Panics v).
Proof.
  intros Hg Hc Hrun. unfold CompleteAndSettle, bind, runGoroutines, ret.
  pose proof (Complete_goroutines c ctx params model w) as H.
  pose proof (preserves_Complete telemetry (fun _ _ => eq_refl)
                (fun _ _ => eq_refl) (fun _ _ => eq_refl) (fun _ _ => eq_refl)
                c ctx params model w) as Htel.
  destruct (Complete c ctx params model w) as [out w1]. cbn [fst snd] in *.
  subst out. destruct H as (_ & Hne & Hgs). rewrite Hgs, Hg.
  cbn [app fold_left].
  destruct (ResMessages res) as [|first others] eqn:Hres; [congruence|].
  destruct (telemetryGoroutine_cases c ctx model params res first others client
              (set_goroutines [] w1) Hc Hres)
    as (tb & gb & logs & H1 & H2 & H3 & H4 & H5 & H6 & Hw & Hlogs & Hnone & Hpanic).
  exists first, tb, gb, logs. rewrite Hw.
  change (telemetry (set_goroutines [] w1)) with (telemetry w1) in *.
  rewrite Htel in *. rewrite <- Hres.
  conjs; try assumption; try reflexivity; [rewrite Hres; reflexivity|].
  apply Hpanic.
Qed.

Lemma telemetry_posts_one_batch_per_response_witness :
  exists res,
    fst (Complete sample.defaultCompleter sample.never sample.review
           sample.ModelGPT4o
                    (sample.started (fun _ _ => sample.answers [sample.lgtm]))) = Return (Some res) None
    /\ exists first tb gb logs,
         hd_error (ResMessages res) = Some first
         /\ langfuse.tb_Input tb = getLastUserMessage (Messages sample.review)
         /\ langfuse.tb_Output tb = Content first
         /\ langfuse.tb_Tags tb
            = [Name sample.ModelGPT4o; Provider_ sample.ModelGPT4o]
         /\ langfuse.gb_Model gb = Name sample.ModelGPT4o
         /\ langfuse.gb_Input gb = Messages sample.review
         /\ langfuse.gb_Output gb = ResMessages res
         /\ trace (snd (CompleteAndSettle sample.defaultCompleter sample.never
                          sample.review sample.ModelGPT4o
                    (sample.started (fun _ _ => sample.answers [sample.lgtm]))))
            = trace (snd (Complete sample.defaultCompleter sample.never
                            sample.review sample.ModelGPT4o
                    (sample.started (fun _ _ => sample.answers [sample.lgtm]))))
              ++ (if posted (telemetry (sample.started (fun _ _ => sample.answers [sample.lgtm]))
                    [langfuse.CreateTrace tb;
                                          langfuse.CreateGeneration gb])
                  then [EvIngest [langfuse.CreateTrace tb;
                                  langfuse.CreateGeneration gb]]
                  else [])
              ++ logs
         /\ Forall errorLog logs
         /\ (logs = []
             <-> exists resp,
                   ingested (telemetry (sample.started (fun _ _ => sample.answers [sample.lgtm]))
                    [langfuse.CreateTrace tb;
                                          langfuse.CreateGeneration gb])
                   = Some resp
                   /\ langfuse.Errors resp = [])
         /\ (Exists recoveredPanic logs
             -> exists v, telemetry (sample.started (fun _ _ => sample.answers [sample.lgtm]))
                    [langfuse.CreateTrace tb;
                                        langfuse.CreateGeneration gb]
                           = langfuse.Panics v).
Proof.
  eexists.
  assert (Hrun : fst (Complete sample.defaultCompleter sample.never
                        sample.review sample.ModelGPT4o
                    (sample.started (fun _ _ => sample.answers [sample.lgtm])))
                 = Return (Some _) None) by (vm_compute; reflexivity).
  assert (Hg : goroutines (sample.started (fun _ _ => sample.answers [sample.lgtm])) = []) by (vm_compute; reflexivity).
  assert (Hc : langfuse_ sample.defaultCompleter
               = Some (langfuse.NewClient (sample.appConfig sample.localhost)))
    by (vm_compute; reflexivity).
  split; [exact Hrun|].
  exact (telemetry_posts_one_batch_per_response _ _ _ _ _ _ _ Hg Hc Hrun).
Defined.

Lemma find_app_none {A} (f : A -> bool) (l1 l2 : list A) :
  Forall (fun x => f x = false) l1 -> find f (l1 ++ l2) = find f l2.
Proof.
  induction 1 as [|x l1 Hx _ IH]; simpl; [reflexivity|]. now rewrite Hx.
Qed.

(** X17: [getLastUserMessage] gives the content of the user message after
    which no user message follows, whatever comes before it; and the empty
    string when the conversation has no user message. *)
Theorem getLastUserMessage_is_the_last_one (ms : list Message) :
  (forall before m after,
     ms = before ++ m :: after ->
     MsgRole m = RoleUser ->
     Forall (fun x => MsgRole x <> RoleUser) after ->
     getLastUserMessage ms = Content m)
  /\ (Forall (fun x => MsgRole x <> RoleUser) ms ->
      getLastUserMessage ms = EmptyString).
Proof.
  assert (Hnot : forall l : list Message,
             Forall (fun x => MsgRole x <> RoleUser) l ->
             Forall (fun x => String.eqb (MsgRole x) RoleUser = false) (rev l)).
  { intros l Hl. apply Forall_rev. eapply Forall_impl; [exact Hl|].
    intros x Hx. now apply String.eqb_neq. }
  unfold getLastUserMessage. split.
  - intros before m after -> Hm Hafter.
    rewrite rev_app_distr. cbn [rev]. rewrite <- app_assoc.
    rewrite (find_app_none _ _ _ (Hnot _ Hafter)). cbn [app find].
    apply String.eqb_eq in Hm. now rewrite Hm.
  - intros Hall. pose proof (find_app_none _ _ [] (Hnot _ Hall)) as H.
    rewrite app_nil_r in H. rewrite H. reflexivity.
Qed.

Lemma getLastUserMessage_is_the_last_one_witness :
  getLastUserMessage
    [sample.message RoleUser "first"; sample.message RoleAssistant "LGTM";
     sample.message RoleUser "second"; sample.message RoleSystem "be brief"]
  = "second".
Proof.
  destruct (getLastUserMessage_is_the_last_one
              [sample.message RoleUser "first"; sample.message RoleAssistant "LGTM";
               sample.message RoleUser "second"; sample.message RoleSystem "be brief"])
    as [H _].
  apply (H [sample.message RoleUser "first"; sample.message RoleAssistant "LGTM"]
           (sample.message RoleUser "second")
           [sample.message RoleSystem "be brief"]).
  - reflexivity.
  - reflexivity.
  - repeat constructor. discriminate.
Defined.

(** ** Fallback, further *)

Lemma Complete_calls c ctx params model w :
  (calls w <= calls (snd (Complete c ctx params model w))
   <= calls w + Z.to_nat (MaxAttempts (retryConfig c)))%nat.
Proof.
  destruct (Complete_retry_steps c ctx params model w) as (k & evs & Hk & Hc & _).
  lia.
Qed.

Lemma tryFallbacks_calls c ctx params fbs :
  forall i err w,
    (calls w <= calls (snd (tryFallbacks c ctx params fbs i err w))
     <= calls w + length fbs * Z.to_nat (MaxAttempts (retryConfig c)))%nat.
Proof.
  induction fbs as [|m fbs IH]; intros i err w; cbn [tryFallbacks length].
  - simpl. lia.
  - destruct (ctx_Err ctx (now w)); [simpl; lia|].
    unfold noted, logger_Info, logger_Warn, emit. unfold bind, ret.
    match goal with
    | |- context [Complete c ctx params m ?w1] =>
        pose proof (Complete_calls c ctx params m w1) as Hc;
        destruct (Complete c ctx params m w1) as [out w2]
    end.
    cbn [fst snd calls set_trace] in Hc.
    destruct out as [res [e|]|v]; cbn [fst snd calls set_completions];
      try (simpl; lia).
    match goal with
    | |- context [tryFallbacks c ctx params fbs ?j ?e' ?w3] =>
        specialize (IH j e' w3)
    end.
    cbn [calls set_trace set_completions] in IH. simpl in *. lia.
Qed.

(** X18: [CompleteWithFallback] makes at most [MaxAttempts] backend calls
    for each model it is given, the primary one and the fallbacks: the
    number of calls of the whole chain is bounded by
    [(1 + number of fallbacks) * MaxAttempts], whatever the backends
    answer. *)
Theorem fallback_chain_calls_are_bounded (c : completer) (ctx : Context)
  (params : CompleteParams) (primaryModel : Model) (fallbackModels : list Model)
  (w : World) :
  (calls w
   <= calls (snd (CompleteWithFallback c ctx params primaryModel fallbackModels w))
   <= calls w
      + (1 + length fallbackModels) * Z.to_nat (MaxAttempts (retryConfig c)))%nat.
Proof.
  unfold CompleteWithFallback, noted, logger_Warn, emit. unfold bind, ret.
  pose proof (Complete_calls c ctx params primaryModel w) as Hc.
  destruct (Complete c ctx params primaryModel w) as [out w1].
  cbn [fst snd] in Hc.
  destruct out as [res [e|]|v]; cbn [fst snd calls set_completions];
    try (simpl; lia).
  match goal with
  | |- context [tryFallbacks c ctx params fallbackModels ?j ?e' ?w3] =>
      pose proof (tryFallbacks_calls c ctx params fallbackModels j e' w3) as Hf
  end.
  simpl in *. lia.
Qed.

Lemma Complete_done_at_entry c ctx params model w e :
  ctx_Err ctx (now w) = Some e ->
  snd (Complete c ctx params model w) = w
  /\ ((exists e', fst (Complete c ctx params model w) = Return None (Some e'))
      \/ (MaxAttempts (retryConfig c) <= 0
          /\ fst (Complete c ctx params model w) = Panic nilDereference)).
Proof.
  intros Hdone. unfold Complete.
  destruct (getAPIKeyFunc c (Provider_ model)) as [key [e0|]];
    [simpl; eauto|].
  unfold bind.
  match goal with
  | |- context [New ?k w] =>
      destruct (New_cases k w) as [Hw _]; destruct (New k w) as [[llm e0] w0]
  end.
  simpl in Hw. subst w0. destruct e0 as [e0|]; [simpl; eauto|].
  cbn [snd].
  destruct (Z.to_nat (MaxAttempts (retryConfig c))) as [|n] eqn:Hn.
  - simpl. split; [reflexivity|]. right. split; [lia|reflexivity].
  - cbn [attemptLoop]. rewrite Hdone. simpl. eauto.
Qed.

(** X19: when the context is already done at the call, the fallback chain
    does nothing towards a backend: no call is made, no time passes, no
    telemetry goroutine is started, only the primary model is tried, and
    the result is never a response.  With [MaxAttempts >= 1] and at least
    one fallback model, the result is the error of the context. *)
Theorem a_done_context_stops_the_fallback_chain (c : completer) (ctx : Context)
  (params : CompleteParams) (primaryModel : Model) (fallbackModels : list Model)
  (w : World) (e : error) :
  ctx_Err ctx (now w) = Some e ->
  let r := CompleteWithFallback c ctx params primaryModel fallbackModels w in
  calls (snd r) = calls w
  /\ now (snd r) = now w
  /\ goroutines (snd r) = goroutines w
  /\ map fst (completions (snd r)) = map fst (completions w) ++ [primaryModel]
  /\ succeeded (fst r) = false
  /\ (1 <= MaxAttempts (retryConfig c) -> fallbackModels <> [] ->
      fst r = Return None (Some e)).
Proof.
  intros Hdone. cbn zeta.
  unfold CompleteWithFallback, noted, logger_Warn, emit. unfold bind, ret.
  destruct (Complete_done_at_entry c ctx params primaryModel w e Hdone)
    as (Hw & Hout).
  destruct (Complete c ctx params primaryModel w) as [out w1].
  cbn [fst snd] in *. subst w1.
  destruct Hout as [[e' ->]|[Hmax ->]].
  - destruct fallbackModels as [|m rest]; cbn [tryFallbacks].
    + simpl. rewrite map_app. conjs; try reflexivity. intros _ Hne. congruence.
    + cbn [now set_trace set_completions]. rewrite Hdone. simpl.
      rewrite map_app. conjs; reflexivity.
  - simpl. rewrite map_app. conjs; try reflexivity. intros Hmax'. lia.
Qed.

Lemma a_done_context_stops_the_fallback_chain_witness :
  fst (CompleteWithFallback sample.defaultCompleter (sample.canceledAt 0)
         sample.review sample.ModelGPT4o [sample.ModelTinySwallow]
         (sample.started (fun _ _ => sample.answers [sample.lgtm])))
  = Return None (Some (ErrValue context_Canceled)).
Proof.
  destruct (a_done_context_stops_the_fallback_chain sample.defaultCompleter
              (sample.canceledAt 0) sample.review sample.ModelGPT4o
              [sample.ModelTinySwallow]
              (sample.started (fun _ _ => sample.answers [sample.lgtm]))
              (ErrValue context_Canceled))
    as (_ & _ & _ & _ & _ & H).
  - vm_compute. reflexivity.
  - apply H; [vm_compute; discriminate|discriminate].
Defined.

(** ** What the attempts send *)

Lemma requestsOf_app t1 t2 : requestsOf (t1 ++ t2) = requestsOf t1 ++ requestsOf t2.
Proof. unfold requestsOf. apply flat_map_app. Qed.

Lemma sendsOnly_ret {A} r (a : A) : sendsOnly r (ret a).
Proof.
  intros w. exists O, []. simpl. rewrite app_nil_r, Nat.add_0_r. auto.
Qed.

Lemma sendsOnly_bind {A B} r (m : M A) (k : A -> M B) :
  sendsOnly r m -> (forall a, sendsOnly r (k a)) -> sendsOnly r (bind m k).
Proof.
  intros Hm Hk w. unfold bind.
  destruct (Hm w) as (k1 & evs1 & Hc1 & Ht1 & Hr1).
  destruct (m w) as [a w1]. cbn [snd] in *.
  destruct (Hk a w1) as (k2 & evs2 & Hc2 & Ht2 & Hr2).
  exists (k1 + k2)%nat, (evs1 ++ evs2).
  rewrite Hc2, Hc1, Ht2, Ht1, requestsOf_app, Hr1, Hr2, repeat_app, <- app_assoc.
  conjs; [lia|reflexivity|reflexivity].
Qed.

Lemma sendsOnly_log r lvl msg fields : sendsOnly r (emit (EvLog lvl msg fields)).
Proof.
  intros w. exists O, [EvLog lvl msg fields]. simpl. rewrite Nat.add_0_r. auto.
Qed.

Lemma sendsOnly_selectDoneOrAfter r ctx wait : sendsOnly r (selectDoneOrAfter ctx wait).
Proof.
  intros w. unfold selectDoneOrAfter.
  assert (Htimer : exists k evs,
             calls w = (calls w + k)%nat
             /\ trace w ++ [EvSleep wait] = trace w ++ evs
             /\ requestsOf evs = repeat r k).
  { exists O, [EvSleep wait]. rewrite Nat.add_0_r. auto. }
  assert (Hdone : exists k evs,
             calls w = (calls w + k)%nat
             /\ trace w = trace w ++ evs
             /\ requestsOf evs = repeat r k).
  { exists O, []. rewrite Nat.add_0_r, app_nil_r. auto. }
  destruct (doneAt ctx) as [d|]; [|exact Htimer].
  destruct (d <? _); [exact Hdone|].
  destruct (_ && _); [exact Hdone|exact Htimer].
Qed.

Lemma sendsOnly_LLM_Complete llm ctx params :
  sendsOnly (wireRequest llm params) (LLM_Complete llm ctx params).
Proof.
  intros w.
  assert (Hnone : exists k evs,
             calls w = (calls w + k)%nat
             /\ trace w = trace w ++ evs
             /\ requestsOf evs = repeat (wireRequest llm params) k).
  { exists O, []. rewrite Nat.add_0_r, app_nil_r. auto. }
  destruct llm as [lcfg key|lcfg]; cbn [LLM_Complete].
  - pose proof (openai_convertMessages_spec lcfg key (Messages params) []) as Hconv.
    unfold openai.Complete.
    destruct (find _ (Messages params)) as [bad|];
      rewrite Hconv; [exact Hnone|].
    unfold bind, roundTrip. exists 1%nat, [EvRequest (wireRequest (OpenAIClient lcfg key) params)].
    destruct (body (backend w (calls w) _)) as [id [|first others] u|e];
      simpl; (conjs; [lia|reflexivity|reflexivity]).
  - pose proof (ollama_convertMessages_spec lcfg (Messages params) []) as Hconv.
    unfold ollama.Complete.
    destruct (url_Parse w _) as [text|].
    { exists O, [EvLog LevelError "invalid base URL"
                   [("err", FError (Some (ErrNew text)))]].
      simpl. rewrite Nat.add_0_r. auto. }
    destruct (find _ (Messages params)) as [bad|];
      rewrite Hconv; [exact Hnone|].
    unfold bind, roundTrip. exists 1%nat, [EvRequest (wireRequest (OllamaClient lcfg) params)].
    destruct (body (backend w (calls w) _)) as [id items u|e];
      simpl; (conjs; [lia|reflexivity|reflexivity]).
Qed.

Lemma sendsOnly_attemptLoop c ctx llm params model n attempt v :
  sendsOnly (wireRequest llm params)
    (attemptLoop c ctx (Some llm) params model n attempt v).
Proof.
  revert attempt v. induction n as [|n IH]; intros attempt v;
    [apply sendsOnly_ret|].
  intros w. cbn [attemptLoop].
  destruct (ctx_Err ctx (now w)) as [e|];
    [apply (sendsOnly_ret _ (LoopReturn (Return None (Some e))) w)|].
  revert w. apply sendsOnly_bind.
  - destruct (0 <? attempt); [|apply sendsOnly_ret].
    apply sendsOnly_bind; [apply sendsOnly_log|]. intros _.
    apply sendsOnly_bind; [apply sendsOnly_selectDoneOrAfter|].
    intros [|]; [|apply sendsOnly_ret].
    intros w. apply (sendsOnly_ret _ (inl (Return None (ctx_Err ctx (now w)))) w).
  - intros [out|wait]; [apply sendsOnly_ret|].
    apply sendsOnly_bind; [apply sendsOnly_LLM_Complete|].
    intros [r [e|]]; cbn [snd]; [|apply sendsOnly_ret].
    destruct (negb (isRetryableError e)); [apply sendsOnly_ret|apply IH].
Qed.

Lemma Complete_requests c ctx params model w :
  exists k evs,
    calls (snd (Complete c ctx params model w)) = (calls w + k)%nat
    /\ trace (snd (Complete c ctx params model w)) = trace w ++ evs
    /\ match clientOf c model w with
       | Some llm => requestsOf evs = repeat (wireRequest llm params) k
       | None => k = O /\ requestsOf evs = []
       end.
Proof.
  unfold clientOf, Complete.
  assert (Hnone : forall llm : option LLM, exists k evs,
             calls w = (calls w + k)%nat
             /\ trace w = trace w ++ evs
             /\ match llm with
                | Some llm => requestsOf evs = repeat (wireRequest llm params) k
                | None => k = O /\ requestsOf evs = []
                end).
  { intros llm. exists O, []. rewrite Nat.add_0_r, app_nil_r.
    destruct llm; auto. }
  destruct (getAPIKeyFunc c (Provider_ model)) as [key [e|]]; [apply Hnone|].
  cbn [fst]. unfold bind.
  match goal with
  | |- context [New ?k w] =>
      destruct (New_cases k w) as [Hw Hcases];
      destruct (New k w) as [[made e] w0]
  end.
  cbn [fst snd] in *. subst w0.
  destruct e as [e|]; [apply Hnone|].
  destruct Hcases as [[llm [= ->]]|[e [=]]].
  match goal with
  | |- context [attemptLoop c ctx (Some llm) params model ?n ?a ?v w] =>
      destruct (sendsOnly_attemptLoop c ctx llm params model n a v w)
        as (k & evs & Hc & Ht & Hr);
      destruct (attemptLoop c ctx (Some llm) params model n a v w) as [[out|v'] w1]
  end; cbn [fst snd] in *.
  - exists k, evs. auto.
  - destruct (v_err v'); [exists k, evs; auto|].
    destruct (v_res v') as [res|]; [|exists k, evs; auto].
    destruct (ResMessages res); [exists k, evs; auto|].
    exists k, evs. simpl. auto.
Qed.

(** X20: every attempt of a call of [Complete] sends the same request.
    With the client [New] builds for the model, the provider calls that
    [Complete] makes, first attempt and retries alike, all carry the
    request [wireRequest] describes: the messages of the conversation in
    order, each translated as the client translates it, under the
    configured model, with the parameters of the caller; and there are as
    many of them as the call counter advances. *)
Theorem every_attempt_sends_the_same_request (c : completer) (ctx : Context)
  (params : CompleteParams) (model : Model) (w : World) (llm : LLM) :
  clientOf c model w = Some llm ->
  exists k evs,
    calls (snd (Complete c ctx params model w)) = (calls w + k)%nat
    /\ trace (snd (Complete c ctx params model w)) = trace w ++ evs
    /\ requestsOf evs = repeat (wireRequest llm params) k.
Proof.
  intros Hllm.
  destruct (Complete_requests c ctx params model w) as (k & evs & Hc & Ht & Hr).
  rewrite Hllm in Hr. exists k, evs. auto.
Qed.

Lemma every_attempt_sends_the_same_request_witness :
  exists k evs,
    calls (snd (Complete sample.defaultCompleter sample.never sample.review
                  sample.ModelGPT4o (sample.started (sample.recovers 2))))
    = (calls (sample.started (sample.recovers 2)) + k)%nat
    /\ trace (snd (Complete sample.defaultCompleter sample.never sample.review
                     sample.ModelGPT4o (sample.started (sample.recovers 2))))
       = trace (sample.started (sample.recovers 2)) ++ evs
    /\ requestsOf evs
       = repeat (wireRequest (OpenAIClient sample.openaiCfg "sk-test") sample.review) k.
Proof.
  apply (every_attempt_sends_the_same_request sample.defaultCompleter
           sample.never sample.review sample.ModelGPT4o
           (sample.started (sample.recovers 2))
           (OpenAIClient sample.openaiCfg "sk-test")).
  vm_compute. reflexivity.
Defined.

(** * The review handler *)

Lemma getFormValueWithDefault_empty r key :
  frontend.getFormValueWithDefault r key EmptyString = frontend.FormValue r key.
Proof.
  unfold frontend.getFormValueWithDefault.
  destruct (String.eqb (frontend.FormValue r key) EmptyString) eqn:H;
    [|reflexivity].
  apply String.eqb_eq in H. now rewrite H.
Qed.

Lemma registered_initialises c m w :
  is_Some (supportedModels w !! m) ->
  Provider_ m = OpenAI \/ Provider_ m = Ollama ->
  initialises c m w /\ exists llm, clientOf c m w = Some llm.
Proof.
  intros [sm Hsm] Hprov.
  assert (Hkey : exists key, getAPIKeyFunc c (Provider_ m) = (Some key, None)).
  { unfold getAPIKeyFunc. destruct Hprov as [->| ->]; simpl; eauto. }
  destruct Hkey as (key & Hkey).
  unfold initialises, clientOf. rewrite Hkey. cbn [fst snd].
  unfold New. cbn [APIKeyFunc CfgModel]. rewrite Hsm.
  destruct (Constructor_ sm); simpl; eauto.
Qed.

(** X21: the model [postReview] asks a completion of.  It always has a
    name, and it is either the default [openai.ModelGPT4o] or an available
    model with the display name the form gives; the first available model
    with that display name is taken (if it has a name); and when the
    available models are those of a registry built in this process and
    GPT-4o is registered, [Complete] gets through its initialisation for
    the model, whatever the form says. *)
Theorem the_handler_asks_for_an_available_model_or_the_default
  (h : frontend.IndexHandler) (r : frontend.http_Request) :
  Name (selectedModel h r) <> EmptyString
  /\ (selectedModel h r = sample.ModelGPT4o
      \/ (In (selectedModel h r) (GetAvailableModels (frontend.h_completer h))
          /\ DisplayName (selectedModel h r) = frontend.FormValue r "model"))
  /\ (forall before m after,
        GetAvailableModels (frontend.h_completer h) = before ++ m :: after ->
        Forall (fun x => DisplayName x <> DisplayName m) before ->
        frontend.FormValue r "model" = DisplayName m ->
        DisplayName m <> EmptyString ->
        Name m <> EmptyString ->
        selectedModel h r = m)
  /\ (forall cfg w,
        GetAvailableModels (frontend.h_completer h)
        = models (fst (NewRegistry cfg w)) ->
        is_Some (supportedModels w !! sample.ModelGPT4o) ->
        initialises (frontend.h_completer h) (selectedModel h r) w).
Proof.
  assert (Hsel : selectedModel h r = sample.ModelGPT4o
                 \/ (Name (selectedModel h r) <> EmptyString
                     /\ In (selectedModel h r)
                          (GetAvailableModels (frontend.h_completer h))
                     /\ DisplayName (selectedModel h r)
                        = frontend.FormValue r "model")).
  { unfold selectedModel, frontend.lookupModel.
    destruct (String.eqb (frontend.FormValue r "model") EmptyString);
      [left; reflexivity|]. cbn [negb].
    destruct (find _ _) as [m|] eqn:Hfind; [|left; reflexivity].
    destruct (String.eqb (Name m) EmptyString) eqn:Hname; [left; reflexivity|].
    right. apply find_some in Hfind as [Hin Hdn].
    apply String.eqb_neq in Hname. apply String.eqb_eq in Hdn. auto. }
  conjs.
  - destruct Hsel as [->|[H _]]; [discriminate|exact H].
  - destruct Hsel as [->|(_ & Hin & Hdn)]; auto.
  - intros before m after Hav Hbefore Hform Hdn Hname.
    unfold selectedModel, frontend.lookupModel. rewrite Hform.
    apply String.eqb_neq in Hdn. rewrite Hdn. cbn [negb]. rewrite Hav.
    rewrite find_app_none.
    + cbn [find]. rewrite String.eqb_refl.
      apply String.eqb_neq in Hname. now rewrite Hname.
    + eapply Forall_impl; [exact Hbefore|].
      intros x Hx. now apply String.eqb_neq.
  - intros cfg w Hav Hgpt.
    destruct Hsel as [->|(_ & Hin & _)].
    + apply registered_initialises; [exact Hgpt|left; reflexivity].
    + rewrite Hav in Hin.
      apply list_elem_of_In, NewRegistry_elem in Hin as [Hreg Husable].
      apply registered_initialises; [exact Hreg|].
      unfold usable in Husable. apply orb_true_iff in Husable as [H|H].
      * left. now apply String.eqb_eq.
      * right. apply andb_true_iff in H as [H _]. now apply String.eqb_eq.
Qed.

Lemma the_handler_asks_for_an_available_model_or_the_default_witness :
  selectedModel sampleForm.handler
    (sampleForm.request "print(1)" "Sakana AI Tiny Swallow 1.5B")
  = sample.ModelTinySwallow.
Proof.
  destruct (the_handler_asks_for_an_available_model_or_the_default
              sampleForm.handler
              (sampleForm.request "print(1)" "Sakana AI Tiny Swallow 1.5B"))
    as (_ & _ & H & _).
  apply (H [sample.ModelGPT4o] sample.ModelTinySwallow []).
  - reflexivity.
  - repeat constructor. discriminate.
  - reflexivity.
  - discriminate.
  - discriminate.
Defined.

Lemma set_trace_same w : set_trace (trace w) w = w.
Proof. destruct w. reflexivity. Qed.

Lemma requestsOf_errorLogs evs : Forall errorLog evs -> requestsOf evs = [].
Proof.
  induction 1 as [|e evs (msg & fields & ->) _ IH]; [reflexivity|exact IH].
Qed.

Lemma RenderComponent_logs tm name data w :
  exists evs,
    frontend.RenderComponent tm name data w
    = (written tm name data, set_trace (trace w ++ evs) w)
    /\ Forall errorLog evs.
Proof.
  unfold frontend.RenderComponent, written.
  destruct (frontend.ExecuteTemplate tm name data) as [err|].
  - eexists [_]. split; [reflexivity|].
    repeat constructor. unfold errorLog. eauto.
  - exists []. rewrite app_nil_r, set_trace_same. split; [reflexivity|constructor].
Qed.

Lemma handleError_logs h r code err w :
  exists evs,
    frontend.handleError h r code err w
    = (written (frontend.templates h) "components/error"
         (frontend.ErrorData (frontend.determineErrorMessage code err)),
       set_trace (trace w ++ evs) w)
    /\ Forall errorLog evs.
Proof.
  unfold frontend.handleError. cbn zeta. unfold bind.
  destruct (code =? frontend.StatusInternalServerError).
  - unfold logger_Error, emit.
    match goal with
    | |- context [frontend.RenderComponent ?tm ?n ?d ?w1] =>
        destruct (RenderComponent_logs tm n d w1) as (evs & -> & Hlogs)
    end.
    eexists (_ :: evs). split.
    + cbn [trace set_trace]. rewrite <- app_assoc. reflexivity.
    + constructor; [unfold errorLog; eauto|exact Hlogs].
  - unfold ret.
    match goal with
    | |- context [frontend.RenderComponent ?tm ?n ?d ?w1] =>
        destruct (RenderComponent_logs tm n d w1) as (evs & -> & Hlogs)
    end.
    exists evs. auto.
Qed.

Lemma atCompletion_logs h r w :
  exists evs,
    atCompletion h r w = set_trace (trace w ++ evs) w /\ requestsOf evs = [].
Proof.
  unfold atCompletion. destruct (String.eqb _ _).
  - eexists [_]. split; reflexivity.
  - exists []. rewrite app_nil_r, set_trace_same. auto.
Qed.

(** For a valid form, [postReview] is the call of [Complete] followed by
    the rendering of what it returned. *)
Lemma postReview_valid tf h r w :
  validForm r ->
  exists evs,
    frontend.postReview tf h r w
    = (match fst (reviewCall h r w) with
       | Panic v => frontend.Panicked v
       | Return _ (Some err) =>
           frontend.Wrote
             (written (frontend.templates h) "components/error"
                (frontend.ErrorData
                   (frontend.determineErrorMessage
                      frontend.StatusInternalServerError (inr err))))
       | Return None None => frontend.Panicked nilDereference
       | Return (Some res) None =>
           match ResMessages res with
           | [] =>
               frontend.Panicked
                 "runtime error: index out of range [0] with length 0"
           | first :: _ =>
               frontend.Wrote
                 (written (frontend.templates h) "components/results"
                    (frontend.ResultsData (Content first)
                       (tf "20060102150405" (now (snd (reviewCall h r w))))))
           end
       end,
       set_trace (trace (snd (reviewCall h r w)) ++ evs) (snd (reviewCall h r w)))
    /\ Forall errorLog evs.
Proof.
  intros (Hparse & Hcode & Hlen).
  unfold frontend.postReview. rewrite Hparse. cbn zeta.
  rewrite !getFormValueWithDefault_empty.
  apply String.eqb_neq in Hcode. rewrite Hcode.
  assert ((50000 <? Z.of_nat (String.length (frontend.FormValue r "code"))) = false)
    as -> by lia.
  fold (formPrompt r).
  assert (Hfirst :
            (if String.eqb
                  (Name (frontend.lookupModel h (frontend.FormValue r "model")))
                  EmptyString
             then logger_Info "using default model"
                    [("model", FString (Name sample.ModelGPT4o))] ;;
                  ret sample.ModelGPT4o
             else ret (frontend.lookupModel h (frontend.FormValue r "model"))) w
            = (selectedModel h r, atCompletion h r w)).
  { unfold selectedModel, atCompletion.
    destruct (String.eqb (Name (frontend.lookupModel h _)) EmptyString);
      reflexivity. }
  unfold bind at 1. rewrite Hfirst. unfold bind at 1. fold (reviewCall h r w).
  destruct (reviewCall h r w) as [completion w2]. cbn [fst snd].
  destruct completion as [[res|] [err|]|v].
  - unfold bind, ret.
    destruct (handleError_logs h r frontend.StatusInternalServerError (inr err) w2)
      as (evs & -> & Hlogs).
    exists evs. cbn. auto.
  - destruct (ResMessages res) as [|first others].
    + exists []. rewrite app_nil_r, set_trace_same. simpl. auto.
    + unfold bind, ret, review.NewReview, review.generateID, bind. cbn [fst snd].
      match goal with
      | |- context [frontend.RenderComponent ?tm ?n ?d ?w1] =>
          destruct (RenderComponent_logs tm n d w1) as (evs & -> & Hlogs)
      end.
      exists evs. cbn. auto.
  - unfold bind, ret.
    destruct (handleError_logs h r frontend.StatusInternalServerError (inr err) w2)
      as (evs & -> & Hlogs).
    exists evs. cbn. auto.
  - exists []. rewrite app_nil_r, set_trace_same. simpl. auto.
  - exists []. rewrite app_nil_r, set_trace_same. simpl. auto.
Qed.

(** For a form that is not valid, [postReview] only renders a message. *)
Lemma postReview_invalid tf h r w :
  ~ validForm r ->
  exists evs message,
    frontend.postReview tf h r w
    = (frontend.Wrote (written (frontend.templates h) "components/error"
                         (frontend.ErrorData message)),
       set_trace (trace w ++ evs) w)
    /\ Forall errorLog evs.
Proof.
  intros Hinvalid. unfold frontend.postReview.
  destruct (frontend.ParseForm r) as [e|] eqn:Hparse.
  { unfold bind, ret.
    match goal with
    | |- context [frontend.handleError h r ?c ?m w] =>
        destruct (handleError_logs h r c m w) as (evs & -> & Hlogs)
    end.
    eauto. }
  cbn zeta. rewrite !getFormValueWithDefault_empty.
  destruct (String.eqb (frontend.FormValue r "code") EmptyString) eqn:Hcode.
  { unfold bind, ret.
    match goal with
    | |- context [frontend.handleError h r ?c ?m w] =>
        destruct (handleError_logs h r c m w) as (evs & -> & Hlogs)
    end.
    eauto. }
  destruct (50000 <? Z.of_nat (String.length (frontend.FormValue r "code")))
    eqn:Hlen.
  { unfold bind, ret.
    match goal with
    | |- context [frontend.handleError h r ?c ?m w] =>
        destruct (handleError_logs h r c m w) as (evs & -> & Hlogs)
    end.
    eauto. }
  exfalso. apply Hinvalid. unfold validForm.
  apply String.eqb_neq in Hcode. conjs; [exact Hparse|exact Hcode|lia].
Qed.

Lemma validForm_dec r : validForm r \/ ~ validForm r.
Proof.
  unfold validForm.
  destruct (frontend.ParseForm r) as [e|]; [right; intros [[=] _]|].
  destruct (String.eqb (frontend.FormValue r "code") EmptyString) eqn:Hcode.
  { apply String.eqb_eq in Hcode. right. intros (_ & H & _). contradiction. }
  apply String.eqb_neq in Hcode.
  destruct (Z_le_gt_dec (Z.of_nat (String.length (frontend.FormValue r "code")))
              50000) as [Hle|Hgt].
  - left. auto.
  - right. intros (_ & _ & H). lia.
Qed.

Lemma wireRequest_review llm prompt code :
  requestRoles (wireRequest llm (frontend.reviewParams prompt code))
  = ["system"; "user"]
  /\ requestContents (wireRequest llm (frontend.reviewParams prompt code))
     = [prompt; code].
Proof. destruct llm; split; reflexivity. Qed.

(** X22: what a review request costs and what it sends.  Whatever the
    form and the backend, one call of [postReview] makes at most
    [MaxAttempts] backend calls, and none when the form does not parse,
    has no code or has more than 50,000 bytes of code; every request it
    sends has exactly two messages, the system prompt built from the form
    and then the code of the form, unchanged, as the user message.  So the
    error "unsupported role" cannot come out of a review. *)
Theorem a_review_sends_the_prompt_and_the_code (tf : string -> Z -> string)
  (h : frontend.IndexHandler) (r : frontend.http_Request) (w : World) :
  exists evs,
    trace (snd (frontend.postReview tf h r w)) = trace w ++ evs
    /\ calls (snd (frontend.postReview tf h r w))
       = (calls w + length (requestsOf evs))%nat
    /\ (length (requestsOf evs)
        <= Z.to_nat (MaxAttempts (retryConfig (frontend.h_completer h))))%nat
    /\ (~ validForm r -> requestsOf evs = [])
    /\ Forall (fun req =>
                 requestRoles req = ["system"; "user"]
                 /\ requestContents req
                    = [formPrompt r; frontend.FormValue r "code"])
         (requestsOf evs).
Proof.
  destruct (validForm_dec r) as [Hvalid|Hinvalid].
  - destruct (postReview_valid tf h r w Hvalid) as (evsT & Hw & Hlogs).
    rewrite Hw. cbn [fst snd]. unfold reviewCall.
    destruct (atCompletion_logs h r w) as (evs0 & Hw1 & Hr0).
    match goal with
    | |- context [Complete ?c ?ctx ?p ?m (atCompletion h r w)] =>
        destruct (Complete_requests c ctx p m (atCompletion h r w))
          as (k & evsC & Hcalls & Htrace & Hreqs);
        pose proof (Complete_calls c ctx p m (atCompletion h r w)) as Hbound;
        destruct (Complete c ctx p m (atCompletion h r w)) as [out w2]
    end.
    cbn [fst snd] in *. rewrite Hw1 in Hcalls, Htrace, Hbound.
    cbn [calls trace set_trace] in Hcalls, Htrace, Hbound.
    exists (evs0 ++ evsC ++ evsT).
    assert (Hall : requestsOf (evs0 ++ evsC ++ evsT) = requestsOf evsC).
    { rewrite !requestsOf_app, Hr0, (requestsOf_errorLogs _ Hlogs), app_nil_r.
      reflexivity. }
    assert (Hk : length (requestsOf evsC) = k).
    { destruct (clientOf _ _ _); [rewrite Hreqs; apply repeat_length|].
      destruct Hreqs as [-> ->]. reflexivity. }
    rewrite Hall, Hk. cbn [trace calls set_trace]. rewrite Htrace, Hcalls.
    conjs.
    + now rewrite <- !app_assoc.
    + reflexivity.
    + lia.
    + intros Hinvalid. contradiction.
    + destruct (clientOf _ _ _) as [llm|].
      * rewrite Hreqs. apply Forall_forall. intros req Hin.
        apply list_elem_of_In, repeat_spec in Hin. subst req.
        apply wireRequest_review.
      * destruct Hreqs as [_ ->]. constructor.
  - destruct (postReview_invalid tf h r w Hinvalid) as (evs & message & -> & Hlogs).
    exists evs. rewrite (requestsOf_errorLogs _ Hlogs). cbn.
    conjs; [reflexivity|lia|lia|reflexivity|constructor].
Qed.

Lemma Complete_returns c ctx params model w :
  1 <= MaxAttempts (retryConfig c) ->
  (exists res first others,
     fst (Complete c ctx params model w) = Return (Some res) None
     /\ ResMessages res = first :: others)
  \/ (exists e, fst (Complete c ctx params model w) = Return None (Some e)).
Proof.
  intros Hmax. unfold Complete.
  destruct (getAPIKeyFunc c (Provider_ model)) as [key [e|]];
    [right; simpl; eauto|].
  unfold bind.
  match goal with
  | |- context [New ?k w] =>
      destruct (New_cases k w) as [Hw Hcases];
      destruct (New k w) as [[llm e] w0]
  end.
  cbn [fst snd] in *. subst w0.
  destruct e as [e|]; [right; simpl; eauto|].
  destruct Hcases as [[llm' [= ->]]|[e [=]]].
  match goal with
  | |- context [attemptLoop c ctx (Some llm') params model ?n ?a ?v w] =>
      pose proof (attemptLoop_exit c ctx (Some llm') params model n a v w) as Hexit;
      destruct (attemptLoop c ctx (Some llm') params model n a v w) as [[out|v'] w1]
  end; cbn [fst snd] in *.
  - destruct Hexit as [[e ->]|[[=] _]]. right. simpl. eauto.
  - destruct Hexit as [[Hn _]|[_ [(e & He & Hl)|(He & res & Hres)]]]; [lia| |].
    + rewrite He, Hl. right. simpl. eauto.
    + rewrite He, Hres.
      destruct (ResMessages res) as [|first others] eqn:Hm;
        [right; simpl; eauto|].
      left. exists res, first, others. simpl. auto.
Qed.

(** X23: with at least one attempt allowed, a review of a valid form never
    panics, and what it writes follows what [Complete] returned: for a
    response, the results component with the content of the first message
    and, as the review id, the time at which the completion returned; for
    an error, the error component with the message [determineErrorMessage]
    gives for it (or, either way, the fallback of [RenderComponent] when
    the template does not execute). *)
Theorem a_review_never_panics (tf : string -> Z -> string)
  (h : frontend.IndexHandler) (r : frontend.http_Request) (w : World) :
  validForm r ->
  1 <= MaxAttempts (retryConfig (frontend.h_completer h)) ->
  (exists res first,
     fst (reviewCall h r w) = Return (Some res) None
     /\ hd_error (ResMessages res) = Some first
     /\ fst (frontend.postReview tf h r w)
        = frontend.Wrote
            (written (frontend.templates h) "components/results"
               (frontend.ResultsData (Content first)
                  (tf "20060102150405" (now (snd (reviewCall h r w)))))))
  \/ (exists e,
        fst (reviewCall h r w) = Return None (Some e)
        /\ fst (frontend.postReview tf h r w)
           = frontend.Wrote
               (written (frontend.templates h) "components/error"
                  (frontend.ErrorData
                     (frontend.determineErrorMessage 500 (inr e))))).
Proof.
  intros Hvalid Hmax.
  destruct (postReview_valid tf h r w Hvalid) as (evs & -> & _).
  cbn [fst snd]. unfold reviewCall.
  match goal with
  | |- context [Complete ?c ?ctx ?p ?m ?w1] =>
      destruct (Complete_returns c ctx p m w1 Hmax)
        as [(res & first & others & -> & Hm)|(e & ->)]
  end.
  - left. exists res, first. rewrite Hm. auto.
  - right. exists e. auto.
Qed.

Lemma a_review_never_panics_witness :
  exists out,
    fst (frontend.postReview sampleForm.clock sampleForm.handler
           (sampleForm.request "print(1)" EmptyString)
           (sample.started (fun _ _ => sample.answers [sample.lgtm])))
    = frontend.Wrote out.
Proof.
  destruct (a_review_never_panics sampleForm.clock sampleForm.handler
              (sampleForm.request "print(1)" EmptyString)
              (sample.started (fun _ _ => sample.answers [sample.lgtm])))
    as [(res & first & _ & _ & H)|(e & _ & H)].
  - unfold validForm. conjs; [reflexivity|discriminate|vm_compute; discriminate].
  - vm_compute. discriminate.
  - eexists. exact H.
  - eexists. exact H.
Defined.

(** X24: which message the user is shown for a failure of the backend.
    [Complete] hands back the last client error wrapped; for it, the
    handler shows the "service unavailable" message when the backend
    answered a status 500-599, the "too many requests" message when it
    answered 429 (for the OpenAI client: with an error code that is not a
    dedicated one, see [httpError]), the "input too long" message for the
    OpenAI code context_length_exceeded, and only the general message of
    an internal error for the OpenAI code rate_limit_exceeded. *)
Theorem which_message_a_backend_failure_shows (llm : LLM) (e : error)
  (text : string) :
  let shown :=
    frontend.determineErrorMessage frontend.StatusInternalServerError
      (inr (ErrWrap text (clientError llm e))) in
  (forall status,
     httpError llm e status -> 500 <= status < 600 ->
     shown = "AIサービスが利用できません。しばらくしてから再試行してください。")
  /\ (httpError llm e 429 ->
      shown = "リクエストが多すぎます。しばらくしてから再試行してください。")
  /\ (forall cfg key a,
        llm = OpenAIClient cfg key ->
        errors_As_openai e = Some a ->
        oa_Code a = openai.ErrCodeContextLengthExceeded ->
        shown = "入力が長すぎます。短縮して再試行してください。")
  /\ (forall cfg key a,
        llm = OpenAIClient cfg key ->
        errors_As_openai e = Some a ->
        oa_Code a = openai.ErrCodeRateLimitExceeded ->
        shown = "エラーが発生しました。").
Proof.
  cbn zeta. unfold frontend.determineErrorMessage. cbn [errors_Is]. conjs.
  - intros status Hhttp Hstatus.
    destruct (clientError_http llm e status Hhttp (or_introl Hstatus))
      as (l & -> & HErr & _).
    destruct l as [inner ? ? ? ? ? ? ?]. cbn in HErr. subst inner.
    assert ((status =? 429) = false) as -> by lia. reflexivity.
  - intros Hhttp.
    destruct (clientError_http llm e 429 Hhttp (or_intror eq_refl))
      as (l & -> & HErr & _).
    destruct l as [inner ? ? ? ? ? ? ?]. cbn in HErr. subst inner. reflexivity.
  - intros cfg key a -> Ha Hcode. cbn [clientError]. unfold openai.handleError.
    rewrite Ha, Hcode. reflexivity.
  - intros cfg key a -> Ha Hcode. cbn [clientError]. unfold openai.handleError.
    rewrite Ha, Hcode. reflexivity.
Qed.

(** ** A review against a backend that is down *)







(** * The environment overrides of the configuration *)

